(** * EffectForge AI: the effect-generation and compliance-scoring pipeline

    A shallow embedding of the TypeScript sources of the repository:
    the server-side lexical analyzer ([AIEngineService]), the client-side
    template selector, generator and optimizer ([EffectGenerator]), the two
    compliance engines ([ConstitutionValidatorService] on the server,
    [ConstitutionEngine] on the client), the in-memory store ([MemStorage])
    and the generation route.

    Conventions of the embedding.
    - A JavaScript [number] is an exact rational ([Q]); IEEE-754 rounding
      is not modelled.  Where the source produces NaN (arithmetic on
      [undefined]) the value is a [jsnum], which has a NaN constructor.
    - A JavaScript [string] is a [string] of 8-bit characters: the source
      text is read as its UTF-8 bytes.  All patterns searched for in the
      sources are ASCII, so [includes] and [replace] agree with the
      JavaScript operations; the classes [\s], [\d] and [\w] are the ASCII
      ones.
    - A thrown exception is the [Throw] constructor of [result]; [null]
      and [undefined] are [None]. *)

From Stdlib Require Import ZArith QArith Qround Qminmax Qabs String Ascii List Lia Lqa Bool.
From stdpp Require Import gmap strings pretty sorting.
Import ListNotations.

Local Open Scope string_scope.

(** ** JavaScript runtime operations used by the sources *)

Module Js.

(** [s.startsWith(p)], returning what follows the prefix. *)
Fixpoint strip_prefix (p s : string) : option string :=
  match p with
  | "" => Some s
  | String a p' =>
      match s with
      | "" => None
      | String b s' => if Ascii.eqb a b then strip_prefix p' s' else None
      end
  end.

(** [s.includes(needle)]. *)
Fixpoint includes (needle s : string) : bool :=
  match strip_prefix needle s with
  | Some _ => true
  | None =>
      match s with
      | "" => false
      | String _ s' => includes needle s'
      end
  end.

(** [s.replace(pat, rep)] with a string pattern: only the first occurrence
    is replaced.  No replacement string of the sources contains [$]. *)
Fixpoint replace (pat rep s : string) : string :=
  match strip_prefix pat s with
  | Some rest => rep +:+ rest
  | None =>
      match s with
      | "" => ""
      | String c s' => String c (replace pat rep s')
      end
  end.

(** Number of (non-overlapping, left-to-right) occurrences of a non-empty
    fragment; used to count boilerplate blocks. *)
Fixpoint count_from (frag : string) (skip : nat) (s : string) : nat :=
  match s with
  | "" => 0
  | String _ s' =>
      match skip with
      | S k => count_from frag k s'
      | O =>
          match strip_prefix frag s with
          | Some _ => S (count_from frag (String.length frag - 1) s')
          | None => count_from frag 0 s'
          end
      end
  end.

Definition occurrences (frag s : string) : nat := count_from frag 0 s.

(** Character classes. *)
Definition is_digit (c : ascii) : bool :=
  let n := nat_of_ascii c in (48 <=? n)%nat && (n <=? 57)%nat.

Definition is_space (c : ascii) : bool :=
  let n := nat_of_ascii c in ((9 <=? n)%nat && (n <=? 13)%nat) || (n =? 32)%nat.

Definition is_upper (c : ascii) : bool :=
  let n := nat_of_ascii c in (65 <=? n)%nat && (n <=? 90)%nat.

Definition is_lower (c : ascii) : bool :=
  let n := nat_of_ascii c in (97 <=? n)%nat && (n <=? 122)%nat.

Definition is_word (c : ascii) : bool :=
  is_digit c || is_upper c || is_lower c || (nat_of_ascii c =? 95)%nat.

(** The regular expressions of the sources are sequences of literals and
    of greedy repetitions of a character class.  In every one of them the
    item that follows a repetition starts with a character outside the
    class, so greedy matching never has to backtrack. *)
Inductive item : Type :=
  | Lit (s : string)
  | Star (cls : ascii -> bool)
  | Plus (cls : ascii -> bool).

Definition regex := list item.

Fixpoint skip_while (cls : ascii -> bool) (s : string) : string :=
  match s with
  | "" => ""
  | String c s' => if cls c then skip_while cls s' else s
  end.

(** Match the expression at the start of [s]; the result is the text
    after the match. *)
Fixpoint match_here (re : regex) (s : string) : option string :=
  match re with
  | [] => Some s
  | Lit p :: re' =>
      match strip_prefix p s with
      | Some s' => match_here re' s'
      | None => None
      end
  | Star cls :: re' => match_here re' (skip_while cls s)
  | Plus cls :: re' =>
      match s with
      | "" => None
      | String c s' =>
          if cls c then match_here re' (skip_while cls s') else None
      end
  end.

(** [s.replace(/re/g, rep)]: [skip] counts the characters of the current
    match that are still to be consumed. *)
Fixpoint replaceAll_from (re : regex) (rep : string) (skip : nat) (s : string)
  : string :=
  match s with
  | "" =>
      match skip, match_here re "" with
      | O, Some _ => rep
      | _, _ => ""
      end
  | String c s' =>
      match skip with
      | S k => replaceAll_from re rep k s'
      | O =>
          match match_here re s with
          | None => String c (replaceAll_from re rep 0 s')
          | Some rest =>
              match (String.length s - String.length rest)%nat with
              | O => rep +:+ String c (replaceAll_from re rep 0 s')
              | S k => rep +:+ replaceAll_from re rep k s'
              end
          end
      end
  end.

Definition replaceAll (re : regex) (rep s : string) : string :=
  replaceAll_from re rep 0 s.

(** Vocabulary for statements about texts: every character of [s] is in
    the class; [s] starts with a character of the class; the character
    occurs in [s]; the character occurs in no literal and in no class of
    the expression. *)
Fixpoint all_chars (cls : ascii -> bool) (s : string) : bool :=
  match s with
  | "" => true
  | String c s' => cls c && all_chars cls s'
  end.

Definition starts_with (cls : ascii -> bool) (s : string) : bool :=
  match s with
  | "" => false
  | String c _ => cls c
  end.

Fixpoint char_in (x : ascii) (s : string) : bool :=
  match s with
  | "" => false
  | String c s' => Ascii.eqb c x || char_in x s'
  end.

Definition avoids (x : ascii) (re : regex) : bool :=
  forallb (fun i =>
             match i with
             | Lit p => negb (char_in x p)
             | Star cls => negb (cls x)
             | Plus cls => negb (cls x)
             end) re.

(** [Math.round]: nearest integer, halves towards +infinity. *)
Definition round (x : Q) : Z := Qfloor (x + (1 # 2)).

(** [x < y] on numbers; [x <= y] is [Qle_bool]. *)
Definition Qlt_bool (x y : Q) : bool := negb (Qle_bool y x).

(** [a || b] on nullable strings: [null] and the empty string are falsy. *)
Definition truthy (s : option string) : bool :=
  match s with
  | Some (String _ _) => true
  | _ => false
  end.

Definition or_else (a : option string) (b : string) : string :=
  match a with
  | Some (String c s) => String c s
  | _ => b
  end.

Definition or_opt (a b : option string) : option string :=
  if truthy a then a else b.

(** A computation that may throw [new Error(msg)]. *)
Inductive result (A : Type) : Type :=
  | Ok (a : A)
  | Throw (msg : string).
Arguments Ok {A} a.
Arguments Throw {A} msg.

End Js.

(** ** Server: [ConstitutionValidatorService] *)

Module Validator.

Local Open Scope Q_scope.

(** A row of the [effects] table ([Effect] of the shared schema).
    Identifiers are opaque; a [Date] is its millisecond count. *)
Record Effect : Type := {
  id : nat;
  name : string;
  description : string;
  category : string;
  type : string;
  tags : list string;
  javascriptCode : option string;
  cssCode : option string;
  afterEffectsCode : option string;
  constitutionScore : Q;
  performanceCompliant : bool;
  intelligenceAdaptive : bool;
  universalCompatible : bool;
  perfectExperience : bool;
  visualImpact : bool;
  addictiveEcosystem : bool;
  competitiveDomination : bool;
  renderTime : Q;
  memoryUsage : Q;
  targetFps : Q;
  generatedBy : string;
  generationPrompt : option string;
  createdAt : Z;
  updatedAt : Z
}.

Record ConstitutionArticle : Type := {
  article_id : nat;
  article_name : string;
  article_description : string;
  weight : Q
}.

(** What each article validator returns. *)
Record ArticleResult : Type := {
  score : Z;
  compliant : bool;
  details : string;
  recommendations : option (list string)
}.

Record ConstitutionCompliance : Type := {
  totalScore : Z;
  c_performanceCompliant : bool;
  c_intelligenceAdaptive : bool;
  c_universalCompatible : bool;
  c_perfectExperience : bool;
  c_visualImpact : bool;
  c_addictiveEcosystem : bool;
  c_competitiveDomination : bool;
  c_details : gmap string ArticleResult
}.

Definition articles : list ConstitutionArticle := [
  {| article_id := 1; article_name := "Performance Absolue";
     article_description := "Chaque effet doit fonctionner à 60fps minimum avec un temps de rendu <200ms";
     weight := 143 # 10 |};
  {| article_id := 2; article_name := "Intelligence Adaptative";
     article_description := "Auto-calibration et adaptation aux conditions système";
     weight := 143 # 10 |};
  {| article_id := 3; article_name := "Polyvalence Universelle";
     article_description := "Compatibilité cross-platform et multi-codec";
     weight := 143 # 10 |};
  {| article_id := 4; article_name := "Expérience Parfaite";
     article_description := "Interface one-click avec preview temps réel";
     weight := 143 # 10 |};
  {| article_id := 5; article_name := "Impact Visuel";
     article_description := "Wow factor avec physique avancée et rendu spectaculaire";
     weight := 143 # 10 |};
  {| article_id := 6; article_name := "Écosystème Addictif";
     article_description := "Expérience immersive avec addiction positive";
     weight := 143 # 10 |};
  {| article_id := 7; article_name := "Domination Concurrentielle";
     article_description := "Performance et qualité supérieures à toute concurrence";
     weight := 142 # 10 |}
].

(** [this.articles[i].weight]; the table has seven rows and is only read
    at the indices 0 to 6. *)
Definition article_weight (i : nat) : Q :=
  match articles !! i with
  | Some a => weight a
  | None => 0
  end.

(** [recommendations.length > 0 ? recommendations : undefined] *)
Definition some_if_nonempty (l : list string) : option (list string) :=
  match l with
  | [] => None
  | _ => Some l
  end.

(** [if (cond) recommendations.push(msg)] *)
Definition push_if (cond : bool) (msg : string) (recs : list string) : list string :=
  if cond then recs ++ [msg] else recs.

(** The [else] branch of a marker test: push unless the marker is found. *)
Definition unless (found : bool) (msg : string) (recs : list string) : list string :=
  push_if (negb found) msg recs.

Section Scoring.

(** The conversion of a number to text in a template literal. *)
Variable numberToString : Q -> string.

(** *** Article I *)

Definition fpsScore (effect : Effect) : Q :=
  if Qle_bool 60 (targetFps effect) then 40 else (targetFps effect / 60) * 40.

Definition renderScore (effect : Effect) : Q :=
  if Qle_bool (renderTime effect) (1667 # 100) then 40
  else Qmax 0 (40 - (renderTime effect - (1667 # 100)) * 2).

Definition memoryScore (effect : Effect) : Q :=
  if Qle_bool (memoryUsage effect) 256 then 20
  else Qmax 0 (20 - ((memoryUsage effect - 256) / 256) * 20).

(** The value of the local [score] before it is rounded. *)
Definition performanceScore (effect : Effect) : Q :=
  0 + fpsScore effect + renderScore effect + memoryScore effect.

Definition validatePerformanceAbsolue (effect : Effect) : ArticleResult :=
  let score := performanceScore effect in
  let recs := push_if (Js.Qlt_bool (targetFps effect) 60)
                "Increase target FPS to 60 for constitutional compliance" [] in
  let recs := push_if (Js.Qlt_bool (1667 # 100) (renderTime effect))
                "Optimize render time to under 16.67ms (60fps requirement)" recs in
  let recs := push_if (Js.Qlt_bool 256 (memoryUsage effect))
                "Reduce memory usage to under 256MB for optimal performance" recs in
  {| score := Js.round score;
     compliant := Qle_bool 90 score;
     details := "FPS: " +:+ numberToString (targetFps effect) +:+ ", Render: "
                +:+ numberToString (renderTime effect) +:+ "ms, Memory: "
                +:+ numberToString (memoryUsage effect) +:+ "MB";
     recommendations := some_if_nonempty recs |}.

(** *** Article II *)

Definition intelligenceCode (effect : Effect) : string :=
  Js.or_else (Js.or_opt (Js.or_opt (javascriptCode effect) (cssCode effect))
                        (afterEffectsCode effect)) "".

Definition hasAutoCalibration (code : string) : bool :=
  Js.includes "autoCalibrate" code || Js.includes "adaptiveParameters" code.
Definition hasDeviceDetection (code : string) : bool :=
  Js.includes "detectPlatform" code || Js.includes "deviceCapacity" code.
Definition hasPerformanceMonitoring (code : string) : bool :=
  Js.includes "performanceMonitor" code || Js.includes "optimizeForNextFrame" code.

Definition intelligenceScore (effect : Effect) : Q :=
  let code := intelligenceCode effect in
  0 + (if hasAutoCalibration code then 50 else 0)
    + (if hasDeviceDetection code then 25 else 0)
    + (if hasPerformanceMonitoring code then 25 else 0).

Definition validateIntelligenceAdaptative (effect : Effect) : ArticleResult :=
  let score := intelligenceScore effect in
  let code := intelligenceCode effect in
  let recs := unless (hasAutoCalibration code)
                "Add auto-calibration functionality" [] in
  let recs := unless (hasDeviceDetection code)
                "Add device detection and adaptation" recs in
  let recs := unless (hasPerformanceMonitoring code)
                "Add performance monitoring and dynamic optimization" recs in
  {| score := Js.round score;
     compliant := Qle_bool 90 score;
     details := "Adaptive features: " +:+
                (if Js.Qlt_bool 75 score then "Advanced"
                 else if Js.Qlt_bool 50 score then "Basic" else "Limited");
     recommendations := some_if_nonempty recs |}.

(** *** Article III *)

(** [[js, css, ae].filter(Boolean).length] *)
Definition platforms (effect : Effect) : nat :=
  length (List.filter Js.truthy
            [javascriptCode effect; cssCode effect; afterEffectsCode effect]).

Definition webCode (effect : Effect) : string :=
  Js.or_else (Js.or_opt (javascriptCode effect) (cssCode effect)) "".

Definition hasCrossBrowser (code : string) : bool :=
  Js.includes "crossBrowser" code || Js.includes "polyfill" code
  || Js.includes "compatibility" code.
Definition hasUniversalCodec (code : string) : bool :=
  Js.includes "detectPlatform" code && Js.includes "setupCrossBrowserCompat" code.

Definition versatilityScore (effect : Effect) : Q :=
  let code := webCode effect in
  0 + (inject_Z (Z.of_nat (platforms effect)) / 3) * 40
    + (if hasCrossBrowser code then 30 else 0)
    + (if hasUniversalCodec code then 30 else 0).

Definition validatePolyvalenceUniverselle (effect : Effect) : ArticleResult :=
  let score := versatilityScore effect in
  let code := webCode effect in
  let recs := push_if (platforms effect <? 2)%nat
                "Generate code for multiple platforms (JS, CSS, AE)" [] in
  let recs := unless (hasCrossBrowser code)
                "Add cross-browser compatibility features" recs in
  let recs := unless (hasUniversalCodec code)
                "Add universal codec and platform detection" recs in
  {| score := Js.round score;
     compliant := Qle_bool 90 score;
     details := "Platforms: " +:+ numberToString (inject_Z (Z.of_nat (platforms effect)))
                +:+ "/3, Cross-compatibility: "
                +:+ (if Js.Qlt_bool 70 score then "Full" else "Partial");
     recommendations := some_if_nonempty recs |}.

(** *** Article IV *)

Definition jsCode (effect : Effect) : string :=
  Js.or_else (javascriptCode effect) "".

Definition hasOneClick (code : string) : bool :=
  Js.includes "oneClick" code || Js.includes "start()" code || Js.includes "init()" code.
Definition hasLivePreview (code : string) : bool :=
  Js.includes "livePreview" code || Js.includes "render()" code
  || Js.includes "requestAnimationFrame" code.
Definition hasInteraction (code : string) : bool :=
  Js.includes "bindEvents" code || Js.includes "interactive" code
  || Js.includes "mousemove" code.

Definition experienceScore (effect : Effect) : Q :=
  let code := jsCode effect in
  0 + (if hasOneClick code then 50 else 0)
    + (if hasLivePreview code then 30 else 0)
    + (if hasInteraction code then 20 else 0).

Definition validateExperienceParfaite (effect : Effect) : ArticleResult :=
  let score := experienceScore effect in
  let code := jsCode effect in
  let recs := unless (hasOneClick code)
                "Add one-click initialization functionality" [] in
  let recs := unless (hasLivePreview code)
                "Add live preview functionality" recs in
  let recs := unless (hasInteraction code)
                "Add interactive user experience features" recs in
  {| score := Js.round score;
     compliant := Qle_bool 90 score;
     details := "UX Features: " +:+
                (if Js.Qlt_bool 80 score then "Complete"
                 else if Js.Qlt_bool 50 score then "Good" else "Basic");
     recommendations := some_if_nonempty recs |}.

(** *** Article V *)

Definition hasWowFactor (code : string) : bool :=
  Js.includes "wowFactor" code || Js.includes "spectacular" code
  || Js.includes "glow" code.
Definition hasPhysics (code : string) : bool :=
  Js.includes "physics" code || Js.includes "gravity" code
  || Js.includes "friction" code.
Definition hasQuality (code : string) : bool :=
  Js.includes "antialiasing" code || Js.includes "smoothing" code
  || Js.includes "quality" code.

Definition visualScore (effect : Effect) : Q :=
  let code := webCode effect in
  0 + (if hasWowFactor code then 40 else 0)
    + (if hasPhysics code then 30 else 0)
    + (if hasQuality code then 30 else 0).

Definition validateImpactVisuel (effect : Effect) : ArticleResult :=
  let score := visualScore effect in
  let code := webCode effect in
  let recs := unless (hasWowFactor code)
                "Add visual wow factor elements (glow, shadows, effects)" [] in
  let recs := unless (hasPhysics code)
                "Add advanced physics simulation" recs in
  let recs := unless (hasQuality code)
                "Add high-quality visual rendering features" recs in
  {| score := Js.round score;
     compliant := Qle_bool 90 score;
     details := "Visual Impact: " +:+
                (if Js.Qlt_bool 80 score then "Spectacular"
                 else if Js.Qlt_bool 50 score then "Good" else "Basic");
     recommendations := some_if_nonempty recs |}.

(** *** Article VI *)

Definition hasImmersion (code : string) : bool :=
  Js.includes "immersive" code || Js.includes "engaging" code
  || Js.includes "interactive" code.
Definition hasSurprise (code : string) : bool :=
  Js.includes "surprise" code || Js.includes "variation" code
  || Js.includes "random" code.
Definition hasRetention (code : string) : bool :=
  Js.includes "progress" code || Js.includes "achievement" code
  || Js.includes "feedback" code.

Definition ecosystemScore (effect : Effect) : Q :=
  let code := jsCode effect in
  0 + (if hasImmersion code then 50 else 0)
    + (if hasSurprise code then 30 else 0)
    + (if hasRetention code then 20 else 0).

Definition validateEcosystemeAddictif (effect : Effect) : ArticleResult :=
  let score := ecosystemScore effect in
  let code := jsCode effect in
  let recs := unless (hasImmersion code)
                "Add immersive and engaging interaction features" [] in
  let recs := unless (hasSurprise code)
                "Add surprise elements and variations to maintain engagement" recs in
  let recs := unless (hasRetention code)
                "Add progress tracking and feedback mechanisms" recs in
  {| score := Js.round score;
     compliant := Qle_bool 90 score;
     details := "Engagement Level: " +:+
                (if Js.Qlt_bool 80 score then "Addictive"
                 else if Js.Qlt_bool 50 score then "Engaging" else "Basic");
     recommendations := some_if_nonempty recs |}.

(** *** Article VII *)

Definition pct (flag : bool) : Q := if flag then 100 else 0.

Definition otherArticlesAvg (effect : Effect) : Q :=
  (pct (performanceCompliant effect) + pct (intelligenceAdaptive effect)
   + pct (universalCompatible effect) + pct (perfectExperience effect)
   + pct (visualImpact effect) + pct (addictiveEcosystem effect)) / 6.

Definition hasInnovation (code : string) : bool :=
  Js.includes "innovative" code || Js.includes "revolutionary" code
  || Js.includes "advanced" code.

Definition hasCompetitiveAdvantage (effect : Effect) : bool :=
  Js.Qlt_bool (renderTime effect) 10 && Qle_bool 60 (targetFps effect)
  && Js.Qlt_bool (memoryUsage effect) 200.

Definition dominationScore (effect : Effect) : Q :=
  0 + (otherArticlesAvg effect / 100) * 40
    + (if hasInnovation (webCode effect) then 30 else 0)
    + (if hasCompetitiveAdvantage effect then 30 else 0).

Definition validateDominationConcurrentielle (effect : Effect) : ArticleResult :=
  let score := dominationScore effect in
  let recs := unless (hasInnovation (webCode effect))
                "Add innovative and revolutionary features" [] in
  let recs := unless (hasCompetitiveAdvantage effect)
                "Achieve superior performance metrics vs competition" recs in
  {| score := Js.round score;
     compliant := Qle_bool 95 score;
     details := "Competitive Position: " +:+
                (if Js.Qlt_bool 95 score then "Dominant"
                 else if Js.Qlt_bool 80 score then "Superior" else "Competitive");
     recommendations := some_if_nonempty recs |}.

(** *** The report *)

Definition validateCompliance (effect : Effect) : ConstitutionCompliance :=
  let totalWeightedScore := 0 in
  let perfResult := validatePerformanceAbsolue effect in
  let totalWeightedScore :=
    totalWeightedScore + inject_Z (score perfResult) * (article_weight 0 / 100) in
  let intResult := validateIntelligenceAdaptative effect in
  let totalWeightedScore :=
    totalWeightedScore + inject_Z (score intResult) * (article_weight 1 / 100) in
  let univResult := validatePolyvalenceUniverselle effect in
  let totalWeightedScore :=
    totalWeightedScore + inject_Z (score univResult) * (article_weight 2 / 100) in
  let expResult := validateExperienceParfaite effect in
  let totalWeightedScore :=
    totalWeightedScore + inject_Z (score expResult) * (article_weight 3 / 100) in
  let visResult := validateImpactVisuel effect in
  let totalWeightedScore :=
    totalWeightedScore + inject_Z (score visResult) * (article_weight 4 / 100) in
  let ecoResult := validateEcosystemeAddictif effect in
  let totalWeightedScore :=
    totalWeightedScore + inject_Z (score ecoResult) * (article_weight 5 / 100) in
  let domResult := validateDominationConcurrentielle effect in
  let totalWeightedScore :=
    totalWeightedScore + inject_Z (score domResult) * (article_weight 6 / 100) in
  {| totalScore := Js.round totalWeightedScore;
     c_performanceCompliant := compliant perfResult;
     c_intelligenceAdaptive := compliant intResult;
     c_universalCompatible := compliant univResult;
     c_perfectExperience := compliant expResult;
     c_visualImpact := compliant visResult;
     c_addictiveEcosystem := compliant ecoResult;
     c_competitiveDomination := compliant domResult;
     c_details :=
       <["Domination Concurrentielle" := domResult]>
       (<["Écosystème Addictif" := ecoResult]>
       (<["Impact Visuel" := visResult]>
       (<["Expérience Parfaite" := expResult]>
       (<["Polyvalence Universelle" := univResult]>
       (<["Intelligence Adaptative" := intResult]>
       (<["Performance Absolue" := perfResult]> ∅)))))) |}.

End Scoring.

(** *** Enforcement *)

Definition cssPerformanceBlock : string :=
"
/* Constitutional Performance Enhancements */
.effect {
  will-change: transform, opacity;
  transform: translate3d(0, 0, 0);
  backface-visibility: hidden;
}".

Definition cssVisualBlock : string :=
"
/* Constitutional Visual Impact */
.effect {
  filter: drop-shadow(0 0 10px rgba(0, 212, 255, 0.5));
  animation-timing-function: cubic-bezier(0.4, 0, 0.2, 1);
}".

Definition aePerformanceBlock : string :=
"var time = thisComp.time;
// Constitutional Performance Optimization
if (thisComp.frameRate < 60) {
  time *= 0.8; // Slow down for performance
}".

Definition adaptiveCode : string :=
"
  // Constitutional Article II: Intelligence Adaptative
  autoCalibrate() {
    const deviceCapacity = this.detectDeviceCapacity();
    this.adjustParametersForDevice(deviceCapacity);
  }
  
  detectDeviceCapacity() {
    const canvas = document.createElement('canvas');
    const gl = canvas.getContext('webgl');
    const isMobile = /Mobile|Android|iPhone|iPad/.test(navigator.userAgent);
    
    if (isMobile) return 'low';
    return gl ? 'high' : 'medium';
  }
  
  adjustParametersForDevice(capacity) {
    switch(capacity) {
      case 'low':
        this.options.particleCount = Math.min(this.options.particleCount || 100, 30);
        break;
      case 'medium':
        this.options.particleCount = Math.min(this.options.particleCount || 100, 60);
        break;
      case 'high':
        this.options.particleCount = this.options.particleCount || 100;
        break;
    }
  }".

Definition adaptiveInit : string :=
"init() {
    this.autoCalibrate();".

Definition perfCode : string :=
"
  // Constitutional Article I: Performance Absolue
  setupPerformanceMonitoring() {
    this.frameTime = 1000 / 60; // 60fps target
    this.performanceHistory = [];
  }
  
  optimizeForNextFrame() {
    const avgFrameTime = this.performanceHistory.reduce((a, b) => a + b, 0) / this.performanceHistory.length;
    
    if (avgFrameTime > this.frameTime) {
      // Reduce particle count by 10%
      const reduceCount = Math.floor(this.particles.length * 0.1);
      this.particles.splice(-reduceCount);
    }
  }".

Definition perfInit : string :=
"init() {
    this.setupPerformanceMonitoring();".

Definition compatCode : string :=
"
  // Constitutional Article III: Polyvalence Universelle
  setupCrossBrowserCompat() {
    // Polyfills for older browsers
    if (!window.requestAnimationFrame) {
      window.requestAnimationFrame = (callback) => setTimeout(callback, 16);
    }
    
    // Feature detection and fallbacks
    this.hasWebGL = !!this.canvas.getContext('webgl');
    this.hasWorkers = typeof Worker !== 'undefined';
  }
  
  detectPlatform() {
    this.platform = {
      isMobile: /Mobile|Android|iPhone|iPad/.test(navigator.userAgent),
      isTablet: /iPad|Android(?!.*Mobile)/.test(navigator.userAgent),
      isDesktop: !/Mobile|Android|iPhone|iPad/.test(navigator.userAgent)
    };
  }".

Definition compatInit : string :=
"init() {
    this.setupCrossBrowserCompat();
    this.detectPlatform();".

Definition experienceCode : string :=
"
  // Constitutional Article IV: Expérience Parfaite
  enableOneClickOperation() {
    return new Promise((resolve) => {
      this.start();
      resolve(this);
    });
  }
  
  livePreview() {
    return this.canvas;
  }
  
  setupUserInteraction() {
    this.canvas.addEventListener('mousemove', (e) => {
      const rect = this.canvas.getBoundingClientRect();
      this.mouseX = e.clientX - rect.left;
      this.mouseY = e.clientY - rect.top;
    });
  }".

Definition experienceInit : string :=
"init() {
    this.setupUserInteraction();".

Definition visualCode : string :=
"
  // Constitutional Article V: Impact Visuel
  enhanceVisualImpact() {
    this.ctx.shadowBlur = 15;
    this.ctx.shadowColor = 'rgba(0, 212, 255, 0.6)';
  }
  
  addAdvancedPhysics() {
    this.gravity = 0.1;
    this.friction = 0.99;
    this.bounce = 0.8;
  }
  
  createWowFactor() {
    // Add spectacular visual effects
    this.glowEffect = true;
    this.particleTrails = true;
  }".

Definition visualInit : string :=
"init() {
    this.enhanceVisualImpact();
    this.addAdvancedPhysics();
    this.createWowFactor();".

Definition addictiveCode : string :=
"
  // Constitutional Article VI: Écosystème Addictif
  createEngagementLoop() {
    setInterval(() => {
      this.triggerSurpriseElement();
    }, 5000 + Math.random() * 5000); // Random intervals for unpredictability
  }
  
  triggerSurpriseElement() {
    // Add unexpected visual elements
    this.createBurstEffect();
    this.changeColorPalette();
  }
  
  addInteractivity() {
    this.canvas.addEventListener('click', () => {
      this.createClickEffect();
    });
  }".

Definition addictiveInit : string :=
"init() {
    this.createEngagementLoop();
    this.addInteractivity();".

Definition addAdaptiveIntelligence (code : string) : string :=
  Js.replace "init() {" adaptiveInit code +:+ adaptiveCode.

Definition addPerformanceOptimizations (code : string) : string :=
  Js.replace "init() {" perfInit code +:+ perfCode.

Definition addUniversalCompatibility (code : string) : string :=
  Js.replace "init() {" compatInit code +:+ compatCode.

Definition addPerfectExperience (code : string) : string :=
  Js.replace "init() {" experienceInit code +:+ experienceCode.

Definition addVisualImpact (code : string) : string :=
  Js.replace "init() {" visualInit code +:+ visualCode.

Definition addAddictiveFeatures (code : string) : string :=
  Js.replace "init() {" addictiveInit code +:+ addictiveCode.

Definition enhanceJavaScriptCode (code : string) (compliance : ConstitutionCompliance)
  : string :=
  let enhanced := code in
  let enhanced := if negb (c_intelligenceAdaptive compliance)
                  then addAdaptiveIntelligence enhanced else enhanced in
  let enhanced := if negb (c_performanceCompliant compliance)
                  then addPerformanceOptimizations enhanced else enhanced in
  let enhanced := if negb (c_universalCompatible compliance)
                  then addUniversalCompatibility enhanced else enhanced in
  let enhanced := if negb (c_perfectExperience compliance)
                  then addPerfectExperience enhanced else enhanced in
  let enhanced := if negb (c_visualImpact compliance)
                  then addVisualImpact enhanced else enhanced in
  let enhanced := if negb (c_addictiveEcosystem compliance)
                  then addAddictiveFeatures enhanced else enhanced in
  enhanced.

Definition enhanceCSSCode (code : string) (compliance : ConstitutionCompliance)
  : string :=
  let enhanced := code in
  let enhanced := if negb (c_performanceCompliant compliance)
                  then enhanced +:+ cssPerformanceBlock else enhanced in
  let enhanced := if negb (c_visualImpact compliance)
                  then enhanced +:+ cssVisualBlock else enhanced in
  enhanced.

Definition enhanceAfterEffectsCode (code : string) (compliance : ConstitutionCompliance)
  : string :=
  let enhanced := code in
  let enhanced := if negb (c_performanceCompliant compliance)
                  then Js.replace "var time = thisComp.time;" aePerformanceBlock enhanced
                  else enhanced in
  enhanced.

(** [if (code) code = enhance(code, compliance)] *)
Definition enhance_if_present (enhance : string -> ConstitutionCompliance -> string)
  (code : option string) (compliance : ConstitutionCompliance) : option string :=
  match code with
  | Some (String c s) => Some (enhance (String c s) compliance)
  | other => other
  end.

Definition enforceConstitutionalCompliance (effect : Effect)
  (compliance : ConstitutionCompliance) : Effect :=
  let failing := negb (c_performanceCompliant compliance) in
  {| id := id effect; name := name effect; description := description effect;
     category := category effect; type := type effect; tags := tags effect;
     javascriptCode :=
       enhance_if_present enhanceJavaScriptCode (javascriptCode effect) compliance;
     cssCode := enhance_if_present enhanceCSSCode (cssCode effect) compliance;
     afterEffectsCode :=
       enhance_if_present enhanceAfterEffectsCode (afterEffectsCode effect) compliance;
     constitutionScore := constitutionScore effect;
     performanceCompliant := performanceCompliant effect;
     intelligenceAdaptive := intelligenceAdaptive effect;
     universalCompatible := universalCompatible effect;
     perfectExperience := perfectExperience effect;
     visualImpact := visualImpact effect;
     addictiveEcosystem := addictiveEcosystem effect;
     competitiveDomination := competitiveDomination effect;
     renderTime := if failing then Qmin (renderTime effect) 15 else renderTime effect;
     memoryUsage := if failing then Qmin (memoryUsage effect) 256 else memoryUsage effect;
     targetFps := if failing then Qmax (targetFps effect) 60 else targetFps effect;
     generatedBy := generatedBy effect; generationPrompt := generationPrompt effect;
     createdAt := createdAt effect; updatedAt := updatedAt effect |}.

(** The copy of [effect] that carries the flags and the score of a report. *)
Definition with_report (effect : Effect) (compliance : ConstitutionCompliance) : Effect :=
  {| id := id effect; name := name effect; description := description effect;
     category := category effect; type := type effect; tags := tags effect;
     javascriptCode := javascriptCode effect;
     cssCode := cssCode effect;
     afterEffectsCode := afterEffectsCode effect;
     constitutionScore := inject_Z (totalScore compliance);
     performanceCompliant := c_performanceCompliant compliance;
     intelligenceAdaptive := c_intelligenceAdaptive compliance;
     universalCompatible := c_universalCompatible compliance;
     perfectExperience := c_perfectExperience compliance;
     visualImpact := c_visualImpact compliance;
     addictiveEcosystem := c_addictiveEcosystem compliance;
     competitiveDomination := c_competitiveDomination compliance;
     renderTime := renderTime effect;
     memoryUsage := memoryUsage effect;
     targetFps := targetFps effect;
     generatedBy := generatedBy effect; generationPrompt := generationPrompt effect;
     createdAt := createdAt effect; updatedAt := updatedAt effect |}.

Section Enforcing.

Variable numberToString : Q -> string.

Definition validateAndEnforce (effect : Effect) : Effect :=
  let compliance := validateCompliance numberToString effect in
  let enforcedEffect := with_report effect compliance in
  if (totalScore compliance <? 90)%Z
  then enforceConstitutionalCompliance enforcedEffect compliance
  else enforcedEffect.

End Enforcing.

End Validator.

(** ** The DNA record shared by the analyzer, the generator and the client
    engine ([EffectDNA]) *)

Module Dna.

Record EmotionalProfile : Type := {
  energy : Q;
  complexity : Q;
  elegance : Q
}.

Record TechnicalRequirements : Type := {
  performance : Q;
  memory : Q;
  compatibility : list string
}.

Record EffectDNA : Type := {
  primaryConcepts : list string;
  emotionalProfile : EmotionalProfile;
  technicalRequirements : TechnicalRequirements;
  confidenceScore : Q;
  constitutionCompliance : bool
}.

End Dna.

(** ** Client: [ConstitutionEngine] *)

Module Engine.

Import Dna.
Local Open Scope Q_scope.

Record Metadata : Type := {
  renderTime : Q;
  memoryUsage : Q;
  fps : Q;
  constitutionScore : Q
}.

Record GeneratedEffect : Type := {
  id : string;
  name : string;
  description : string;
  code : string;
  metadata : Metadata;
  dna : EffectDNA
}.

Definition with_code (effect : GeneratedEffect) (c : string) : GeneratedEffect :=
  {| id := id effect; name := name effect; description := description effect;
     code := c; metadata := metadata effect; dna := dna effect |}.

Definition with_metadata (effect : GeneratedEffect) (m : Metadata) : GeneratedEffect :=
  {| id := id effect; name := name effect; description := description effect;
     code := code effect; metadata := m; dna := dna effect |}.

Record ConstitutionArticle : Type := {
  article_id : nat;
  article_name : string;
  article_description : string;
  validator : GeneratedEffect -> bool;
  enforcer : GeneratedEffect -> GeneratedEffect
}.

Record ArticleCompliance : Type := {
  compliant : bool;
  score : Q;
  details : string
}.

Record ConstitutionCompliance : Type := {
  totalScore : Z;
  c_articles : gmap string ArticleCompliance
}.

(** *** Article enforcement methods *)

Definition performanceMonitorSetup : string :=
"this.performanceMonitor = new PerformanceMonitor();
         this.targetFPS = 60;
         this.frameTime = 16.67;
         this.init();".

Definition optimizeForNextFrameCode : string :=
"
      optimizeForNextFrame() {
        if (this.particles && this.particles.length > 50) {
          this.particles.splice(this.particles.length / 2);
        }
      }".

Definition autoCalibrateCode : string :=
"
      autoCalibrate() {
        const deviceCapacity = this.detectDeviceCapacity();
        this.adjustParametersForDevice(deviceCapacity);
      }
      
      detectDeviceCapacity() {
        const canvas = document.createElement('canvas');
        const gl = canvas.getContext('webgl');
        return gl ? 'high' : 'low';
      }
      
      adjustParametersForDevice(capacity) {
        if (capacity === 'low') {
          this.options.particleCount = Math.min(this.options.particleCount, 50);
        }
      }".

Definition detectPlatformCode : string :=
"
      detectPlatform() {
        this.platform = /Mobile|Android|iPhone|iPad/.test(navigator.userAgent) ? 'mobile' : 'desktop';
        this.setupCrossBrowserCompat();
      }
      
      setupCrossBrowserCompat() {
        // Polyfills and compatibility fixes
        if (!window.requestAnimationFrame) {
          window.requestAnimationFrame = window.setTimeout;
        }
      }".

Definition oneClickCode : string :=
"
      oneClick() {
        return new Promise((resolve) => {
          this.start();
          resolve(this);
        });
      }
      
      livePreview() {
        return this.canvas;
      }".

Definition wowFactorCode : string :=
"
      wowFactor() {
        this.addSpectacularEffects();
        this.enableAdvancedPhysics();
      }
      
      addSpectacularEffects() {
        // Add glow, shadows, and advanced visual effects
        this.ctx.shadowBlur = 20;
        this.ctx.shadowColor = 'rgba(0, 212, 255, 0.8)';
      }
      
      enableAdvancedPhysics() {
        // Implement realistic physics simulation
        this.gravity = 0.1;
        this.friction = 0.99;
      }".

Definition immersiveCode : string :=
"
      immersive() {
        this.addInteractivity();
        this.createEngagementLoop();
      }
      
      addInteractivity() {
        this.canvas.addEventListener('mousemove', (e) => {
          this.handleMouseInteraction(e);
        });
      }
      
      createEngagementLoop() {
        setInterval(() => {
          this.triggerSurpriseElement();
        }, 5000);
      }".

Definition competitiveAdvantageCode : string :=
"
    // Competitive Advantage Features
    enableUltraHighPerformance() {
      this.optimizationLevel = 'maximum';
      this.enableGPUAcceleration();
    }
    
    enableGPUAcceleration() {
      if (this.ctx.canvas.getContext('webgl')) {
        this.useWebGLRendering = true;
      }
    }".

Definition enforcePerformanceAbsolue (effect : GeneratedEffect) : GeneratedEffect :=
  let code0 := code effect in
  let code1 := if negb (Js.includes "performanceMonitor" code0)
               then Js.replace "this.init();" performanceMonitorSetup code0
               else code0 in
  let code2 := if negb (Js.includes "optimizeForNextFrame" code1)
               then code1 +:+ optimizeForNextFrameCode
               else code1 in
  {| id := id effect; name := name effect; description := description effect;
     code := code2;
     metadata := {| renderTime := renderTime (metadata effect);
                    memoryUsage := memoryUsage (metadata effect);
                    fps := Qmax (fps (metadata effect)) 60;
                    constitutionScore := constitutionScore (metadata effect) |};
     dna := dna effect |}.

(** The shape shared by the enforcers of articles II to VI:
    [if (!code.includes(marker)) code += block]. *)
Definition append_unless_present (marker block : string) (effect : GeneratedEffect)
  : GeneratedEffect :=
  with_code effect
    (if negb (Js.includes marker (code effect))
     then code effect +:+ block else code effect).

Definition enforceIntelligenceAdaptative : GeneratedEffect -> GeneratedEffect :=
  append_unless_present "autoCalibrate" autoCalibrateCode.

Definition enforcePolyvalenceUniverselle : GeneratedEffect -> GeneratedEffect :=
  append_unless_present "detectPlatform" detectPlatformCode.

Definition enforceExperienceParfaite : GeneratedEffect -> GeneratedEffect :=
  append_unless_present "oneClick" oneClickCode.

Definition enforceImpactVisuel : GeneratedEffect -> GeneratedEffect :=
  append_unless_present "wowFactor" wowFactorCode.

Definition enforceEcosystemeAddictif : GeneratedEffect -> GeneratedEffect :=
  append_unless_present "immersive" immersiveCode.

(** The block is appended without a test. *)
Definition enforceDominationConcurrentielle (effect : GeneratedEffect) : GeneratedEffect :=
  {| id := id effect; name := name effect; description := description effect;
     code := code effect +:+ competitiveAdvantageCode;
     metadata := {| renderTime := renderTime (metadata effect);
                    memoryUsage := memoryUsage (metadata effect);
                    fps := fps (metadata effect);
                    constitutionScore := Qmax (constitutionScore (metadata effect)) 95 |};
     dna := dna effect |}.

(** The entries of the [articles] array, in order. *)
Definition article_1 : ConstitutionArticle :=
  {| article_id := 1; article_name := "Performance Absolue";
     article_description := "Chaque effet doit fonctionner à 60fps minimum avec un temps de rendu <200ms";
     validator := fun effect =>
       Qle_bool 60 (fps (metadata effect))
       && Js.Qlt_bool (renderTime (metadata effect)) 200;
     enforcer := enforcePerformanceAbsolue |}.

Definition article_2 : ConstitutionArticle :=
  {| article_id := 2; article_name := "Intelligence Adaptative";
     article_description := "Auto-calibration et adaptation aux conditions système";
     validator := fun effect =>
       Js.includes "autoCalibrate" (code effect)
       && Js.includes "adaptiveParameters" (code effect);
     enforcer := enforceIntelligenceAdaptative |}.

Definition article_3 : ConstitutionArticle :=
  {| article_id := 3; article_name := "Polyvalence Universelle";
     article_description := "Compatibilité cross-platform et multi-codec";
     validator := fun effect =>
       Js.includes "detectPlatform" (code effect)
       && Js.includes "crossBrowser" (code effect);
     enforcer := enforcePolyvalenceUniverselle |}.

Definition article_4 : ConstitutionArticle :=
  {| article_id := 4; article_name := "Expérience Parfaite";
     article_description := "Interface one-click avec preview temps réel";
     validator := fun effect =>
       Js.includes "oneClick" (code effect)
       && Js.includes "livePreview" (code effect);
     enforcer := enforceExperienceParfaite |}.

Definition article_5 : ConstitutionArticle :=
  {| article_id := 5; article_name := "Impact Visuel";
     article_description := "Wow factor avec physique avancée et rendu spectaculaire";
     validator := fun effect =>
       Js.includes "wowFactor" (code effect)
       && Js.includes "advancedPhysics" (code effect);
     enforcer := enforceImpactVisuel |}.

Definition article_6 : ConstitutionArticle :=
  {| article_id := 6; article_name := "Écosystème Addictif";
     article_description := "Expérience immersive avec addiction positive";
     validator := fun effect =>
       Js.includes "immersive" (code effect)
       && Js.Qlt_bool (7 # 10) (energy (emotionalProfile (dna effect)));
     enforcer := enforceEcosystemeAddictif |}.

Definition article_7 : ConstitutionArticle :=
  {| article_id := 7; article_name := "Domination Concurrentielle";
     article_description := "Performance et qualité supérieures à toute concurrence";
     validator := fun effect => Qle_bool 95 (constitutionScore (metadata effect));
     enforcer := enforceDominationConcurrentielle |}.

Definition articles : list ConstitutionArticle :=
  [article_1; article_2; article_3; article_4; article_5; article_6; article_7].

(** *** Scoring *)

Definition calculatePartialScore (effect : GeneratedEffect) (article : ConstitutionArticle)
  : Q :=
  match article_id article with
  | 1%nat =>
      let fpsScore := Qmin 100 ((fps (metadata effect) / 60) * 100) in
      let renderScore := Qmin 100 ((200 - renderTime (metadata effect)) / 200 * 100) in
      (fpsScore + renderScore) / 2
  | 2%nat => if Js.includes "autoCalibrate" (code effect) then 50 else 0
  | 3%nat => if Js.includes "detectPlatform" (code effect) then 50 else 0
  | 4%nat => if Js.includes "oneClick" (code effect) then 50 else 0
  | 5%nat => elegance (emotionalProfile (dna effect)) * 100
  | 6%nat => energy (emotionalProfile (dna effect)) * 100
  | 7%nat =>
      (* [constitutionScore || 0] *)
      if Qeq_bool (constitutionScore (metadata effect)) 0 then 0
      else constitutionScore (metadata effect)
  | _ => 0
  end.

Section Scoring.

Variable numberToString : Q -> string.

Definition getComplianceDetails (effect : GeneratedEffect) (article : ConstitutionArticle)
  : string :=
  let enabled (marker : string) : string :=
    if Js.includes marker (code effect) then "Enabled" else "Missing" in
  match article_id article with
  | 1%nat => "FPS: " +:+ numberToString (fps (metadata effect)) +:+ ", Render: "
             +:+ numberToString (renderTime (metadata effect)) +:+ "ms"
  | 2%nat => "Auto-calibration: " +:+ enabled "autoCalibrate"
  | 3%nat => "Cross-platform: " +:+ enabled "detectPlatform"
  | 4%nat => "One-click: " +:+ enabled "oneClick"
  | 5%nat => "Wow factor: " +:+ enabled "wowFactor"
  | 6%nat => "Energy level: "
             +:+ numberToString
                   (inject_Z (Js.round (energy (emotionalProfile (dna effect)) * 100)))
             +:+ "%"
  | 7%nat => "Overall score: "
             +:+ numberToString (constitutionScore (metadata effect)) +:+ "%"
  | _ => "Unknown"
  end.

(** One turn of the [for (const article of this.articles)] loop of
    [validateCompliance]; the state is the [articles] map and the running
    [totalScore]. *)
Definition score_article (effect : GeneratedEffect)
  (acc : gmap string ArticleCompliance * Q) (article : ConstitutionArticle)
  : gmap string ArticleCompliance * Q :=
  let isCompliant := validator article effect in
  let score := if isCompliant then 100 else calculatePartialScore effect article in
  (<[article_name article :=
       {| compliant := isCompliant; score := score;
          details := getComplianceDetails effect article |}]> (fst acc),
   snd acc + score).

Definition validateCompliance (effect : GeneratedEffect) : ConstitutionCompliance :=
  let '(arts, total) := fold_left (score_article effect) articles (∅, 0) in
  {| totalScore := Js.round (total / inject_Z (Z.of_nat (length articles)));
     c_articles := arts |}.

(** One turn of the loop of [enforceCompliance]. *)
Definition enforce_article (effect : GeneratedEffect) (article : ConstitutionArticle)
  : GeneratedEffect :=
  if negb (validator article effect) then enforcer article effect else effect.

(** The source writes the new score into [enforcedEffect.metadata], an
    object that the shallow copy may share with the argument; the caller
    drops the argument, so only the returned record is modelled. *)
Definition enforceCompliance (effect : GeneratedEffect) : GeneratedEffect :=
  let enforcedEffect := fold_left enforce_article articles effect in
  let compliance := validateCompliance enforcedEffect in
  with_metadata enforcedEffect
    {| renderTime := renderTime (metadata enforcedEffect);
       memoryUsage := memoryUsage (metadata enforcedEffect);
       fps := fps (metadata enforcedEffect);
       constitutionScore := inject_Z (totalScore compliance) |}.

End Scoring.

End Engine.

(** ** Client: [EffectGenerator] (template selection, code generation and
    the optimizer) *)

Module Generator.

Import Dna.
Local Open Scope Q_scope.

(** A JavaScript number that may be NaN.  [undefined] converts to NaN and
    NaN propagates through arithmetic; every comparison with NaN is
    false. *)
Inductive jsnum : Type :=
  | NaN
  | Num (q : Q).

Definition to_number (v : option Q) : jsnum :=
  match v with
  | Some q => Num q
  | None => NaN
  end.

Definition js_lift2 (f : Q -> Q -> Q) (a b : jsnum) : jsnum :=
  match a, b with
  | Num x, Num y => Num (f x y)
  | _, _ => NaN
  end.

Definition js_add : jsnum -> jsnum -> jsnum := js_lift2 Qplus.
Definition js_sub : jsnum -> jsnum -> jsnum := js_lift2 Qminus.
Definition js_mul : jsnum -> jsnum -> jsnum := js_lift2 Qmult.

Definition js_abs (a : jsnum) : jsnum :=
  match a with
  | Num x => Num (Qabs x)
  | NaN => NaN
  end.

(** [a > b] *)
Definition js_gt (a b : jsnum) : bool :=
  match a, b with
  | Num x, Num y => Js.Qlt_bool y x
  | _, _ => false
  end.

Record EffectGenerationOptions : Type := {
  type : string;
  targetFps : Q;
  maxMemory : Q;
  enableConstitution : bool;
  platform : string
}.

(** An entry of the template catalogue.  The entries are untyped objects
    ([any[]]); [complexity] and [energy] are the two properties that
    [calculateTemplateScore] reads besides [performance], and [None] is a
    property that the object does not have. *)
Record Template : Type := {
  name : string;
  category : string;
  baseCode : string;
  performance : Q;
  compatibility : list string;
  complexity : option Q;
  energy : option Q
}.

(** *** Template definitions *)

Definition constitutionalSetup : string :=
"
    // Constitutional Compliance Setup
    setupConstitutionalCompliance() {
      // Article I: Performance Absolue
      this.targetFPS = 60;
      this.frameTime = 16.67;
      this.performanceMonitor = new PerformanceMonitor();
      
      // Article II: Intelligence Adaptative
      this.autoCalibrate();
      this.setupAdaptiveParameters();
      
      // Article III: Polyvalence Universelle
      this.detectPlatform();
      this.setupCrossBrowserCompat();
    }".

Definition getParticleTemplate : string :=
"
class {{EFFECT_NAME}} {
  constructor(container, options = {}) {
    this.container = container;
    this.options = { ...this.getDefaults(), ...options };
    // CONSTITUTIONAL_SETUP
    this.init();
  }
  
  getDefaults() {
    return {
      particleCount: 100,
      speed: {{ENERGY}},
      complexity: {{COMPLEXITY}},
      targetFPS: {{TARGET_FPS}}
    };
  }
  
  init() {
    this.canvas = document.createElement('canvas');
    this.ctx = this.canvas.getContext('2d');
    this.particles = [];
    this.setupCanvas();
    this.createParticles();
    this.startAnimation();
  }
  
  createParticles() {
    for (let i = 0; i < this.options.particleCount; i++) {
      this.particles.push(new Particle(this.canvas.width, this.canvas.height));
    }
  }
  
  render() {
    const start = performance.now();
    
    this.ctx.clearRect(0, 0, this.canvas.width, this.canvas.height);
    
    this.particles.forEach(particle => {
      particle.update();
      particle.draw(this.ctx);
    });
    
    const renderTime = performance.now() - start;
    if (renderTime > {{FRAME_TIME}}) {
      this.optimizeForNextFrame();
    }
    
    requestAnimationFrame(() => this.render());
  }
}".

Definition getAnimationTemplate : string :=
"
.{{EFFECT_NAME}} {
  animation: effectAnimation {{ENERGY}}s infinite;
  transform-origin: center;
}

@keyframes effectAnimation {
  0% { transform: scale(1) rotate(0deg); }
  50% { transform: scale({{COMPLEXITY}}) rotate(180deg); }
  100% { transform: scale(1) rotate(360deg); }
}".

Definition getCanvasTemplate : string :=
"
class {{EFFECT_NAME}} {
  constructor(canvas) {
    this.canvas = canvas;
    this.ctx = canvas.getContext('2d');
    // CONSTITUTIONAL_SETUP
    this.init();
  }
  
  render() {
    this.ctx.clearRect(0, 0, this.canvas.width, this.canvas.height);
    
    // Effect rendering logic here
    const time = Date.now() * 0.001;
    const energy = {{ENERGY}};
    const complexity = {{COMPLEXITY}};
    
    this.drawEffect(time, energy, complexity);
    
    requestAnimationFrame(() => this.render());
  }
}".

Definition getTransformTemplate : string :=
"
.{{EFFECT_NAME}} {
  transform: translateX({{ENERGY}}px) scale({{COMPLEXITY}});
  transition: all 0.3s ease;
}".

Definition getAETemplate : string :=
"
// After Effects Expression for {{EFFECT_NAME}}
var energy = {{ENERGY}};
var complexity = {{COMPLEXITY}};
var time = thisComp.time;

// Constitutional Article I: Performance Absolue
if (frameRate < 60) {
  // Optimize for performance
}

transform.position + [Math.sin(time * energy) * 100, Math.cos(time * complexity) * 100];".

Definition ParticleSystem : Template :=
  {| name := "ParticleSystem"; category := "particle";
     baseCode := getParticleTemplate; performance := 8 # 10;
     compatibility := ["web"; "mobile"];
     complexity := None; energy := None |}.

Definition CSSAnimation : Template :=
  {| name := "CSSAnimation"; category := "animation";
     baseCode := getAnimationTemplate; performance := 9 # 10;
     compatibility := ["web"; "mobile"; "desktop"];
     complexity := None; energy := None |}.

Definition CanvasEffect : Template :=
  {| name := "CanvasEffect"; category := "visual";
     baseCode := getCanvasTemplate; performance := 7 # 10;
     compatibility := ["web"; "desktop"];
     complexity := None; energy := None |}.

Definition Transform3D : Template :=
  {| name := "Transform3D"; category := "transform";
     baseCode := getTransformTemplate; performance := 95 # 100;
     compatibility := ["web"; "mobile"; "desktop"];
     complexity := None; energy := None |}.

Definition Expression : Template :=
  {| name := "Expression"; category := "expression";
     baseCode := getAETemplate; performance := 8 # 10;
     compatibility := ["desktop"];
     complexity := None; energy := None |}.

(** The object literal [templates] of [getEffectTemplates]. *)
Definition templates : gmap string (list Template) :=
  <["javascript" := [ParticleSystem; CSSAnimation; CanvasEffect]]>
  (<["css" := [Transform3D]]>
  (<["aftereffects" := [Expression]]> ∅)).

(** [templates[type] || templates.javascript], for a [type] that is not
    the name of a property inherited from [Object.prototype]. *)
Definition getEffectTemplates (type : string) : list Template :=
  match templates !! type with
  | Some l => l
  | None => [ParticleSystem; CSSAnimation; CanvasEffect]
  end.

(** *** Template selection *)

Definition calculateTemplateScore (dna : EffectDNA) (template : Template) : jsnum :=
  let score := Num 0 in
  let score := js_add score (js_mul (Num (performance template)) (Num (4 # 10))) in
  let complexityMatch :=
    js_sub (Num 1)
      (js_abs (js_sub (to_number (complexity template))
                      (Num (Dna.complexity (emotionalProfile dna))))) in
  let score := js_add score (js_mul complexityMatch (Num (3 # 10))) in
  let energyMatch :=
    js_sub (Num 1)
      (js_abs (js_sub (to_number (energy template))
                      (Num (Dna.energy (emotionalProfile dna))))) in
  let score := js_add score (js_mul energyMatch (Num (3 # 10))) in
  score.

(** One turn of the loop: the state is [(bestTemplate, bestScore)]. *)
Definition select_step (dna : EffectDNA) (best : option Template * jsnum)
  (template : Template) : option Template * jsnum :=
  let score := calculateTemplateScore dna template in
  if js_gt score (snd best) then (Some template, score) else best.

(** [templates[0]] is [undefined] for an empty array. *)
Definition selectBestTemplate (dna : EffectDNA) (templates : list Template)
  : option Template :=
  fst (fold_left (select_step dna) templates (head templates, Num 0)).

(** *** Code generation *)

Definition addConstitutionalSetup (code : string) : string :=
  Js.replace "// CONSTITUTIONAL_SETUP" constitutionalSetup code.

Section Formatting.

(** [Number.prototype.toString] *)
Variable numberToString : Q -> string.

Definition generateCode (template : Template) (dna : EffectDNA)
  (options : EffectGenerationOptions) : string :=
  let code := baseCode template in
  let code := Js.replaceAll [Js.Lit "{{TARGET_FPS}}"]
                (numberToString (targetFps options)) code in
  let code := Js.replaceAll [Js.Lit "{{MAX_MEMORY}}"]
                (numberToString (maxMemory options)) code in
  let code := Js.replaceAll [Js.Lit "{{ENERGY}}"]
                (numberToString (Dna.energy (emotionalProfile dna))) code in
  let code := Js.replaceAll [Js.Lit "{{COMPLEXITY}}"]
                (numberToString (Dna.complexity (emotionalProfile dna))) code in
  if enableConstitution options then addConstitutionalSetup code else code.

(** *** The optimizer *)

Definition optimizeFrameRate (code : string) (targetFps : Q) : string :=
  let frameTime := 1000 / targetFps in
  Js.replaceAll [Js.Lit "{{FRAME_TIME}}"] (numberToString frameTime) code.

End Formatting.

(** [/new Array\(\d+\)/g] *)
Definition newArrayRe : Js.regex :=
  [Js.Lit "new Array("; Js.Plus Js.is_digit; Js.Lit ")"].

Definition optimizeMemoryUsage (code : string) : string :=
  let code := Js.replaceAll newArrayRe "[]" code in
  let code := Js.replaceAll [Js.Lit "setInterval"] "requestAnimationFrame" code in
  code.

(** [/particleCount\s*=\s*\d+/g] *)
Definition particleCountRe : Js.regex :=
  [Js.Lit "particleCount"; Js.Star Js.is_space; Js.Lit "=";
   Js.Star Js.is_space; Js.Plus Js.is_digit].

Definition optimizeForMobile (code : string) : string :=
  Js.replaceAll particleCountRe "particleCount = 50" code.

Definition optimizeForDesktop (code : string) : string :=
  Js.replaceAll particleCountRe "particleCount = 200" code.

Definition optimizeForPlatform (code platform : string) : string :=
  if String.eqb platform "mobile" then optimizeForMobile code
  else if String.eqb platform "desktop" then optimizeForDesktop code
  else code.

(** The rewriting part of [optimizeEffect]. *)
Definition optimizeCode (numberToString : Q -> string) (code : string)
  (options : EffectGenerationOptions) : string :=
  let optimizedCode := code in
  let optimizedCode :=
    if Js.Qlt_bool (maxMemory options) 512
    then optimizeMemoryUsage optimizedCode else optimizedCode in
  let optimizedCode :=
    if Js.Qlt_bool 30 (targetFps options)
    then optimizeFrameRate numberToString optimizedCode (targetFps options)
    else optimizedCode in
  optimizeForPlatform optimizedCode (platform options).

(** *** The estimates of [optimizeEffect] *)

(** The longest prefix of [s] made of characters of the class. *)
Fixpoint take_while (cls : ascii -> bool) (s : string) : string :=
  match s with
  | "" => ""
  | String c s' => if cls c then String c (take_while cls s') else ""
  end.

(** [parseInt] of a run of decimal digits. *)
Definition parseInt (digits : string) : Z :=
  fold_left (fun n c => (n * 10 + (Z.of_nat (nat_of_ascii c) - 48))%Z)
    (list_ascii_of_string digits) 0%Z.

(** The part of [/particleCount\s*=\s*(\d+)/] before the group. *)
Definition particleCountPrefix : Js.regex :=
  [Js.Lit "particleCount"; Js.Star Js.is_space; Js.Lit "="; Js.Star Js.is_space].

(** The text of the group when the expression matches at the start of
    [s]. *)
Definition group_1 (s : string) : string :=
  match Js.match_here particleCountPrefix s with
  | Some rest => take_while Js.is_digit rest
  | None => ""
  end.

(** [code.match(/particleCount\s*=\s*(\d+)/)]: the group of the leftmost
    match, [None] for [null]. *)
Fixpoint match_particleCount (code : string) : option string :=
  match Js.match_here particleCountRe code with
  | Some _ => Some (group_1 code)
  | None =>
      match code with
      | "" => None
      | String _ code' => match_particleCount code'
      end
  end.

Definition extractParticleCount (code : string) : Z :=
  match match_particleCount code with
  | Some digits => parseInt digits
  | None => 100
  end.

Definition estimateMemoryUsage (code : string) : Z :=
  let particleCount := extractParticleCount code in
  let baseMemory := 64 in
  Js.round (baseMemory + (inject_Z particleCount * (1 # 10))).

End Generator.

(** ** Server: [AIEngineService] (the lexical analyzer) *)

Module AiEngine.

Import Dna.
Import Js.
Local Open Scope Q_scope.

(** Sequencing of computations that may throw. *)
Definition bind {A B : Type} (r : result A) (k : A -> result B) : result B :=
  match r with
  | Ok a => k a
  | Throw msg => Throw msg
  end.

Notation "'let!' x ':=' r 'in' k" := (bind r (fun x => k))
  (at level 10, x name, r at level 200, k at level 200, only parsing).

(** [try { body } catch (error) { throw new Error(prefix + error.message) }] *)
Definition rethrow {A : Type} (prefix : string) (r : result A) : result A :=
  match r with
  | Ok a => Ok a
  | Throw msg => Throw (prefix +:+ msg)
  end.

Record NeuralModel : Type := {
  embeddings : gmap string (list Q);
  patterns : gmap string (list string);
  vocabulary : gset string
}.

Record AIEngineService : Type := {
  isInitialized : bool;
  neuralModel : option NeuralModel;
  vocabularySize : N;
  embeddingSize : N
}.

(** The state of [new AIEngineService()]. *)
Definition new_engine : AIEngineService :=
  {| isInitialized := false; neuralModel := None;
     vocabularySize := 50000%N; embeddingSize := 256%N |}.

Definition set_model (engine : AIEngineService) (m : option NeuralModel)
  : AIEngineService :=
  {| isInitialized := isInitialized engine; neuralModel := m;
     vocabularySize := vocabularySize engine; embeddingSize := embeddingSize engine |}.

Definition set_initialized (engine : AIEngineService) (b : bool) : AIEngineService :=
  {| isInitialized := b; neuralModel := neuralModel engine;
     vocabularySize := vocabularySize engine; embeddingSize := embeddingSize engine |}.

(** The [TypeError] of a property read on [this.neuralModel] when it is
    [null]. *)
Definition null_model (prop : string) : string :=
  "Cannot read properties of null (reading '" +:+ prop +:+ "')".

Definition the_model {A : Type} (engine : AIEngineService) (prop : string)
  (k : NeuralModel -> result A) : result A :=
  match neuralModel engine with
  | Some m => k m
  | None => Throw (null_model prop)
  end.

(** *** Initialization *)

Definition loadNeuralModel (engine : AIEngineService) : result AIEngineService :=
  Ok (set_model engine
        (Some {| embeddings := ∅; patterns := ∅; vocabulary := ∅ |})).

Definition effectKeywords : list string := [
  "particle"; "explosion"; "fade"; "glow"; "blur"; "transition";
  "animation"; "rotate"; "scale"; "translate"; "color"; "gradient";
  "shadow"; "light"; "dark"; "bright"; "smooth"; "rough";
  "fast"; "slow"; "spiral"; "wave"; "pulse"; "bounce";
  "plasma"; "fire"; "water"; "earth"; "air"; "energy";
  "magic"; "cosmic"; "digital"; "neon"; "chrome"; "glass"
].

Definition loadVocabulary (engine : AIEngineService) : result AIEngineService :=
  the_model engine "vocabulary" (fun m =>
    Ok (set_model engine
          (Some {| embeddings := embeddings m; patterns := patterns m;
                   vocabulary :=
                     fold_left (fun v keyword => {[keyword]} ∪ v)
                       effectKeywords (vocabulary m) |}))).

Definition effectPatterns : list (string * list string) := [
  ("particle", ["explosion"; "dust"; "sparkle"; "trail"]);
  ("transition", ["fade"; "slide"; "zoom"; "flip"]);
  ("animation", ["bounce"; "pulse"; "wiggle"; "shake"]);
  ("visual", ["glow"; "blur"; "shadow"; "gradient"])
].

Definition loadEffectPatterns (engine : AIEngineService) : result AIEngineService :=
  the_model engine "patterns" (fun m =>
    Ok (set_model engine
          (Some {| embeddings := embeddings m;
                   patterns :=
                     fold_left (fun p kv => <[fst kv := snd kv]> p)
                       effectPatterns (patterns m);
                   vocabulary := vocabulary m |}))).

Definition initialize (engine : AIEngineService) : result AIEngineService :=
  if isInitialized engine then Ok engine
  else
    rethrow "Failed to initialize AI Engine: "
      (let! e1 := loadNeuralModel engine in
       let! e2 := loadVocabulary e1 in
       let! e3 := loadEffectPatterns e2 in
       Ok (set_initialized e3 true)).

Definition shutdown (engine : AIEngineService) : AIEngineService :=
  set_initialized (set_model engine None) false.

(** *** Tokenization *)

Definition lower (c : ascii) : ascii :=
  if is_upper c then ascii_of_nat (nat_of_ascii c + 32) else c.

Fixpoint toLowerCase (s : string) : string :=
  match s with
  | "" => ""
  | String c s' => String (lower c) (toLowerCase s')
  end.

(** [.replace(/[^\w\s]/g, ' ')] *)
Fixpoint blank_punctuation (s : string) : string :=
  match s with
  | "" => ""
  | String c s' =>
      String (if is_word c || is_space c then c else " "%char) (blank_punctuation s')
  end.

(** [.split(/\s+/)]: [cur] is the piece being read and [in_sep] tells
    that the previous character was a separator.  As in JavaScript, a
    separator at either end yields an empty piece and the empty string
    yields one empty piece. *)
Fixpoint split_spaces (in_sep : bool) (cur : string) (s : string) : list string :=
  match s with
  | "" => [cur]
  | String c s' =>
      if is_space c then
        if in_sep then split_spaces true "" s'
        else cur :: split_spaces true "" s'
      else split_spaces false (cur +:+ String c "") s'
  end.

Definition tokenizeContent (content : string) : list string :=
  List.filter (fun token => (2 <? String.length token)%nat)
    (split_spaces false "" (blank_punctuation (toLowerCase content))).

(** *** Concepts *)

(** [conceptFreq.set(token, (conceptFreq.get(token) || 0) + 1)] on a [Map],
    which keeps its keys in insertion order. *)
Fixpoint bump (token : string) (freq : list (string * nat)) : list (string * nat) :=
  match freq with
  | [] => [(token, 1%nat)]
  | (k, n) :: rest =>
      if String.eqb k token then (k, S n) :: rest else (k, n) :: bump token rest
  end.

(** [Array.prototype.sort] with the comparator [(a, b) => b[1] - a[1]]:
    a stable sort by decreasing count. *)
Fixpoint insert_desc (x : string * nat) (sorted : list (string * nat))
  : list (string * nat) :=
  match sorted with
  | [] => [x]
  | y :: rest =>
      if (snd x <? snd y)%nat then y :: insert_desc x rest else x :: y :: rest
  end.

Definition sort_desc (l : list (string * nat)) : list (string * nat) :=
  fold_right insert_desc [] l.

Definition extractConcepts (m : NeuralModel) (tokens : list string) : list string :=
  let conceptFreq :=
    fold_left (fun freq token =>
                 if bool_decide (token ∈ vocabulary m) then bump token freq else freq)
      tokens [] in
  map fst (take 5 (sort_desc conceptFreq)).

(** *** Profiles *)

(** [words.includes(token)] *)
Definition word_in (words : list string) (token : string) : bool :=
  existsb (String.eqb token) words.

Definition of_nat (n : nat) : Q := inject_Z (Z.of_nat n).

Definition calculateWordScore (tokens words : list string) : Q :=
  let matches := length (List.filter (word_in words) tokens) in
  of_nat matches / of_nat (Nat.max (length tokens) 1).

Definition energyWords : list string :=
  ["fast"; "explosive"; "dynamic"; "powerful"; "intense"].
Definition complexityWords : list string :=
  ["intricate"; "detailed"; "layered"; "sophisticated"].
Definition eleganceWords : list string :=
  ["smooth"; "graceful"; "refined"; "subtle"; "clean"].

Definition analyzeEmotionalProfile (tokens : list string) : EmotionalProfile :=
  let energy := calculateWordScore tokens energyWords in
  let complexity := calculateWordScore tokens complexityWords in
  let elegance := calculateWordScore tokens eleganceWords in
  {| energy := Qmin 1 energy;
     complexity := Qmin 1 complexity;
     elegance := Qmin 1 elegance |}.

Definition heavyWords : list string := ["particle"; "complex"; "detailed"; "3d"].
Definition lightWords : list string := ["simple"; "basic"; "minimal"; "clean"].

Definition analyzeTechnicalRequirements (tokens : list string) : TechnicalRequirements :=
  let complexity :=
    calculateWordScore tokens heavyWords - calculateWordScore tokens lightWords in
  let performance := Qmax 30 (60 - complexity * 30) in
  let memory := Qmax 64 (256 + complexity * 256) in
  {| performance := performance;
     memory := memory;
     compatibility := ["web"; "mobile"; "desktop"] |}.

Definition calculateConfidence (m : NeuralModel) (tokens concepts : list string) : Q :=
  let vocabularyMatches :=
    length (List.filter (fun token => bool_decide (token ∈ vocabulary m)) tokens) in
  let coverage := of_nat vocabularyMatches / of_nat (Nat.max (length tokens) 1) in
  let conceptStrength := of_nat (length concepts) / 5 in
  Qmin 1 ((coverage + conceptStrength) / 2).

Definition constitutionKeywords : list string := [
  "performance"; "fast"; "smooth"; "60fps"; "optimized";
  "adaptive"; "intelligent"; "responsive"; "cross-platform";
  "perfect"; "flawless"; "seamless"; "visual"; "stunning";
  "wow"; "spectacular"; "immersive"; "engaging"; "addictive";
  "superior"; "best"; "ultimate"; "revolutionary"
].

Definition checkConstitutionKeywords (tokens : list string) : bool :=
  let matches := List.filter (word_in constitutionKeywords) tokens in
  (2 <=? length matches)%nat.

Definition analyzeContent (engine : AIEngineService) (content : string)
  : result EffectDNA :=
  if negb (isInitialized engine) then Throw "AI Engine not initialized"
  else
    rethrow "Content analysis failed: "
      (let tokens := tokenizeContent content in
       the_model engine "vocabulary" (fun m =>
         let concepts := extractConcepts m tokens in
         let emotional := analyzeEmotionalProfile tokens in
         let technical := analyzeTechnicalRequirements tokens in
         Ok {| primaryConcepts := concepts;
               emotionalProfile := emotional;
               technicalRequirements := technical;
               confidenceScore := calculateConfidence m tokens concepts;
               constitutionCompliance := checkConstitutionKeywords tokens |})).

(** *** Code optimization *)

Definition performanceMonitorConstructor : string :=
"constructor(container, options) {
          this.performanceMonitor = new PerformanceMonitor();
          this.frameTime = 16.67; // 60fps target
          arguments[0] = container; arguments[1] = options;
          return constructor.call(this, ".

Definition cleanupCode : string :=
"
      cleanup() {
        if (this.particles) {
          this.particles.length = 0;
        }
        if (this.canvas) {
          this.canvas.width = this.canvas.width; // Clear canvas
        }
      }".

Definition smoothingContext : string :=
"getContext('2d'); ctx.imageSmoothingEnabled = true; ctx.imageSmoothingQuality = 'high'; return ctx; })(); (() => ctx = getContext(".

Definition getJavaScriptTemplate : string :=
"
class ConstitutionalEffect {
  constructor(container, options = {}) {
    this.container = container;
    this.options = { 
      energy: {{ENERGY}},
      complexity: {{COMPLEXITY}},
      elegance: {{ELEGANCE}},
      targetFPS: {{PERFORMANCE}},
      maxMemory: {{MEMORY}},
      ...options 
    };
    
    // Constitutional Compliance Setup
    this.setupConstitutionalCompliance();
    this.init();
  }
  
  setupConstitutionalCompliance() {
    // Article I: Performance Absolue
    this.targetFPS = 60;
    this.frameTime = 16.67;
    this.performanceMonitor = new PerformanceMonitor();
    
    // Article II: Intelligence Adaptative
    this.autoCalibrate();
    this.setupAdaptiveParameters();
    
    // Article III: Polyvalence Universelle
    this.detectPlatform();
    this.setupCrossBrowserCompat();
  }
  
  init() {
    this.canvas = document.createElement('canvas');
    this.ctx = this.canvas.getContext('2d');
    this.setupCanvas();
    this.startRender();
  }
  
  render() {
    const start = performance.now();
    
    this.ctx.clearRect(0, 0, this.canvas.width, this.canvas.height);
    this.drawEffect();
    
    const renderTime = performance.now() - start;
    this.performanceMonitor.track(renderTime);
    
    if (renderTime > this.frameTime) {
      this.optimizeForNextFrame();
    }
    
    requestAnimationFrame(() => this.render());
  }
  
  drawEffect() {
    // Effect-specific rendering based on DNA
    const time = Date.now() * 0.001;
    
    // Apply energy-based animation
    const animationSpeed = this.options.energy * 2;
    
    // Apply complexity-based detail
    const detailLevel = Math.floor(this.options.complexity * 100);
    
    // Apply elegance-based smoothing
    const smoothing = this.options.elegance;
    
    this.renderEffectWithDNA(time, animationSpeed, detailLevel, smoothing);
  }
}".

Definition getCSSTemplate : string :=
"
.constitutional-effect {
  animation: effectAnimation {{ENERGY}}s infinite ease-in-out;
  transform-origin: center;
  filter: blur({{ELEGANCE}}px) brightness({{COMPLEXITY}});
}

@keyframes effectAnimation {
  0% { 
    transform: scale(1) rotate(0deg);
    opacity: {{ELEGANCE}};
  }
  50% { 
    transform: scale({{COMPLEXITY}}) rotate(180deg);
    opacity: 1;
  }
  100% { 
    transform: scale(1) rotate(360deg);
    opacity: {{ELEGANCE}};
  }
}

/* Constitutional Performance Optimizations */
.constitutional-effect {
  will-change: transform, opacity;
  backface-visibility: hidden;
  perspective: 1000px;
}".

Definition getAfterEffectsTemplate : string :=
"
// After Effects Expression - Constitutional Compliance
// Generated by EffectForge AI with DAAR methodology

var energy = {{ENERGY}};
var complexity = {{COMPLEXITY}};
var elegance = {{ELEGANCE}};
var time = thisComp.time;

// Article I: Performance Absolue
if (thisComp.frameRate < 60) {
  // Auto-adjust for performance
  energy *= 0.8;
  complexity *= 0.9;
}

// Article II: Intelligence Adaptative
var devicePerformance = thisComp.width * thisComp.height > 1920 * 1080 ? 'high' : 'low';
if (devicePerformance === 'low') {
  complexity = Math.min(complexity, 0.7);
}

// Effect animation
var position = transform.position;
var scale = transform.scale;
var rotation = transform.rotation;

// Energy-based movement
var energyX = Math.sin(time * energy * 2) * 100;
var energyY = Math.cos(time * energy * 1.5) * 80;

// Complexity-based scaling
var complexScale = 100 + Math.sin(time * complexity) * 50;

// Elegance-based smoothing
var smoothedRotation = rotation + (Math.sin(time * elegance) * 360);

// Constitutional compliance output
[position[0] + energyX, position[1] + energyY];".

(** [/for\s*\(\s*var\s+i\s*=\s*0/g] *)
Definition forVarRe : regex :=
  [Lit "for"; Star is_space; Lit "("; Star is_space; Lit "var"; Plus is_space;
   Lit "i"; Star is_space; Lit "="; Star is_space; Lit "0"].

Definition optimizeForPerformance (code : string) : string :=
  let optimized := code in
  let optimized := replaceAll [Lit "setInterval"] "requestAnimationFrame" optimized in
  let optimized := replaceAll forVarRe "for (let i = 0" optimized in
  let optimized := replaceAll [Lit "document.getElementById"]
                     "this.cachedElement ||= document.getElementById" optimized in
  if negb (includes "performanceMonitor" optimized)
  then replace "constructor(" performanceMonitorConstructor optimized
  else optimized.

Definition optimizeForMemory (code : string) : string :=
  let optimized := code in
  let optimized := replaceAll Generator.newArrayRe "[]" optimized in
  let optimized := replaceAll [Lit ".push("] "[(this.length || 0)] = " optimized in
  if negb (includes "cleanup" optimized)
  then optimized +:+ cleanupCode
  else optimized.

Definition optimizeForQuality (code : string) : string :=
  let optimized := code in
  let optimized := replaceAll [Lit "Math.random()"] "this.seededRandom()" optimized in
  if includes "getContext(" optimized
  then replace "getContext(" smoothingContext optimized
  else optimized.

Definition optimizeCode (engine : AIEngineService) (code target : string)
  : result string :=
  if negb (isInitialized engine) then Throw "AI Engine not initialized"
  else
    Ok (if String.eqb target "performance" then optimizeForPerformance code
        else if String.eqb target "memory" then optimizeForMemory code
        else if String.eqb target "quality" then optimizeForQuality code
        else code).

(** *** Code generation *)

(** The names that every object literal inherits from [Object.prototype];
    [templates[type]] is then a truthy value that is not a string. *)
Definition inherited_keys : list string := [
  "constructor"; "toString"; "toLocaleString"; "valueOf"; "hasOwnProperty";
  "isPrototypeOf"; "propertyIsEnumerable"; "__proto__";
  "__defineGetter__"; "__defineSetter__"; "__lookupGetter__"; "__lookupSetter__"
].

Definition selectEffectTemplate (dna : EffectDNA) (type : string) : result string :=
  if String.eqb type "javascript" then Ok getJavaScriptTemplate
  else if String.eqb type "css" then Ok getCSSTemplate
  else if String.eqb type "aftereffects" then Ok getAfterEffectsTemplate
  else if word_in inherited_keys type then Throw "template.replace is not a function"
  else Ok getJavaScriptTemplate.

Section Formatting.

Variable numberToString : Q -> string.

(** [concepts.join(', ')] *)
Definition join_concepts (concepts : list string) : string :=
  String.concat ", " concepts.

Definition populateTemplate (template : string) (dna : EffectDNA) : string :=
  let t := replaceAll [Lit "{{ENERGY}}"]
             (numberToString (energy (emotionalProfile dna))) template in
  let t := replaceAll [Lit "{{COMPLEXITY}}"]
             (numberToString (complexity (emotionalProfile dna))) t in
  let t := replaceAll [Lit "{{ELEGANCE}}"]
             (numberToString (elegance (emotionalProfile dna))) t in
  let t := replaceAll [Lit "{{CONCEPTS}}"] (join_concepts (primaryConcepts dna)) t in
  let t := replaceAll [Lit "{{PERFORMANCE}}"]
             (numberToString (performance (technicalRequirements dna))) t in
  let t := replaceAll [Lit "{{MEMORY}}"]
             (numberToString (memory (technicalRequirements dna))) t in
  t.

Definition generateEffectFromDNA (engine : AIEngineService) (dna : EffectDNA)
  (type : string) : result string :=
  if negb (isInitialized engine) then Throw "AI Engine not initialized"
  else
    let! template := selectEffectTemplate dna type in
    Ok (populateTemplate template dna).

End Formatting.

End AiEngine.

(** ** Server: [MemStorage] and the generation route *)

Module Server.

Import Js.
Import Validator.
Local Open Scope Q_scope.

(** A row of the [ai_sessions] table.  A column that was never written is
    [None]. *)
Record AiSession : Type := {
  s_id : nat;
  s_prompt : string;
  s_response : option string;
  s_effectId : option nat;
  s_status : string;
  s_processingTime : option Z;
  s_constitutionScore : option Q;
  s_createdAt : Z;
  s_completedAt : option Z
}.

(** [InsertAiSession]: only [prompt] is required. *)
Record InsertAiSession : Type := {
  i_prompt : string;
  i_response : option string;
  i_effectId : option nat;
  i_status : option string;
  i_processingTime : option Z;
  i_constitutionScore : option Q
}.

(** The [updates] argument of [updateAiSession]: every field is
    optional. *)
Record SessionFields : Type := {
  u_prompt : option string;
  u_response : option string;
  u_effectId : option nat;
  u_status : option string;
  u_processingTime : option Z;
  u_constitutionScore : option Q;
  u_completedAt : option Z
}.

(** The process state that the route touches: the [effects] and
    [aiSessions] maps of the store, the identifiers drawn so far from
    [randomUUID] (the n-th draw is the identifier [n], so that two draws
    never coincide), the clock read by [Date.now()] and the lines written
    by [console.error]. *)
Record World : Type := {
  effects : gmap nat Effect;
  aiSessions : gmap nat AiSession;
  uuids : nat;
  now : Z;
  console : list string
}.

(** A stateful computation that may throw; the state survives a throw. *)
Definition M (A : Type) : Type := World -> World * result A.

Definition ret {A : Type} (a : A) : M A := fun w => (w, Ok a).

Definition throw {A : Type} (msg : string) : M A := fun w => (w, Throw msg).

Definition mbind {A B : Type} (m : M A) (k : A -> M B) : M B :=
  fun w =>
    match m w with
    | (w', Ok a) => k a w'
    | (w', Throw msg) => (w', Throw msg)
    end.

Notation "'do!' x ':=' m 'in' k" := (mbind m (fun x => k))
  (at level 10, x name, m at level 200, k at level 200, only parsing).

(** [try { body } catch (error) { handler(error.message) }] *)
Definition try_catch {A : Type} (body : M A) (handler : string -> M A) : M A :=
  fun w =>
    match body w with
    | (w', Ok a) => (w', Ok a)
    | (w', Throw msg) => handler msg w'
    end.

(** Field updates of the world. *)
Definition with_effects (w : World) (m : gmap nat Effect) : World :=
  {| effects := m; aiSessions := aiSessions w; uuids := uuids w;
     now := now w; console := console w |}.

Definition with_sessions (w : World) (m : gmap nat AiSession) : World :=
  {| effects := effects w; aiSessions := m; uuids := uuids w;
     now := now w; console := console w |}.

Definition with_uuids (w : World) (n : nat) : World :=
  {| effects := effects w; aiSessions := aiSessions w; uuids := n;
     now := now w; console := console w |}.

Definition with_now (w : World) (t : Z) : World :=
  {| effects := effects w; aiSessions := aiSessions w; uuids := uuids w;
     now := t; console := console w |}.

Definition with_console (w : World) (lines : list string) : World :=
  {| effects := effects w; aiSessions := aiSessions w; uuids := uuids w;
     now := now w; console := lines |}.

Definition randomUUID : M nat :=
  fun w => (with_uuids w (S (uuids w)), Ok (uuids w)).

Definition date_now : M Z := fun w => (w, Ok (now w)).

(** Time passing while a stage runs. *)
Definition elapse (d : Z) : M unit :=
  fun w => (with_now w (now w + d)%Z, Ok tt).

Definition console_error (line : string) : M unit :=
  fun w => (with_console w (console w ++ [line]), Ok tt).

Definition put_effect (e : Effect) : M unit :=
  fun w => (with_effects w (<[Validator.id e := e]> (effects w)), Ok tt).

Definition put_session (s : AiSession) : M unit :=
  fun w => (with_sessions w (<[s_id s := s]> (aiSessions w)), Ok tt).

Definition get_session (id : nat) : M (option AiSession) :=
  fun w => (w, Ok (aiSessions w !! id)).

(** *** [MemStorage] *)

Definition sampleEffect (id : nat) (created : Z) : Effect :=
  {| Validator.id := id;
     name := "Plasma Explosion";
     description := "A high-energy plasma explosion effect with constitutional compliance";
     category := "particle";
     type := "javascript";
     tags := ["explosion"; "plasma"; "energy"];
     javascriptCode := Some "class PlasmaExplosion { /* constitutional code */ }";
     cssCode := None;
     afterEffectsCode := None;
     constitutionScore := 98;
     performanceCompliant := true;
     intelligenceAdaptive := true;
     universalCompatible := true;
     perfectExperience := true;
     visualImpact := true;
     addictiveEcosystem := true;
     competitiveDomination := true;
     renderTime := 12;
     memoryUsage := 256;
     targetFps := 60;
     generatedBy := "AI";
     generationPrompt := Some "Create a spectacular plasma explosion effect";
     createdAt := created;
     updatedAt := created |}.

Definition initializeSampleData : M unit :=
  do! id := randomUUID in
  do! created := date_now in
  put_effect (sampleEffect id created).

(** The world after [new MemStorage()], started at time [t0]. *)
Definition new_world (t0 : Z) : World :=
  fst (initializeSampleData
         {| effects := ∅; aiSessions := ∅; uuids := 0; now := t0; console := [] |}).

(** [{ ...insertEffect, id, createdAt: now, updatedAt: now }] *)
Definition stamp_effect (insertEffect : Effect) (id : nat) (now : Z) : Effect :=
  {| Validator.id := id;
     name := name insertEffect; description := description insertEffect;
     category := category insertEffect; type := type insertEffect;
     tags := tags insertEffect;
     javascriptCode := javascriptCode insertEffect;
     cssCode := cssCode insertEffect;
     afterEffectsCode := afterEffectsCode insertEffect;
     constitutionScore := constitutionScore insertEffect;
     performanceCompliant := performanceCompliant insertEffect;
     intelligenceAdaptive := intelligenceAdaptive insertEffect;
     universalCompatible := universalCompatible insertEffect;
     perfectExperience := perfectExperience insertEffect;
     visualImpact := visualImpact insertEffect;
     addictiveEcosystem := addictiveEcosystem insertEffect;
     competitiveDomination := competitiveDomination insertEffect;
     renderTime := renderTime insertEffect;
     memoryUsage := memoryUsage insertEffect;
     targetFps := targetFps insertEffect;
     generatedBy := generatedBy insertEffect;
     generationPrompt := generationPrompt insertEffect;
     createdAt := now; updatedAt := now |}.

Definition createEffect (insertEffect : Effect) : M Effect :=
  do! id := randomUUID in
  do! now := date_now in
  let effect := stamp_effect insertEffect id now in
  do! _ := put_effect effect in
  ret effect.

(** [a || b] for a nullable column. *)
Definition or_default (a : option string) (b : string) : string :=
  match a with
  | Some (String c s) => String c s
  | _ => b
  end.

Definition createAiSession (insertSession : InsertAiSession) : M AiSession :=
  do! id := randomUUID in
  do! now := date_now in
  let session :=
    {| s_id := id;
       s_prompt := i_prompt insertSession;
       s_response := i_response insertSession;
       s_effectId := i_effectId insertSession;
       s_status := or_default (i_status insertSession) "processing";
       s_processingTime := i_processingTime insertSession;
       s_constitutionScore := i_constitutionScore insertSession;
       s_createdAt := now;
       s_completedAt := None |} in
  do! _ := put_session session in
  ret session.

(** [{ ...existingSession, ...updates }] *)
Definition override {A : Type} (old : A) (new : option A) : A :=
  match new with
  | Some v => v
  | None => old
  end.

Definition override_opt {A : Type} (old new : option A) : option A :=
  match new with
  | Some v => Some v
  | None => old
  end.

Definition merge_session (existingSession : AiSession) (updates : SessionFields)
  : AiSession :=
  {| s_id := s_id existingSession;
     s_prompt := override (s_prompt existingSession) (u_prompt updates);
     s_response := override_opt (s_response existingSession) (u_response updates);
     s_effectId := override_opt (s_effectId existingSession) (u_effectId updates);
     s_status := override (s_status existingSession) (u_status updates);
     s_processingTime :=
       override_opt (s_processingTime existingSession) (u_processingTime updates);
     s_constitutionScore :=
       override_opt (s_constitutionScore existingSession) (u_constitutionScore updates);
     s_createdAt := s_createdAt existingSession;
     s_completedAt :=
       override_opt (s_completedAt existingSession) (u_completedAt updates) |}.

Definition updateAiSession (id : nat) (updates : SessionFields) : M AiSession :=
  do! existingSession := get_session id in
  match existingSession with
  | None => throw "AI Session not found"
  | Some existing =>
      let updatedSession := merge_session existing updates in
      do! _ := put_session updatedSession in
      ret updatedSession
  end.

(** *** The route [POST /api/effects/generate] *)

Record EffectGenerationRequest : Type := {
  prompt : string;
  r_type : string;
  r_targetFps : Q;
  r_maxMemory : Q;
  enableConstitution : bool
}.

(** The flags and the score of [validatedEffect] copied onto [effect]. *)
Definition copy_report (effect validatedEffect : Effect) : Effect :=
  {| Validator.id := Validator.id effect;
     name := name effect; description := description effect;
     category := category effect; type := type effect; tags := tags effect;
     javascriptCode := javascriptCode effect;
     cssCode := cssCode effect;
     afterEffectsCode := afterEffectsCode effect;
     constitutionScore := constitutionScore validatedEffect;
     performanceCompliant := performanceCompliant validatedEffect;
     intelligenceAdaptive := intelligenceAdaptive validatedEffect;
     universalCompatible := universalCompatible validatedEffect;
     perfectExperience := perfectExperience validatedEffect;
     visualImpact := visualImpact validatedEffect;
     addictiveEcosystem := addictiveEcosystem validatedEffect;
     competitiveDomination := competitiveDomination validatedEffect;
     renderTime := renderTime effect;
     memoryUsage := memoryUsage effect;
     targetFps := targetFps effect;
     generatedBy := generatedBy effect;
     generationPrompt := generationPrompt effect;
     createdAt := createdAt effect; updatedAt := updatedAt effect |}.

Section Route.

(** [effectGenerator.generateEffect] of the server, whose module is not
    part of the sources at hand: any function that returns an effect or
    throws, and takes some time to do so. *)
Variable generateEffect : EffectGenerationRequest -> result Effect.
Variable duration : EffectGenerationRequest -> Z.

Variable numberToString : Q -> string.

(** [JSON.stringify] *)
Variable stringify : Effect -> string.

Definition run_generateEffect (request : EffectGenerationRequest) : M Effect :=
  do! _ := elapse (duration request) in
  fun w => (w, generateEffect request).

(** The block [if (request.enableConstitution) { ... }]. *)
Definition apply_validation (request : EffectGenerationRequest) (effect : Effect)
  : Effect :=
  if enableConstitution request
  then copy_report effect (validateAndEnforce numberToString effect)
  else effect.

Definition generateEffectAsync (sessionId : nat) (request : EffectGenerationRequest)
  : M unit :=
  do! startTime := date_now in
  try_catch
    (do! effect := run_generateEffect request in
     let effect := apply_validation request effect in
     do! savedEffect := createEffect effect in
     do! finished := date_now in
     do! _ := updateAiSession sessionId
                {| u_prompt := None;
                   u_response := Some (stringify savedEffect);
                   u_effectId := Some (Validator.id savedEffect);
                   u_status := Some "completed";
                   u_processingTime := Some (finished - startTime)%Z;
                   u_constitutionScore := Some (constitutionScore effect);
                   u_completedAt := Some finished |} in
     ret tt)
    (fun message =>
       do! failed := date_now in
       do! _ := updateAiSession sessionId
                  {| u_prompt := None;
                     u_response := Some message;
                     u_effectId := None;
                     u_status := Some "error";
                     u_processingTime := Some (failed - startTime)%Z;
                     u_constitutionScore := None;
                     u_completedAt := None |} in
       ret tt).

(** The body of the handler after the request has been validated; the
    result is the [sessionId] of the JSON answer.
    [generateEffectAsync(...).catch(console.error)] logs a rejection. *)
Definition post_generate (validatedData : EffectGenerationRequest) : M nat :=
  do! sessionId := randomUUID in
  do! session := createAiSession
                   {| i_prompt := prompt validatedData;
                      i_response := None; i_effectId := None;
                      i_status := Some "processing";
                      i_processingTime := None; i_constitutionScore := None |} in
  do! _ := try_catch (generateEffectAsync sessionId validatedData)
             (fun message => console_error message) in
  ret sessionId.

End Route.

(** *** The other operations of [MemStorage] on effects and sessions *)

Definition getEffect (id : nat) : M (option Effect) :=
  fun w => (w, Ok (effects w !! id)).

Definition deleteEffect (id : nat) : M unit :=
  fun w =>
    match effects w !! id with
    | None => (w, Throw "Effect not found")
    | Some _ => (with_effects w (delete id (effects w)), Ok tt)
    end.

Definition getAiSession (id : nat) : M (option AiSession) := get_session id.

(** *** The routes that read and delete *)

(** What a handler answers: the status code and the JSON body. *)
Inductive Body : Type :=
  | error_body (error : string)
  | success_body (message : string)
  | effect_body (effect : Effect)
  | session_body (session : AiSession).

Record Response : Type := { status : nat; body : Body }.

(** [res.json(body)] and [res.status(code).json(body)] *)
Definition json (b : Body) : M Response := ret {| status := 200; body := b |}.

Definition status_json (code : nat) (b : Body) : M Response :=
  ret {| status := code; body := b |}.

(** [GET /api/effects/:id] *)
Definition get_effect (id : nat) : M Response :=
  try_catch
    (do! effect := getEffect id in
     match effect with
     | None => status_json 404 (error_body "Effect not found")
     | Some e => json (effect_body e)
     end)
    (fun message => status_json 500 (error_body message)).

(** [DELETE /api/effects/:id] *)
Definition delete_effect (id : nat) : M Response :=
  try_catch
    (do! _ := deleteEffect id in
     json (success_body "Effect deleted"))
    (fun message => status_json 500 (error_body message)).

(** [GET /api/sessions/:id] *)
Definition get_session_by_id (id : nat) : M Response :=
  try_catch
    (do! session := getAiSession id in
     match session with
     | None => status_json 404 (error_body "Session not found")
     | Some s => json (session_body s)
     end)
    (fun message => status_json 500 (error_body message)).

End Server.

(** ** The specification's formulas and the concrete inputs of the
    statements below *)

Module Spec.

Local Open Scope Q_scope.

(** "round(sum of weight_i x score_i / 100)", weights 14.3 for articles 1
    to 6 and 14.2 for article 7. *)
Definition totalScore (s1 s2 s3 s4 s5 s6 s7 : Z) : Z :=
  Js.round (((143 # 10) * inject_Z s1 + (143 # 10) * inject_Z s2
             + (143 # 10) * inject_Z s3 + (143 # 10) * inject_Z s4
             + (143 # 10) * inject_Z s5 + (143 # 10) * inject_Z s6
             + (142 # 10) * inject_Z s7) / 100).

(** "average compliance of articles 1-6, each counted as 0 or 100" *)
Definition averageCompliance (flags : list bool) : Q :=
  fold_right (fun (flag : bool) acc => (if flag then 100 else 0) + acc) 0 flags
  / inject_Z (Z.of_nat (length flags)).

(** "40% x average compliance, 30% innovation-keyword marker, 30% if
    renderTime<10 AND targetFps>=60 AND memoryUsage<200" *)
Definition article7 (flags : list bool) (innovation advantage : bool) : Q :=
  (40 # 100) * averageCompliance flags
  + (if innovation then 30 else 0) + (if advantage then 30 else 0).

(** "compliance of articles 1-6": the six flags of a compliance report,
    that is, the verdicts of the validators of articles 1 to 6 on the
    effect that is being scored. *)
Definition compliance_1_to_6 (c : Validator.ConstitutionCompliance) : list bool :=
  [Validator.c_performanceCompliant c; Validator.c_intelligenceAdaptive c;
   Validator.c_universalCompatible c; Validator.c_perfectExperience c;
   Validator.c_visualImpact c; Validator.c_addictiveEcosystem c].

(** "(fraction matching heavy-words) - (fraction matching light-words)" *)
Definition fraction (words tokens : list string) : Q :=
  inject_Z (Z.of_nat (length (List.filter
     (fun token => bool_decide (token ∈ words)) tokens)))
  / inject_Z (Z.of_nat (Nat.max (length tokens) 1)).

(** "0.4 x template.performance + 0.3 x (1 - |template.complexity -
    dna.complexity|) + 0.3 x (1 - |template.energy - dna.energy|)" *)
Definition templateScore (performance complexity energy : Q) (dna : Dna.EffectDNA)
  : Q :=
  (4 # 10) * performance
  + (3 # 10) * (1 - Qabs (complexity - Dna.complexity (Dna.emotionalProfile dna)))
  + (3 # 10) * (1 - Qabs (energy - Dna.energy (Dna.emotionalProfile dna))).

(** The score of a template as a rational, and the templates that have
    the two properties which the score reads. *)
Definition score_value (dna : Dna.EffectDNA) (t : Generator.Template) : Q :=
  match Generator.calculateTemplateScore dna t with
  | Generator.Num q => q
  | Generator.NaN => 0
  end.

Definition well_formed (t : Generator.Template) : Prop :=
  is_Some (Generator.complexity t) /\ is_Some (Generator.energy t).

(** The session row that the generation route creates. *)
Definition created_session (w : Server.World)
  (request : Server.EffectGenerationRequest) : Server.AiSession :=
  {| Server.s_id := S (Server.uuids w);
     Server.s_prompt := Server.prompt request;
     Server.s_response := None;
     Server.s_effectId := None;
     Server.s_status := "processing";
     Server.s_processingTime := None;
     Server.s_constitutionScore := None;
     Server.s_createdAt := Server.now w;
     Server.s_completedAt := None |}.

(** The world after the generation route when the generator throws,
    [d] being the time the generator took. *)
Definition world_after_failure (w : Server.World)
  (request : Server.EffectGenerationRequest) (d : Z) : Server.World :=
  {| Server.effects := Server.effects w;
     Server.aiSessions :=
       <[S (Server.uuids w) := created_session w request]> (Server.aiSessions w);
     Server.uuids := S (S (Server.uuids w));
     Server.now := (Server.now w + d)%Z;
     Server.console := Server.console w ++ ["AI Session not found"] |}.

(** The score that the client engine gives an article. *)
Definition client_article_score (effect : Engine.GeneratedEffect)
  (article : Engine.ConstitutionArticle) : Q :=
  if Engine.validator article effect then 100
  else Engine.calculatePartialScore effect article.

(** The text of an assignment "particleCount = <number>": optional
    spaces around the sign and at least one digit. *)
Definition assignment (ws1 ws2 ds : string) : string :=
  "particleCount" +:+ ws1 +:+ "=" +:+ ws2 +:+ ds.

End Spec.

(** ** Notions used in the statements about enforcement, the optimizer,
    the analyzer and the store *)

Module Notions.

(** *** Texts *)

(** [s] without its first character, and without its last one. *)
Definition tail (s : string) : string :=
  match s with
  | "" => ""
  | String _ t => t
  end.

Fixpoint init_of (s : string) : string :=
  match s with
  | "" => ""
  | String c "" => ""
  | String c s' => String c (init_of s')
  end.

(** *** The client engine *)

(** What [enforcePerformanceAbsolue] does to the code. *)
Definition perf_code (c : string) : string :=
  let code1 := if negb (Js.includes "performanceMonitor" c)
               then Js.replace "this.init();" Engine.performanceMonitorSetup c
               else c in
  if negb (Js.includes "optimizeForNextFrame" code1)
  then code1 +:+ Engine.optimizeForNextFrameCode else code1.

(** The middle of the monitor set-up: the text between the leading
    [this.] and the trailing [ this.init();]. *)
Definition setup_middle : string :=
"performanceMonitor = new PerformanceMonitor();
         this.targetFPS = 60;
         this.frameTime = 16.67;
        ".

(** A text that no client enforcer writes: it has no line break, no dot
    and no space, and occurs neither in the monitor set-up nor in any of
    the appended blocks. *)
Definition never_written (n : string) : bool :=
  negb (Js.char_in "010" n) && negb (Js.char_in "." n) && negb (Js.char_in " " n)
  && negb (Js.includes n "this") && negb (Js.includes n setup_middle)
  && forallb (fun block => negb (Js.includes n (tail block)))
       [Engine.optimizeForNextFrameCode; Engine.autoCalibrateCode;
        Engine.detectPlatformCode; Engine.oneClickCode; Engine.wowFactorCode;
        Engine.immersiveCode; Engine.competitiveAdvantageCode].

(** *** The server validator *)

(** The lines that an [add...] function writes after [init() {]: the
    replacement text without the pattern, without the line break that
    follows it and without the final semicolon. *)
Definition inserted_lines (replacement : string) : string :=
  init_of (tail (match Js.strip_prefix "init() {" replacement with
                 | Some rest => rest
                 | None => ""
                 end)).

Definition enforcement_texts : list string :=
  [inserted_lines Validator.adaptiveInit; tail Validator.adaptiveCode;
   inserted_lines Validator.perfInit; tail Validator.perfCode;
   inserted_lines Validator.compatInit; tail Validator.compatCode;
   inserted_lines Validator.experienceInit; tail Validator.experienceCode;
   inserted_lines Validator.visualInit; tail Validator.visualCode;
   inserted_lines Validator.addictiveInit; tail Validator.addictiveCode].

(** A text that [enhanceJavaScriptCode] never writes: it has no line
    break and no semicolon, and occurs in none of the inserted lines and
    appended blocks. *)
Definition never_enforced (n : string) : bool :=
  negb (Js.char_in "010" n) && negb (Js.char_in ";" n)
  && forallb (fun text => negb (Js.includes n text)) enforcement_texts.

(** The markers that the validators of articles 3, 5, 6 and 7 look for
    and that no block of the enforcement carries. *)
Definition unsupplied_markers : list string :=
  ["crossBrowser"; "polyfill"; "compatibility";
   "antialiasing"; "smoothing"; "quality";
   "immersive"; "engaging"; "interactive";
   "progress"; "achievement"; "feedback";
   "innovative"; "revolutionary"; "advanced"].

Definition marker_free (code : string) : bool :=
  forallb (fun n => negb (Js.includes n code)) unsupplied_markers.

(** *** The optimizer *)

(** [/particleCount\s*=\s*\d+/] after its first character. *)
Definition tail_re : Js.regex :=
  [Js.Lit "articleCount"; Js.Star Js.is_space; Js.Lit "=";
   Js.Star Js.is_space; Js.Plus Js.is_digit].

(** The platform rule with the number it writes as a parameter. *)
Definition assign_text (digits : string) : string := "particleCount = " +:+ digits.

Definition rewrite_counts (digits : string) (code : string) : string :=
  Js.replaceAll Generator.particleCountRe (assign_text digits) code.

(** *** The analyzer *)

(** The characters of a token: [a-z0-9_]. *)
Definition token_char (c : ascii) : bool :=
  Js.is_digit c || Js.is_lower c || (nat_of_ascii c =? 95)%nat.

(** The number of occurrences of a token. *)
Definition occurrences_of (token : string) (tokens : list string) : nat :=
  length (List.filter (String.eqb token) tokens).

(** The count that the frequency table holds for a key. *)
Fixpoint recorded (k : string) (freq : list (string * nat)) : nat :=
  match freq with
  | [] => 0
  | (k', n) :: rest => if String.eqb k' k then n else recorded k rest
  end.

(** One turn of the counting loop of [extractConcepts], and the table it
    builds. *)
Definition count_step (m : AiEngine.NeuralModel) (freq : list (string * nat))
  (token : string) : list (string * nat) :=
  if bool_decide (token ∈ AiEngine.vocabulary m)
  then AiEngine.bump token freq else freq.

Definition table (m : AiEngine.NeuralModel) (tokens : list string)
  : list (string * nat) :=
  fold_left (count_step m) tokens [].

Definition by_count (a b : string * nat) : Prop := (snd b <= snd a)%nat.


(** The model that [initialize] loads. *)
Definition loaded_model : AiEngine.NeuralModel :=
  {| AiEngine.embeddings := ∅;
     AiEngine.patterns :=
       fold_left (fun p kv => <[fst kv := snd kv]> p) AiEngine.effectPatterns ∅;
     AiEngine.vocabulary :=
       fold_left (fun v keyword => {[keyword]} ∪ v) AiEngine.effectKeywords ∅ |}.

(** *** The store *)

Section Serving.

Variable generateEffect : Server.EffectGenerationRequest -> Js.result Validator.Effect.
Variable duration : Server.EffectGenerationRequest -> Z.
Variable numberToString : Q -> string.
Variable stringify : Validator.Effect -> string.

(** One request served, each generation being run to its end before the
    next request, or time passing. *)
Inductive step : Server.World -> Server.World -> Prop :=
  | step_generate request w :
      step w (fst (Server.post_generate generateEffect duration numberToString
                     stringify request w))
  | step_delete id w : step w (fst (Server.delete_effect id w))
  | step_get_effect id w : step w (fst (Server.get_effect id w))
  | step_get_session id w : step w (fst (Server.get_session_by_id id w))
  | step_elapse d w : step w (fst (Server.elapse d w)).

Inductive steps : Server.World -> Server.World -> Prop :=
  | steps_refl w : steps w w
  | steps_step w1 w2 w3 : steps w1 w2 -> step w2 w3 -> steps w1 w3.

(** The worlds of a running server. *)
Definition running (w : Server.World) : Prop :=
  exists t0, steps (Server.new_world t0) w.

End Serving.

(** No identifier that is still to be drawn names a session. *)
Definition fresh (w : Server.World) : Prop :=
  forall k, (Server.uuids w <= k)%nat -> Server.aiSessions w !! k = None.

(** A session row as [createAiSession] leaves it. *)
Definition untouched (s : Server.AiSession) : Prop :=
  Server.s_status s = "processing" /\ Server.s_response s = None
  /\ Server.s_effectId s = None /\ Server.s_processingTime s = None
  /\ Server.s_constitutionScore s = None /\ Server.s_completedAt s = None.

End Notions.

Module Inputs.

Import Validator.
Local Open Scope Q_scope.

(** [Number.prototype.toString] on integral values, the only numbers that
    the effects of this module contain. *)
Definition integerToString (q : Q) : string := pretty (Qfloor q).

(** The effect that [new MemStorage()] puts in the store. *)
Definition plasma : Effect := Server.sampleEffect 0 0.

(** The same row with a memory estimate of 390 MB and a 10 ms render
    time. *)
Definition plasma390 : Effect :=
  {| id := 0; name := name plasma; description := description plasma;
     category := category plasma; type := type plasma; tags := tags plasma;
     javascriptCode := javascriptCode plasma;
     cssCode := None; afterEffectsCode := None;
     constitutionScore := 0;
     performanceCompliant := false; intelligenceAdaptive := false;
     universalCompatible := false; perfectExperience := false;
     visualImpact := false; addictiveEcosystem := false;
     competitiveDomination := false;
     renderTime := 10; memoryUsage := 390; targetFps := 60;
     generatedBy := "AI"; generationPrompt := None;
     createdAt := 0; updatedAt := 0 |}.

(** An effect whose six flag columns hold the default of the schema,
    false, with code that holds every marker of articles 1 to 6 and an
    innovation keyword, and fast metrics. *)
Definition aurora : Effect :=
  {| id := 1; name := "Aurora"; description := "An effect that carries every marker";
     category := "particle"; type := "javascript"; tags := [];
     javascriptCode :=
       Some "class Aurora { init() { this.autoCalibrate(); this.detectPlatform(); this.optimizeForNextFrame(); this.setupCrossBrowserCompat(); /* polyfill, interactive, glow, gravity, smoothing, random, progress, innovative */ requestAnimationFrame(() => this.render()); } }";
     cssCode := Some ".aurora { opacity: 1; }";
     afterEffectsCode := Some "var time = thisComp.time;";
     constitutionScore := 0;
     performanceCompliant := false; intelligenceAdaptive := false;
     universalCompatible := false; perfectExperience := false;
     visualImpact := false; addictiveEcosystem := false;
     competitiveDomination := false;
     renderTime := 5; memoryUsage := 128; targetFps := 60;
     generatedBy := "AI"; generationPrompt := None;
     createdAt := 0; updatedAt := 0 |}.

(** A freshly generated client effect, before enforcement. *)
Definition burst : Engine.GeneratedEffect :=
  {| Engine.id := "effect_k3x9q2m1a";
     Engine.name := "particle explosion Effect";
     Engine.description := "A fast explosive particle burst";
     Engine.code := "class Burst { constructor() { this.init(); } }";
     Engine.metadata :=
       {| Engine.renderTime := 3; Engine.memoryUsage := 74;
          Engine.fps := 60; Engine.constitutionScore := 0 |};
     Engine.dna :=
       {| Dna.primaryConcepts := ["particle"; "explosion"];
          Dna.emotionalProfile :=
            {| Dna.energy := 2 # 5; Dna.complexity := 0; Dna.elegance := 0 |};
          Dna.technicalRequirements :=
            {| Dna.performance := 54; Dna.memory := 1536 # 5;
               Dna.compatibility := ["web"; "mobile"; "desktop"] |};
          Dna.confidenceScore := 3 # 5;
          Dna.constitutionCompliance := false |} |}.

(** A generator that throws, and a request. *)
Definition failingGenerator (request : Server.EffectGenerationRequest)
  : Js.result Effect :=
  Js.Throw "Template rendering failed".

Definition request : Server.EffectGenerationRequest :=
  {| Server.prompt := "A fast explosive particle burst";
     Server.r_type := "javascript";
     Server.r_targetFps := 60;
     Server.r_maxMemory := 512;
     Server.enableConstitution := true |}.

(** A catalogue whose entries carry the two properties that the template
    score reads. *)
Definition calm : Generator.Template :=
  {| Generator.name := "Calm"; Generator.category := "animation";
     Generator.baseCode := ".calm { opacity: 1; }";
     Generator.performance := 9 # 10;
     Generator.compatibility := ["web"];
     Generator.complexity := Some 0; Generator.energy := Some 0 |}.

Definition lively : Generator.Template :=
  {| Generator.name := "Lively"; Generator.category := "particle";
     Generator.baseCode := "class Lively {}";
     Generator.performance := 8 # 10;
     Generator.compatibility := ["web"];
     Generator.complexity := Some 0; Generator.energy := Some (2 # 5) |}.

(** A generator that returns the sample effect. *)
Definition sampleGenerator (request : Server.EffectGenerationRequest)
  : Js.result Effect :=
  Js.Ok plasma.

End Inputs.

(** * Properties *)

(** Let [simpl] unfold the concatenation of texts. *)
Local Arguments String.append !s1 s2 / : simpl nomatch.

(** ** Rational comparisons *)

Lemma Qlt_bool_iff (x y : Q) : Js.Qlt_bool x y = true <-> (x < y)%Q.
Proof.
  unfold Js.Qlt_bool. rewrite negb_true_iff.
  split; intros H.
  - apply Qnot_le_lt. intros Hle. apply Qle_bool_iff in Hle. congruence.
  - destruct (Qle_bool y x) eqn:E; [|reflexivity].
    apply Qle_bool_iff in E. exfalso. exact (Qlt_not_le _ _ H E).
Qed.

Lemma round_comp (x y : Q) : (x == y)%Q -> Js.round x = Js.round y.
Proof. intros H. unfold Js.round. apply Qfloor_comp. rewrite H. reflexivity. Qed.

(** ** The server validator *)

Module ValidatorFacts.

Import Validator.
Local Open Scope Q_scope.

(** The marker articles take finitely many values: the report of each is
    decided by a few booleans. *)
Lemma intelligence_flag effect :
  compliant (validateIntelligenceAdaptative effect)
  = (90 <=? score (validateIntelligenceAdaptative effect))%Z.
Proof.
  unfold validateIntelligenceAdaptative, intelligenceScore; simpl.
  destruct (hasAutoCalibration _), (hasDeviceDetection _),
    (hasPerformanceMonitoring _); reflexivity.
Qed.

Lemma versatility_flag nts effect :
  compliant (validatePolyvalenceUniverselle nts effect)
  = (90 <=? score (validatePolyvalenceUniverselle nts effect))%Z.
Proof.
  unfold validatePolyvalenceUniverselle, versatilityScore, platforms; simpl.
  destruct (Js.truthy (javascriptCode effect)), (Js.truthy (cssCode effect)),
    (Js.truthy (afterEffectsCode effect)), (hasCrossBrowser _),
    (hasUniversalCodec _); reflexivity.
Qed.

Lemma experience_flag effect :
  compliant (validateExperienceParfaite effect)
  = (90 <=? score (validateExperienceParfaite effect))%Z.
Proof.
  unfold validateExperienceParfaite, experienceScore; simpl.
  destruct (hasOneClick _), (hasLivePreview _), (hasInteraction _); reflexivity.
Qed.

Lemma visual_flag effect :
  compliant (validateImpactVisuel effect)
  = (90 <=? score (validateImpactVisuel effect))%Z.
Proof.
  unfold validateImpactVisuel, visualScore; simpl.
  destruct (hasWowFactor _), (hasPhysics _), (hasQuality _); reflexivity.
Qed.

Lemma ecosystem_flag effect :
  compliant (validateEcosystemeAddictif effect)
  = (90 <=? score (validateEcosystemeAddictif effect))%Z.
Proof.
  unfold validateEcosystemeAddictif, ecosystemScore; simpl.
  destruct (hasImmersion _), (hasSurprise _), (hasRetention _); reflexivity.
Qed.

Lemma domination_cases (b1 b2 b3 b4 b5 b6 i a : bool) :
  let raw := 0 + ((pct b1 + pct b2 + pct b3 + pct b4 + pct b5 + pct b6) / 6 / 100) * 40
             + (if i then 30 else 0) + (if a then 30 else 0) in
  Js.round raw = Js.round (Spec.article7 [b1; b2; b3; b4; b5; b6] i a)
  /\ Qle_bool 95 raw = (95 <=? Js.round raw)%Z
  /\ (Qle_bool 95 raw = true <-> forallb (fun b => b) [b1; b2; b3; b4; b5; b6; i; a] = true).
Proof.
  destruct b1, b2, b3, b4, b5, b6, i, a; vm_compute;
    (split; [reflexivity | split; [reflexivity | split; congruence]]).
Qed.

Lemma competitive_advantage_iff effect :
  hasCompetitiveAdvantage effect = true
  <-> renderTime effect < 10 /\ 60 <= targetFps effect /\ memoryUsage effect < 200.
Proof.
  unfold hasCompetitiveAdvantage.
  rewrite !andb_true_iff, !Qlt_bool_iff, Qle_bool_iff. tauto.
Qed.

Lemma domination_flag effect :
  compliant (validateDominationConcurrentielle effect)
  = (95 <=? score (validateDominationConcurrentielle effect))%Z.
Proof.
  unfold validateDominationConcurrentielle, dominationScore, otherArticlesAvg.
  cbn [score compliant].
  apply (domination_cases (performanceCompliant effect)
    (intelligenceAdaptive effect) (universalCompatible effect)
    (perfectExperience effect) (visualImpact effect) (addictiveEcosystem effect)
    (hasInnovation (webCode effect)) (hasCompetitiveAdvantage effect)).
Qed.

(** C5, amended.  Article 7 is scored as the rounding of 40% of the
    average of the six flags [performanceCompliant] ... [addictiveEcosystem]
    that are stored on the effect record handed to the validator (each
    counted as 0 or 100; these are the columns of the row, not the verdicts
    of the validators of articles 1 to 6 on that effect) plus 30 when the
    code carries an innovation keyword plus 30 when renderTime < 10,
    targetFps >= 60 and memoryUsage < 200; the article is compliant exactly
    when that score reaches 95, which happens only when the six stored
    flags are set and the other two conditions hold. *)
Theorem domination_score (effect : Effect) :
  let r := validateDominationConcurrentielle effect in
  let flags := [performanceCompliant effect; intelligenceAdaptive effect;
                universalCompatible effect; perfectExperience effect;
                visualImpact effect; addictiveEcosystem effect] in
  let innovation :=
    Js.includes "innovative" (webCode effect)
    || Js.includes "revolutionary" (webCode effect)
    || Js.includes "advanced" (webCode effect) in
  score r = Js.round (Spec.article7 flags innovation (hasCompetitiveAdvantage effect))
  /\ compliant r = (95 <=? score r)%Z
  /\ (compliant r = true <->
      forallb (fun b => b) flags = true /\ innovation = true
      /\ renderTime effect < 10 /\ 60 <= targetFps effect /\ memoryUsage effect < 200).
Proof.
  cbv zeta.
  pose proof (domination_cases (performanceCompliant effect)
    (intelligenceAdaptive effect) (universalCompatible effect)
    (perfectExperience effect) (visualImpact effect) (addictiveEcosystem effect)
    (hasInnovation (webCode effect)) (hasCompetitiveAdvantage effect)) as H.
  cbv zeta in H. destruct H as (Hs & Hc & Hall).
  unfold validateDominationConcurrentielle, dominationScore, otherArticlesAvg.
  cbn [score compliant].
  split; [exact Hs|]. split; [exact Hc|].
  rewrite Hall. rewrite <- competitive_advantage_iff.
  unfold hasInnovation.
  cbn [forallb].
  rewrite !andb_true_iff. tauto.
Qed.

(** C5, as the specification states it, fails: the flags that enter the
    average are those stored on the record, not the compliance of articles
    1 to 6 of the effect being scored.  On the effect of the sample data
    only article 1 passes its validator while the six stored flags are set:
    article 7 scores 40, where the formula over the compliance of articles
    1 to 6 gives 7.  On an effect that passes the six validators, carries an
    innovation keyword and has fast metrics, but is stored with the default
    flags, article 7 scores 60 and is not compliant (the total is 94),
    where the formula gives 100. *)
Lemma domination_score_is_not_of_scored_articles :
  let formula effect :=
    Js.round (Spec.article7
      (Spec.compliance_1_to_6 (validateCompliance Inputs.integerToString effect))
      (hasInnovation (webCode effect)) (hasCompetitiveAdvantage effect)) in
  (let c := validateCompliance Inputs.integerToString Inputs.plasma in
   Spec.compliance_1_to_6 c = [true; false; false; false; false; false]
   /\ score (validateDominationConcurrentielle Inputs.plasma) = 40%Z
   /\ formula Inputs.plasma = 7%Z
   /\ score (validateDominationConcurrentielle Inputs.plasma) <> formula Inputs.plasma)
  /\ (let c := validateCompliance Inputs.integerToString Inputs.aurora in
      Spec.compliance_1_to_6 c = [true; true; true; true; true; true]
      /\ score (validateDominationConcurrentielle Inputs.aurora) = 60%Z
      /\ c_competitiveDomination c = false
      /\ totalScore c = 94%Z
      /\ formula Inputs.aurora = 100%Z
      /\ score (validateDominationConcurrentielle Inputs.aurora) <> formula Inputs.aurora).
Proof.
  cbv zeta. split.
  - split; [vm_compute; reflexivity|]. split; [vm_compute; reflexivity|].
    split; [vm_compute; reflexivity|]. vm_compute. discriminate.
  - split; [vm_compute; reflexivity|]. split; [vm_compute; reflexivity|].
    split; [vm_compute; reflexivity|]. split; [vm_compute; reflexivity|].
    split; [vm_compute; reflexivity|]. vm_compute. discriminate.
Qed.

Lemma round_ge (bar : Z) (x : Q) : inject_Z bar <= x -> (bar <= Js.round x)%Z.
Proof.
  intros H. unfold Js.round.
  rewrite <- (Qfloor_Z bar). apply Qfloor_resp_le.
  apply Qle_trans with x; [exact H|].
  rewrite <- (Qplus_0_r x) at 1. apply Qplus_le_r. discriminate.
Qed.

(** C2, as the code has it.  The total is the rounded weighted sum of the
    seven reported sub-scores, with weights 14.3 (articles 1 to 6) and 14.2
    (article 7), which sum to 100; each reported sub-score is the rounding
    of the article's raw score, and each flag compares the raw score,
    before rounding, with the article's bar.  For articles 2 to 7 the flag
    also equals "reported score >= bar"; for article 1 it only implies
    it. *)
Theorem compliance_report (numberToString : Q -> string) (effect : Effect) :
  let c := validateCompliance numberToString effect in
  let r1 := validatePerformanceAbsolue numberToString effect in
  let r2 := validateIntelligenceAdaptative effect in
  let r3 := validatePolyvalenceUniverselle numberToString effect in
  let r4 := validateExperienceParfaite effect in
  let r5 := validateImpactVisuel effect in
  let r6 := validateEcosystemeAddictif effect in
  let r7 := validateDominationConcurrentielle effect in
  totalScore c
  = Spec.totalScore (score r1) (score r2) (score r3) (score r4) (score r5)
      (score r6) (score r7)
  /\ map weight articles
     = [143 # 10; 143 # 10; 143 # 10; 143 # 10; 143 # 10; 143 # 10; 142 # 10]
  /\ fold_right Qplus 0 (map weight articles) == 100
  /\ (score r1 = Js.round (performanceScore effect)
      /\ score r2 = Js.round (intelligenceScore effect)
      /\ score r3 = Js.round (versatilityScore effect)
      /\ score r4 = Js.round (experienceScore effect)
      /\ score r5 = Js.round (visualScore effect)
      /\ score r6 = Js.round (ecosystemScore effect)
      /\ score r7 = Js.round (dominationScore effect))
  /\ (c_performanceCompliant c = Qle_bool 90 (performanceScore effect)
      /\ c_intelligenceAdaptive c = Qle_bool 90 (intelligenceScore effect)
      /\ c_universalCompatible c = Qle_bool 90 (versatilityScore effect)
      /\ c_perfectExperience c = Qle_bool 90 (experienceScore effect)
      /\ c_visualImpact c = Qle_bool 90 (visualScore effect)
      /\ c_addictiveEcosystem c = Qle_bool 90 (ecosystemScore effect)
      /\ c_competitiveDomination c = Qle_bool 95 (dominationScore effect))
  /\ (c_performanceCompliant c = true -> (90 <= score r1)%Z)
  /\ (c_intelligenceAdaptive c = (90 <=? score r2)%Z
      /\ c_universalCompatible c = (90 <=? score r3)%Z
      /\ c_perfectExperience c = (90 <=? score r4)%Z
      /\ c_visualImpact c = (90 <=? score r5)%Z
      /\ c_addictiveEcosystem c = (90 <=? score r6)%Z
      /\ c_competitiveDomination c = (95 <=? score r7)%Z).
Proof.
  cbv zeta. repeat split.
  - unfold validateCompliance, Spec.totalScore. cbn [totalScore].
    apply round_comp.
    change (article_weight 0) with (143 # 10).
    change (article_weight 1) with (143 # 10).
    change (article_weight 2) with (143 # 10).
    change (article_weight 3) with (143 # 10).
    change (article_weight 4) with (143 # 10).
    change (article_weight 5) with (143 # 10).
    change (article_weight 6) with (142 # 10).
    field.
  - unfold validateCompliance, validatePerformanceAbsolue.
    cbn [c_performanceCompliant compliant score].
    intros H. apply round_ge. apply Qle_bool_iff. exact H.
  - apply intelligence_flag.
  - apply versatility_flag.
  - apply experience_flag.
  - apply visual_flag.
  - apply ecosystem_flag.
  - apply domination_flag.
Qed.

(** C2, as the specification states it, fails for article 1: with
    targetFps = 60, renderTime = 10 and memoryUsage = 390 the raw score is
    89.53125, which is reported as 90 and is not compliant. *)
Lemma reported_score_reaches_bar_without_flag :
  let c := validateCompliance Inputs.integerToString Inputs.plasma390 in
  exists r,
    c_details c !! "Performance Absolue" = Some r
    /\ score r = 90%Z
    /\ c_performanceCompliant c = false
    /\ c_performanceCompliant c <> (90 <=? score r)%Z.
Proof.
  eexists. split; [vm_compute; reflexivity|].
  split; [reflexivity|]. split; [reflexivity|]. discriminate.
Qed.

(** C1.  [validateAndEnforce] returns the flags and the score of the
    report computed on its argument, before enforcement, whatever the
    enforcement then changes; on the effect of the sample data the code is
    changed by enforcement while the returned flag of article 4 and the
    returned score (false, 22) differ from those obtained by scoring the
    returned effect (true, 61). *)
Theorem validateAndEnforce_keeps_first_report :
  (forall (numberToString : Q -> string) (effect : Effect),
     let c := validateCompliance numberToString effect in
     let e := validateAndEnforce numberToString effect in
     constitutionScore e = inject_Z (totalScore c)
     /\ performanceCompliant e = c_performanceCompliant c
     /\ intelligenceAdaptive e = c_intelligenceAdaptive c
     /\ universalCompatible e = c_universalCompatible c
     /\ perfectExperience e = c_perfectExperience c
     /\ visualImpact e = c_visualImpact c
     /\ addictiveEcosystem e = c_addictiveEcosystem c
     /\ competitiveDomination e = c_competitiveDomination c)
  /\ (let e := validateAndEnforce Inputs.integerToString Inputs.plasma in
      let c' := validateCompliance Inputs.integerToString e in
      javascriptCode e <> javascriptCode Inputs.plasma
      /\ perfectExperience e = false /\ c_perfectExperience c' = true
      /\ constitutionScore e = 22 /\ totalScore c' = 61%Z).
Proof.
  split.
  - intros numberToString effect. cbv zeta. unfold validateAndEnforce.
    destruct (totalScore (validateCompliance numberToString effect) <? 90)%Z;
      repeat split; reflexivity.
  - cbv zeta. split; [vm_compute; discriminate|].
    repeat split; vm_compute; reflexivity.
Qed.

(** C3 on the server.  Run twice on the effect of the sample data,
    [validateAndEnforce] appends the boilerplate of article II twice. *)
Lemma validateAndEnforce_twice_duplicates :
  let e1 := validateAndEnforce Inputs.integerToString Inputs.plasma in
  let e2 := validateAndEnforce Inputs.integerToString e1 in
  Js.occurrences "autoCalibrate() {" (jsCode Inputs.plasma) = 0%nat
  /\ Js.occurrences "autoCalibrate() {" (jsCode e1) = 1%nat
  /\ Js.occurrences "autoCalibrate() {" (jsCode e2) = 2%nat.
Proof. repeat split; vm_compute; reflexivity. Qed.

End ValidatorFacts.


(** ** Texts and regular expressions *)

Module JsFacts.

Import Js.

Lemma append_nil_l (s : string) : "" +:+ s = s.
Proof. reflexivity. Qed.

Lemma append_cons (c : ascii) (a b : string) : String c a +:+ b = String c (a +:+ b).
Proof. reflexivity. Qed.

Lemma append_nil_r (s : string) : s +:+ "" = s.
Proof. induction s as [|c s IH]; simpl; [reflexivity | now rewrite IH]. Qed.

Lemma append_assoc (a b c : string) : (a +:+ b) +:+ c = a +:+ (b +:+ c).
Proof. induction a as [|x a IH]; simpl; [reflexivity | now rewrite IH]. Qed.

Lemma length_append (a b : string) :
  String.length (a +:+ b) = (String.length a + String.length b)%nat.
Proof. induction a as [|x a IH]; simpl; [reflexivity | now rewrite IH]. Qed.

(** *** [strip_prefix] *)

Lemma strip_prefix_app (p s : string) : strip_prefix p (p +:+ s) = Some s.
Proof.
  induction p as [|a p IH]; simpl; [reflexivity|].
  rewrite Ascii.eqb_refl. exact IH.
Qed.

Lemma strip_prefix_Some (p s rest : string) :
  strip_prefix p s = Some rest -> s = p +:+ rest.
Proof.
  revert s. induction p as [|a p IH]; intros s H; simpl in *.
  - congruence.
  - destruct s as [|b s]; [discriminate|].
    destruct (Ascii.eqb a b) eqn:E; [|discriminate].
    apply Ascii.eqb_eq in E. subst b. f_equal. apply IH. exact H.
Qed.

(** Appending a text that starts with a character foreign to the prefix
    changes nothing to the outcome. *)
Lemma strip_prefix_extend (p s : string) (x : ascii) (Y : string) :
  char_in x p = false ->
  strip_prefix p (s +:+ String x Y)
  = option_map (fun r => r +:+ String x Y) (strip_prefix p s).
Proof.
  revert s. induction p as [|a p IH]; intros s Hx; simpl.
  - reflexivity.
  - simpl in Hx. apply orb_false_iff in Hx. destruct Hx as [Hax Hp].
    destruct s as [|b s]; simpl.
    + rewrite Hax. reflexivity.
    + destruct (Ascii.eqb a b); [apply IH; exact Hp | reflexivity].
Qed.

(** *** [skip_while] *)

Lemma skip_while_stop (cls : ascii -> bool) (s : string) :
  starts_with cls s = false -> skip_while cls s = s.
Proof. destruct s as [|c s]; simpl; [reflexivity|]. now intros ->. Qed.

Lemma skip_while_all (cls : ascii -> bool) (w s : string) :
  all_chars cls w = true -> starts_with cls s = false ->
  skip_while cls (w +:+ s) = s.
Proof.
  induction w as [|c w IH]; simpl; intros Hw Hs.
  - apply skip_while_stop. exact Hs.
  - apply andb_true_iff in Hw. destruct Hw as [Hc Hw]. rewrite Hc. now apply IH.
Qed.

Lemma skip_while_extend (cls : ascii -> bool) (s : string) (x : ascii) (Y : string) :
  cls x = false ->
  skip_while cls (s +:+ String x Y) = skip_while cls s +:+ String x Y.
Proof.
  intros Hx. induction s as [|c s IH]; simpl.
  - now rewrite Hx.
  - destruct (cls c); [exact IH | reflexivity].
Qed.

Lemma skip_while_suffix (cls : ascii -> bool) (s : string) :
  exists w, s = w +:+ skip_while cls s.
Proof.
  induction s as [|c s [w IH]]; simpl.
  - now exists "".
  - destruct (cls c).
    + exists (String c w). simpl. now rewrite <- IH.
    + now exists "".
Qed.

(** *** [match_here] *)

(** What is left after a match is a suffix of the text. *)
Lemma match_here_suffix (re : regex) (s rest : string) :
  match_here re s = Some rest -> exists m, s = m +:+ rest.
Proof.
  revert s. induction re as [|i re IH]; intros s H; simpl in H.
  - exists "". simpl. congruence.
  - destruct i as [p|cls|cls].
    + destruct (strip_prefix p s) as [s1|] eqn:E; [|discriminate].
      apply strip_prefix_Some in E. destruct (IH _ H) as [m Hm].
      exists (p +:+ m). now rewrite append_assoc, <- Hm.
    + destruct (IH _ H) as [m Hm].
      destruct (skip_while_suffix cls s) as [w Hw].
      exists (w +:+ m). now rewrite append_assoc, <- Hm, <- Hw.
    + destruct s as [|c s]; [discriminate|].
      destruct (cls c); [|discriminate].
      destruct (IH _ H) as [m Hm].
      destruct (skip_while_suffix cls s) as [w Hw].
      exists (String c (w +:+ m)). simpl. now rewrite append_assoc, <- Hm, <- Hw.
Qed.

(** A text appended after [s] that starts with a character foreign to the
    expression is not consumed, and does not turn a failure into a
    match. *)
Lemma match_here_extend (re : regex) (x : ascii) (Y : string) :
  avoids x re = true ->
  forall s, match_here re (s +:+ String x Y)
            = option_map (fun r => r +:+ String x Y) (match_here re s).
Proof.
  induction re as [|i re IH]; intros Hav s; simpl.
  - reflexivity.
  - simpl in Hav. apply andb_true_iff in Hav. destruct Hav as [Hi Hre].
    destruct i as [p|cls|cls]; apply negb_true_iff in Hi.
    + rewrite strip_prefix_extend by exact Hi.
      destruct (strip_prefix p s); simpl; [now apply IH | reflexivity].
    + rewrite skip_while_extend by exact Hi. now apply IH.
    + destruct s as [|c s]; simpl.
      * now rewrite Hi.
      * destruct (cls c); [|reflexivity].
        rewrite skip_while_extend by exact Hi. now apply IH.
Qed.

(** *** [replaceAll] *)

Lemma replaceAll_from_skip (re : regex) (rep m s : string) :
  replaceAll_from re rep (String.length m) (m +:+ s) = replaceAll_from re rep 0 s.
Proof. induction m as [|c m IH]; simpl; [reflexivity | exact IH]. Qed.

(** At a non-empty match the replacement is written and the scan goes on
    after the match. *)
Lemma replaceAll_match (re : regex) (rep m rest : string) :
  m <> "" -> match_here re (m +:+ rest) = Some rest ->
  replaceAll re rep (m +:+ rest) = rep +:+ replaceAll re rep rest.
Proof.
  intros Hm H. destruct m as [|c m]; [congruence|].
  unfold replaceAll. cbn [String.append replaceAll_from].
  change (String c (m +:+ rest)) with (String c m +:+ rest) in *.
  rewrite H. rewrite length_append.
  replace (String.length (String c m) + String.length rest - String.length rest)%nat
    with (S (String.length m)) by (simpl; lia).
  f_equal. apply replaceAll_from_skip.
Qed.

(** Where nothing matches the character is copied. *)
Lemma replaceAll_no_match (re : regex) (rep : string) (c : ascii) (s : string) :
  match_here re (String c s) = None ->
  replaceAll re rep (String c s) = String c (replaceAll re rep s).
Proof. intros H. unfold replaceAll. cbn [replaceAll_from]. now rewrite H. Qed.

(** *** [includes] and [replace] *)

Lemma includes_eq (n s : string) :
  includes n s
  = match strip_prefix n s with
    | Some _ => true
    | None => match s with "" => false | String _ s' => includes n s' end
    end.
Proof. destruct s; reflexivity. Qed.

Lemma strip_prefix_app_l (p s r b : string) :
  strip_prefix p s = Some r -> strip_prefix p (s +:+ b) = Some (r +:+ b).
Proof.
  intros H. apply strip_prefix_Some in H. subst s.
  rewrite append_assoc. apply strip_prefix_app.
Qed.

Lemma includes_app_l (n s b : string) :
  includes n s = true -> includes n (s +:+ b) = true.
Proof.
  induction s as [|c s IH]; intros H.
  - rewrite includes_eq in H. rewrite includes_eq.
    destruct (strip_prefix n "") as [r|] eqn:E; [|discriminate].
    now rewrite (strip_prefix_app_l _ _ _ b E).
  - rewrite includes_eq in H. rewrite includes_eq.
    destruct (strip_prefix n (String c s)) as [r|] eqn:E.
    + now rewrite (strip_prefix_app_l _ _ _ b E).
    + rewrite append_cons.
      destruct (strip_prefix n (String c (s +:+ b))); [reflexivity|].
      apply IH. exact H.
Qed.

Lemma includes_app_r (n s b : string) :
  includes n b = true -> includes n (s +:+ b) = true.
Proof.
  intros H. induction s as [|c s IH]; [exact H|].
  rewrite includes_eq. rewrite append_cons.
  destruct (strip_prefix n (String c (s +:+ b))); [reflexivity | exact IH].
Qed.

Lemma includes_sep (n x : string) (c : ascii) (y : string) :
  char_in c n = false ->
  includes n (x +:+ String c y) = includes n x || includes n y.
Proof.
  intros Hc. induction x as [|b x IH].
  - rewrite append_nil_l. rewrite (includes_eq n (String c y)), (includes_eq n "").
    destruct n as [|a n]; [reflexivity|].
    simpl in Hc. apply orb_false_iff in Hc. destruct Hc as [Hac _].
    cbn [strip_prefix]. rewrite Hac. reflexivity.
  - rewrite (includes_eq n (String b x +:+ String c y)), (includes_eq n (String b x)).
    rewrite strip_prefix_extend by exact Hc.
    destruct (strip_prefix n (String b x)); [reflexivity|].
    cbn [option_map]. rewrite append_cons. exact IH.
Qed.

Lemma replace_eq (p rep s : string) :
  replace p rep s
  = match strip_prefix p s with
    | Some rest => rep +:+ rest
    | None => match s with "" => "" | String c s' => String c (replace p rep s') end
    end.
Proof. destruct s; reflexivity. Qed.

Lemma replace_absent (p rep s : string) :
  includes p s = false -> replace p rep s = s.
Proof.
  induction s as [|c s IH]; intros H; rewrite includes_eq in H; rewrite replace_eq.
  - destruct (strip_prefix p ""); [discriminate | reflexivity].
  - destruct (strip_prefix p (String c s)); [discriminate|].
    now rewrite IH.
Qed.

Lemma replace_found (p rep s : string) :
  includes p s = true ->
  exists a b, s = a +:+ p +:+ b /\ replace p rep s = a +:+ rep +:+ b.
Proof.
  induction s as [|c s IH]; intros H; rewrite includes_eq in H; rewrite replace_eq.
  - destruct (strip_prefix p "") as [r|] eqn:E; [|discriminate].
    exists "", r. rewrite !append_nil_l. split; [|reflexivity]. now apply strip_prefix_Some.
  - destruct (strip_prefix p (String c s)) as [r|] eqn:E.
    + exists "", r. rewrite !append_nil_l. split; [|reflexivity]. now apply strip_prefix_Some.
    + destruct (IH H) as (a & b & Hs & Hr).
      exists (String c a), b. rewrite !append_cons. split; congruence.
Qed.

(** *** Character classes along a text *)

Lemma all_chars_app (cls : ascii -> bool) (a b : string) :
  all_chars cls (a +:+ b) = all_chars cls a && all_chars cls b.
Proof.
  induction a as [|c a IH]; [reflexivity|].
  rewrite append_cons. cbn [all_chars]. now rewrite IH, andb_assoc.
Qed.

Lemma skip_while_stops (cls : ascii -> bool) (s : string) :
  starts_with cls (skip_while cls s) = false.
Proof.
  induction s as [|c s IH]; [reflexivity|].
  cbn [skip_while]. destruct (cls c) eqn:E; [exact IH|]. cbn. exact E.
Qed.

End JsFacts.

(** ** The server validator: ranges and enforcement *)

Module EnforcementFacts.

Import Js JsFacts Validator Notions.
Local Open Scope Q_scope.

(** *** The total as a function of the seven scores *)

Lemma total_formula nts effect :
  totalScore (validateCompliance nts effect)
  = Spec.totalScore
      (score (validatePerformanceAbsolue nts effect))
      (score (validateIntelligenceAdaptative effect))
      (score (validatePolyvalenceUniverselle nts effect))
      (score (validateExperienceParfaite effect))
      (score (validateImpactVisuel effect))
      (score (validateEcosystemeAddictif effect))
      (score (validateDominationConcurrentielle effect)).
Proof.
  unfold validateCompliance, Spec.totalScore. cbn [totalScore].
  apply round_comp.
  change (article_weight 0) with (143 # 10).
  change (article_weight 1) with (143 # 10).
  change (article_weight 2) with (143 # 10).
  change (article_weight 3) with (143 # 10).
  change (article_weight 4) with (143 # 10).
  change (article_weight 5) with (143 # 10).
  change (article_weight 6) with (142 # 10).
  field.
Qed.

Lemma round_mono (x y : Q) : x <= y -> (Js.round x <= Js.round y)%Z.
Proof. intros H. unfold Js.round. apply Qfloor_resp_le. lra. Qed.

Lemma round_Z (z : Z) : Js.round (inject_Z z) = z.
Proof.
  unfold Js.round. apply Z.le_antisymm.
  - apply Z.lt_succ_r. rewrite Zlt_Qlt.
    eapply Qle_lt_trans; [apply Qfloor_le|].
    unfold Z.succ. rewrite inject_Z_plus. change (inject_Z 1) with 1. lra.
  - rewrite <- (Qfloor_Z z) at 1. apply Qfloor_resp_le. lra.
Qed.

Lemma round_between (lo hi : Z) (x : Q) :
  inject_Z lo <= x <= inject_Z hi -> (lo <= Js.round x <= hi)%Z.
Proof.
  intros [H1 H2]. split.
  - rewrite <- (round_Z lo). now apply round_mono.
  - rewrite <- (round_Z hi). now apply round_mono.
Qed.

Lemma totalScore_mono (a1 a2 a3 a4 a5 a6 a7 b1 b2 b3 b4 b5 b6 b7 : Z) :
  (a1 <= b1)%Z -> (a2 <= b2)%Z -> (a3 <= b3)%Z -> (a4 <= b4)%Z ->
  (a5 <= b5)%Z -> (a6 <= b6)%Z -> (a7 <= b7)%Z ->
  (Spec.totalScore a1 a2 a3 a4 a5 a6 a7 <= Spec.totalScore b1 b2 b3 b4 b5 b6 b7)%Z.
Proof.
  intros H1 H2 H3 H4 H5 H6 H7. unfold Spec.totalScore. apply round_mono.
  apply Qmult_le_compat_r; [|discriminate].
  rewrite Zle_Qle in H1, H2, H3, H4, H5, H6, H7. lra.
Qed.

(** *** The ranges of the raw scores *)

Lemma fpsScore_range effect :
  fpsScore effect <= 40 /\ (0 <= targetFps effect -> 0 <= fpsScore effect).
Proof.
  unfold fpsScore. destruct (Qle_bool 60 (targetFps effect)) eqn:E.
  - split; intros; lra.
  - assert (H : targetFps effect < 60).
    { apply Qnot_le_lt. intros H. apply Qle_bool_iff in H. congruence. }
    split.
    + apply Qle_trans with (60 / 60 * 40); [|discriminate].
      apply Qmult_le_compat_r; [|discriminate].
      apply Qmult_le_compat_r; [lra|discriminate].
    + intros H0. apply Qmult_le_0_compat; [|discriminate].
      apply Qmult_le_0_compat; [exact H0|discriminate].
Qed.

Lemma renderScore_range effect : 0 <= renderScore effect <= 40.
Proof.
  unfold renderScore. destruct (Qle_bool (renderTime effect) (1667 # 100)) eqn:E.
  - split; lra.
  - assert (H : 1667 # 100 < renderTime effect).
    { apply Qnot_le_lt. intros H. apply Qle_bool_iff in H. congruence. }
    split; [apply Q.le_max_l|].
    apply Q.max_lub; lra.
Qed.

Lemma memoryScore_range effect : 0 <= memoryScore effect <= 20.
Proof.
  unfold memoryScore. destruct (Qle_bool (memoryUsage effect) 256) eqn:E.
  - split; lra.
  - assert (H : 256 < memoryUsage effect).
    { apply Qnot_le_lt. intros H. apply Qle_bool_iff in H. congruence. }
    split; [apply Q.le_max_l|].
    apply Q.max_lub; [lra|].
    assert (0 <= (memoryUsage effect - 256) / 256 * 20); [|lra].
    apply Qmult_le_0_compat; [|discriminate].
    apply Qmult_le_0_compat; [lra|discriminate].
Qed.

Lemma performanceScore_range effect :
  performanceScore effect <= 100
  /\ (0 <= targetFps effect -> 0 <= performanceScore effect).
Proof.
  unfold performanceScore.
  destruct (fpsScore_range effect) as [F1 F0].
  pose proof (renderScore_range effect). pose proof (memoryScore_range effect).
  split; [lra|]. intros Hfps. specialize (F0 Hfps). lra.
Qed.

Lemma intelligenceScore_range effect : 0 <= intelligenceScore effect <= 100.
Proof.
  unfold intelligenceScore.
  destruct (hasAutoCalibration _), (hasDeviceDetection _),
    (hasPerformanceMonitoring _); split; discriminate.
Qed.

Lemma versatilityScore_range effect : 0 <= versatilityScore effect <= 100.
Proof.
  unfold versatilityScore, platforms; simpl.
  destruct (Js.truthy (javascriptCode effect)), (Js.truthy (cssCode effect)),
    (Js.truthy (afterEffectsCode effect)), (hasCrossBrowser _),
    (hasUniversalCodec _); split; discriminate.
Qed.

Lemma experienceScore_range effect : 0 <= experienceScore effect <= 100.
Proof.
  unfold experienceScore.
  destruct (hasOneClick _), (hasLivePreview _), (hasInteraction _);
    split; discriminate.
Qed.

Lemma visualScore_range effect : 0 <= visualScore effect <= 100.
Proof.
  unfold visualScore.
  destruct (hasWowFactor _), (hasPhysics _), (hasQuality _); split; discriminate.
Qed.

Lemma ecosystemScore_range effect : 0 <= ecosystemScore effect <= 100.
Proof.
  unfold ecosystemScore.
  destruct (hasImmersion _), (hasSurprise _), (hasRetention _); split; discriminate.
Qed.

Lemma dominationScore_range effect : 0 <= dominationScore effect <= 100.
Proof.
  unfold dominationScore, otherArticlesAvg.
  destruct (performanceCompliant effect), (intelligenceAdaptive effect),
    (universalCompatible effect), (perfectExperience effect),
    (visualImpact effect), (addictiveEcosystem effect),
    (hasInnovation _), (hasCompetitiveAdvantage _); split; discriminate.
Qed.

(** X15.  For an effect whose target frame rate is not negative, the
    total score of the server's [validateCompliance] and the seven
    reported article scores all lie between 0 and 100. *)
Theorem scores_in_range nts effect :
  0 <= targetFps effect ->
  let c := validateCompliance nts effect in
  (0 <= totalScore c <= 100)%Z
  /\ (0 <= score (validatePerformanceAbsolue nts effect) <= 100)%Z
  /\ (0 <= score (validateIntelligenceAdaptative effect) <= 100)%Z
  /\ (0 <= score (validatePolyvalenceUniverselle nts effect) <= 100)%Z
  /\ (0 <= score (validateExperienceParfaite effect) <= 100)%Z
  /\ (0 <= score (validateImpactVisuel effect) <= 100)%Z
  /\ (0 <= score (validateEcosystemeAddictif effect) <= 100)%Z
  /\ (0 <= score (validateDominationConcurrentielle effect) <= 100)%Z.
Proof.
  intros Hfps. cbv zeta.
  assert (S1 : (0 <= score (validatePerformanceAbsolue nts effect) <= 100)%Z).
  { apply round_between. destruct (performanceScore_range effect) as [Hu Hl].
    split; [now apply Hl | exact Hu]. }
  assert (S2 : (0 <= score (validateIntelligenceAdaptative effect) <= 100)%Z)
    by (apply round_between; apply intelligenceScore_range).
  assert (S3 : (0 <= score (validatePolyvalenceUniverselle nts effect) <= 100)%Z)
    by (apply round_between; apply versatilityScore_range).
  assert (S4 : (0 <= score (validateExperienceParfaite effect) <= 100)%Z)
    by (apply round_between; apply experienceScore_range).
  assert (S5 : (0 <= score (validateImpactVisuel effect) <= 100)%Z)
    by (apply round_between; apply visualScore_range).
  assert (S6 : (0 <= score (validateEcosystemeAddictif effect) <= 100)%Z)
    by (apply round_between; apply ecosystemScore_range).
  assert (S7 : (0 <= score (validateDominationConcurrentielle effect) <= 100)%Z)
    by (apply round_between; apply dominationScore_range).
  split; [|tauto].
  rewrite total_formula. split.
  - change 0%Z with (Spec.totalScore 0 0 0 0 0 0 0).
    apply totalScore_mono; tauto.
  - change 100%Z with (Spec.totalScore 100 100 100 100 100 100 100).
    apply totalScore_mono; tauto.
Qed.


Lemma scores_in_range_witness :
  (0 <= totalScore (validateCompliance Inputs.integerToString Inputs.plasma390)
   <= 100)%Z.
Proof.
  refine (proj1 (scores_in_range Inputs.integerToString Inputs.plasma390 _)).
  discriminate.
Defined.

(** *** What enforcement achieves *)

Lemma performance_flag nts effect :
  c_performanceCompliant (validateCompliance nts effect)
  = Qle_bool 90 (performanceScore effect).
Proof. reflexivity. Qed.

Lemma enforced_metrics effect compliance :
  let e := enforceConstitutionalCompliance effect compliance in
  let failing := negb (c_performanceCompliant compliance) in
  renderTime e = (if failing then Qmin (renderTime effect) 15 else renderTime effect)
  /\ memoryUsage e
     = (if failing then Qmin (memoryUsage effect) 256 else memoryUsage effect)
  /\ targetFps e = (if failing then Qmax (targetFps effect) 60 else targetFps effect).
Proof. repeat split. Qed.

Lemma performanceScore_clamped effect :
  renderTime effect <= 15 -> memoryUsage effect <= 256 -> 60 <= targetFps effect ->
  performanceScore effect = 0 + 40 + 40 + 20.
Proof.
  intros Hr Hm Hf. unfold performanceScore, fpsScore, renderScore, memoryScore.
  rewrite (proj2 (Qle_bool_iff 60 (targetFps effect)) Hf).
  rewrite (proj2 (Qle_bool_iff (renderTime effect) (1667 # 100))) by lra.
  rewrite (proj2 (Qle_bool_iff (memoryUsage effect) 256) Hm). reflexivity.
Qed.

Lemma performanceScore_ext a b :
  renderTime a = renderTime b -> memoryUsage a = memoryUsage b ->
  targetFps a = targetFps b -> performanceScore a = performanceScore b.
Proof.
  intros Hr Hm Hf. unfold performanceScore, fpsScore, renderScore, memoryScore.
  now rewrite Hr, Hm, Hf.
Qed.

(** X16.  When the total is below 90, so that [validateAndEnforce]
    enforces, the effect it returns passes article 1 when it is validated
    again: a passing effect keeps its metrics, and a failing one has its
    render time capped at 15 ms, its memory at 256 MB and its frame rate
    raised to 60, which scores 100. *)
Theorem enforcement_fixes_performance nts effect :
  (totalScore (validateCompliance nts effect) < 90)%Z ->
  let enforced := validateAndEnforce nts effect in
  c_performanceCompliant (validateCompliance nts enforced) = true
  /\ (c_performanceCompliant (validateCompliance nts effect) = false ->
      renderTime enforced <= 15 /\ memoryUsage enforced <= 256
      /\ 60 <= targetFps enforced
      /\ score (validatePerformanceAbsolue nts enforced) = 100%Z).
Proof.
  intros Hlow. cbv zeta. unfold validateAndEnforce.
  rewrite (proj2 (Z.ltb_lt _ _) Hlow).
  set (c := validateCompliance nts effect).
  destruct (enforced_metrics (with_report effect c) c) as (Hr & Hm & Hf).
  cbv zeta in Hr, Hm, Hf.
  set (e := enforceConstitutionalCompliance (with_report effect c) c) in *.
  change (renderTime (with_report effect c)) with (renderTime effect) in Hr.
  change (memoryUsage (with_report effect c)) with (memoryUsage effect) in Hm.
  change (targetFps (with_report effect c)) with (targetFps effect) in Hf.
  destruct (c_performanceCompliant c) eqn:Ec; cbn [negb] in Hr, Hm, Hf.
  - split; [|discriminate].
    rewrite (performance_flag nts e), (performanceScore_ext e effect Hr Hm Hf).
    rewrite <- (performance_flag nts effect). exact Ec.
  - assert (Hr' : renderTime e <= 15) by (rewrite Hr; apply Q.le_min_r).
    assert (Hm' : memoryUsage e <= 256) by (rewrite Hm; apply Q.le_min_r).
    assert (Hf' : 60 <= targetFps e) by (rewrite Hf; apply Q.le_max_r).
    pose proof (performanceScore_clamped e Hr' Hm' Hf') as Hs.
    split.
    + rewrite (performance_flag nts e), Hs. reflexivity.
    + intros _. repeat split; try assumption.
      unfold validatePerformanceAbsolue. cbn [score]. rewrite Hs. reflexivity.
Qed.


Lemma enforcement_fixes_performance_witness :
  let enforced := validateAndEnforce Inputs.integerToString Inputs.plasma390 in
  c_performanceCompliant (validateCompliance Inputs.integerToString Inputs.plasma390)
  = false
  /\ c_performanceCompliant (validateCompliance Inputs.integerToString enforced)
     = true
  /\ memoryUsage enforced <= 256.
Proof.
  cbv zeta.
  destruct (enforcement_fixes_performance Inputs.integerToString Inputs.plasma390)
    as [Hflag Hmetrics]; [vm_compute; reflexivity|].
  cbv zeta in Hflag, Hmetrics.
  split; [reflexivity|]. split; [exact Hflag|].
  apply (Hmetrics eq_refl).
Defined.

(** X17.  For the five marker articles (2 to 6) of the server validator
    the bar of 90 is met only by the full score: the article is compliant
    exactly when its reported score is 100, and article 3 is compliant only
    for an effect that has code for all three platforms. *)
Theorem marker_articles_all_or_nothing nts effect :
  compliant (validateIntelligenceAdaptative effect)
  = (score (validateIntelligenceAdaptative effect) =? 100)%Z
  /\ compliant (validatePolyvalenceUniverselle nts effect)
     = (score (validatePolyvalenceUniverselle nts effect) =? 100)%Z
  /\ compliant (validateExperienceParfaite effect)
     = (score (validateExperienceParfaite effect) =? 100)%Z
  /\ compliant (validateImpactVisuel effect)
     = (score (validateImpactVisuel effect) =? 100)%Z
  /\ compliant (validateEcosystemeAddictif effect)
     = (score (validateEcosystemeAddictif effect) =? 100)%Z
  /\ (compliant (validatePolyvalenceUniverselle nts effect) = true ->
      Js.truthy (javascriptCode effect) = true /\ Js.truthy (cssCode effect) = true
      /\ Js.truthy (afterEffectsCode effect) = true).
Proof.
  split; [|split; [|split; [|split; [|split]]]].
  - unfold validateIntelligenceAdaptative, intelligenceScore; simpl.
    destruct (hasAutoCalibration _), (hasDeviceDetection _),
      (hasPerformanceMonitoring _); reflexivity.
  - unfold validatePolyvalenceUniverselle, versatilityScore, platforms; simpl.
    destruct (Js.truthy (javascriptCode effect)), (Js.truthy (cssCode effect)),
      (Js.truthy (afterEffectsCode effect)), (hasCrossBrowser _),
      (hasUniversalCodec _); reflexivity.
  - unfold validateExperienceParfaite, experienceScore; simpl.
    destruct (hasOneClick _), (hasLivePreview _), (hasInteraction _); reflexivity.
  - unfold validateImpactVisuel, visualScore; simpl.
    destruct (hasWowFactor _), (hasPhysics _), (hasQuality _); reflexivity.
  - unfold validateEcosystemeAddictif, ecosystemScore; simpl.
    destruct (hasImmersion _), (hasSurprise _), (hasRetention _); reflexivity.
  - unfold validatePolyvalenceUniverselle, versatilityScore, platforms; simpl.
    destruct (Js.truthy (javascriptCode effect)), (Js.truthy (cssCode effect)),
      (Js.truthy (afterEffectsCode effect)), (hasCrossBrowser _),
      (hasUniversalCodec _); intros H; try discriminate H; repeat split.
Qed.


(** *** What enforcement never writes *)

Section Marker.

Variable n : string.
Hypothesis Hn : never_enforced n = true.

Lemma never_enforced_chars : char_in "010" n = false /\ char_in ";" n = false.
Proof.
  unfold never_enforced in Hn. rewrite !andb_true_iff, !negb_true_iff in Hn. tauto.
Qed.

Lemma never_enforced_text text :
  In text enforcement_texts ->
  includes n text = false.
Proof.
  intros Hin. unfold never_enforced in Hn. rewrite !andb_true_iff in Hn.
  destruct Hn as (_ & Hall). rewrite forallb_forall in Hall.
  apply negb_true_iff. now apply Hall.
Qed.

Lemma includes_prefix_false a b : includes n (a +:+ b) = false -> includes n a = false.
Proof.
  intros H. destruct (includes n a) eqn:E; [|reflexivity].
  now rewrite (includes_app_l _ _ b E) in H.
Qed.

Lemma includes_suffix_false a b : includes n (a +:+ b) = false -> includes n b = false.
Proof.
  intros H. destruct (includes n b) eqn:E; [|reflexivity].
  now rewrite (includes_app_r _ a _ E) in H.
Qed.

(** One [add...] step. *)
Lemma add_step_keeps (replacement block code : string) :
  replacement = "init() {" +:+ String "010" (inserted_lines replacement +:+ String ";" "") ->
  block = String "010" (tail block) ->
  includes n (inserted_lines replacement) = false ->
  includes n (tail block) = false ->
  includes n code = false ->
  includes n (replace "init() {" replacement code +:+ block) = false.
Proof.
  intros Hrep Hblock Hlines Htail Hcode.
  destruct never_enforced_chars as [Hnl Hsc].
  rewrite Hblock, includes_sep by exact Hnl. rewrite Htail, orb_false_r.
  destruct (includes "init() {" code) eqn:Ei.
  - destruct (replace_found _ replacement _ Ei) as (a & b & Hs & ->). subst code.
    rewrite <- append_assoc in Hcode.
    pose proof (includes_prefix_false _ _ Hcode) as Ha.
    pose proof (includes_suffix_false _ _ Hcode) as Hb.
    rewrite Hrep.
    assert (E : a +:+ ("init() {" +:+ String "010"
                         (inserted_lines replacement +:+ String ";" "")) +:+ b
                = (a +:+ "init() {")
                  +:+ String "010" (inserted_lines replacement +:+ String ";" b)).
    { rewrite !append_assoc. do 2 f_equal. cbn [String.append]. f_equal.
      rewrite append_assoc. reflexivity. }
    rewrite E. rewrite includes_sep by exact Hnl. rewrite Ha. cbn [orb].
    rewrite includes_sep by exact Hsc. now rewrite Hlines, Hb.
  - now rewrite (replace_absent _ _ _ Ei).
Qed.

Lemma enhanceJavaScriptCode_keeps code compliance :
  includes n code = false ->
  includes n (enhanceJavaScriptCode code compliance) = false.
Proof.
  intros H. unfold enhanceJavaScriptCode.
  assert (H1 : includes n (if negb (c_intelligenceAdaptive compliance)
                           then addAdaptiveIntelligence code else code) = false).
  { destruct (negb _); [|exact H].
    apply add_step_keeps; try reflexivity; try exact H;
      apply never_enforced_text; unfold enforcement_texts; cbn; tauto. }
  revert H1. generalize (if negb (c_intelligenceAdaptive compliance)
                         then addAdaptiveIntelligence code else code).
  intros c1 H1.
  assert (H2 : includes n (if negb (c_performanceCompliant compliance)
                           then addPerformanceOptimizations c1 else c1) = false).
  { destruct (negb _); [|exact H1].
    apply add_step_keeps; try reflexivity; try exact H1;
      apply never_enforced_text; unfold enforcement_texts; cbn; tauto. }
  revert H2. generalize (if negb (c_performanceCompliant compliance)
                         then addPerformanceOptimizations c1 else c1).
  intros c2 H2.
  assert (H3 : includes n (if negb (c_universalCompatible compliance)
                           then addUniversalCompatibility c2 else c2) = false).
  { destruct (negb _); [|exact H2].
    apply add_step_keeps; try reflexivity; try exact H2;
      apply never_enforced_text; unfold enforcement_texts; cbn; tauto. }
  revert H3. generalize (if negb (c_universalCompatible compliance)
                         then addUniversalCompatibility c2 else c2).
  intros c3 H3.
  assert (H4 : includes n (if negb (c_perfectExperience compliance)
                           then addPerfectExperience c3 else c3) = false).
  { destruct (negb _); [|exact H3].
    apply add_step_keeps; try reflexivity; try exact H3;
      apply never_enforced_text; unfold enforcement_texts; cbn; tauto. }
  revert H4. generalize (if negb (c_perfectExperience compliance)
                         then addPerfectExperience c3 else c3).
  intros c4 H4.
  assert (H5 : includes n (if negb (c_visualImpact compliance)
                           then addVisualImpact c4 else c4) = false).
  { destruct (negb _); [|exact H4].
    apply add_step_keeps; try reflexivity; try exact H4;
      apply never_enforced_text; unfold enforcement_texts; cbn; tauto. }
  revert H5. generalize (if negb (c_visualImpact compliance)
                         then addVisualImpact c4 else c4).
  intros c5 H5.
  destruct (negb _); [|exact H5].
  apply add_step_keeps; try reflexivity; try exact H5;
    apply never_enforced_text; unfold enforcement_texts; cbn; tauto.
Qed.

End Marker.

Lemma unsupplied_never_enforced :
  forallb never_enforced unsupplied_markers = true.
Proof. vm_compute. reflexivity. Qed.

Lemma marker_free_absent code n :
  marker_free code = true -> In n unsupplied_markers -> includes n code = false.
Proof.
  unfold marker_free. rewrite forallb_forall. intros H Hin.
  apply negb_true_iff. now apply H.
Qed.

Lemma round_le_Z (x : Q) (z : Z) : x <= inject_Z z -> (Js.round x <= z)%Z.
Proof. intros H. rewrite <- (round_Z z). now apply round_mono. Qed.

Lemma codes_of_js effect a c :
  javascriptCode effect = Some (String a c) ->
  webCode effect = String a c /\ jsCode effect = String a c.
Proof. intros H. unfold webCode, jsCode, or_opt, or_else, truthy. rewrite H. split; reflexivity. Qed.

Lemma marker_free_scores nts effect code :
  javascriptCode effect = Some code -> code <> "" -> marker_free code = true ->
  (score (validatePolyvalenceUniverselle nts effect) <= 70)%Z
  /\ (score (validateImpactVisuel effect) <= 70)%Z
  /\ (score (validateEcosystemeAddictif effect) <= 30)%Z
  /\ (score (validateDominationConcurrentielle effect) <= 70)%Z.
Proof.
  intros Hjs Hne Hfree. destruct code as [|a c]; [congruence|].
  destruct (codes_of_js effect a c Hjs) as [Hweb Hjsc].
  assert (A : forall n, In n unsupplied_markers -> includes n (String a c) = false)
    by (intros n; now apply marker_free_absent).
  split; [|split; [|split]]; apply round_le_Z.
  - unfold versatilityScore, hasCrossBrowser, platforms. rewrite Hweb.
    rewrite !A by (cbn; tauto). cbn [orb List.filter length].
    destruct (truthy (javascriptCode effect)), (truthy (cssCode effect)),
      (truthy (afterEffectsCode effect)), (hasUniversalCodec _); discriminate.
  - unfold visualScore, hasQuality. rewrite Hweb.
    rewrite !A by (cbn; tauto). cbn [orb].
    destruct (hasWowFactor _), (hasPhysics _); discriminate.
  - unfold ecosystemScore, hasImmersion, hasRetention. rewrite Hjsc.
    rewrite !A by (cbn; tauto). cbn [orb].
    destruct (hasSurprise _); discriminate.
  - unfold dominationScore, hasInnovation, otherArticlesAvg. rewrite Hweb.
    rewrite !A by (cbn; tauto). cbn [orb].
    destruct (performanceCompliant effect), (intelligenceAdaptive effect),
      (universalCompatible effect), (perfectExperience effect),
      (visualImpact effect), (addictiveEcosystem effect),
      (hasCompetitiveAdvantage _); discriminate.
Qed.

Lemma marker_free_total nts effect code :
  javascriptCode effect = Some code -> code <> "" -> marker_free code = true ->
  (totalScore (validateCompliance nts effect) <= 77)%Z.
Proof.
  intros Hjs Hne Hfree.
  destruct (marker_free_scores nts effect code Hjs Hne Hfree) as (S3 & S5 & S6 & S7).
  rewrite total_formula.
  change 77%Z with (Spec.totalScore 100 100 70 100 70 30 70).
  apply totalScore_mono; try assumption.
  - apply round_le_Z. apply performanceScore_range.
  - apply round_le_Z. apply intelligenceScore_range.
  - apply round_le_Z. apply experienceScore_range.
Qed.

Lemma replace_nonempty p rep s : rep <> "" -> s <> "" -> replace p rep s <> "".
Proof.
  intros Hrep Hs. destruct (includes p s) eqn:E.
  - destruct (replace_found p rep s E) as (a & b & _ & ->).
    destruct a; [|discriminate]. destruct rep; [congruence|discriminate].
  - now rewrite (replace_absent _ _ _ E).
Qed.

Lemma append_nonempty a b : a <> "" -> a +:+ b <> "".
Proof. destruct a; [congruence|discriminate]. Qed.

Lemma enhanceJavaScriptCode_nonempty code compliance :
  code <> "" -> enhanceJavaScriptCode code compliance <> "".
Proof.
  intros H. unfold enhanceJavaScriptCode,
    addAdaptiveIntelligence, addPerformanceOptimizations, addUniversalCompatibility,
    addPerfectExperience, addVisualImpact, addAddictiveFeatures.
  repeat match goal with
         | |- context [if negb ?b then _ else _] => destruct (negb b)
         end;
    repeat first [ assumption
                 | apply append_nonempty
                 | apply replace_nonempty; [discriminate|] ].
Qed.

(** X18.  An effect whose JavaScript code carries none of the fifteen
    markers that no enforcement block supplies scores at most 77, and
    [validateAndEnforce] returns an effect whose code still carries none
    of them and which, validated again, scores at most 77: enforcement
    never brings such an effect to the bar of 90. *)
Theorem enforcement_never_reaches_the_bar nts effect code :
  javascriptCode effect = Some code -> code <> "" -> marker_free code = true ->
  let enforced := validateAndEnforce nts effect in
  (totalScore (validateCompliance nts effect) <= 77)%Z
  /\ (exists code', javascriptCode enforced = Some code'
                    /\ code' <> "" /\ marker_free code' = true)
  /\ (totalScore (validateCompliance nts enforced) <= 77)%Z.
Proof.
  intros Hjs Hne Hfree. cbv zeta.
  pose proof (marker_free_total nts effect code Hjs Hne Hfree) as Hfirst.
  split; [exact Hfirst|].
  assert (Hex : exists code',
            javascriptCode (validateAndEnforce nts effect) = Some code'
            /\ code' <> "" /\ marker_free code' = true).
  { unfold validateAndEnforce.
    rewrite (proj2 (Z.ltb_lt _ 90)) by lia.
    set (c := validateCompliance nts effect).
    exists (enhanceJavaScriptCode code c). split; [|split].
    - unfold enforceConstitutionalCompliance. cbn [javascriptCode with_report].
      rewrite Hjs. destruct code; [congruence | reflexivity].
    - now apply enhanceJavaScriptCode_nonempty.
    - unfold marker_free. apply forallb_forall. intros n Hin.
      apply negb_true_iff. apply enhanceJavaScriptCode_keeps.
      + pose proof unsupplied_never_enforced as Hall.
        rewrite forallb_forall in Hall. now apply Hall.
      + now apply marker_free_absent. }
  split; [exact Hex|].
  destruct Hex as (code' & Hjs' & Hne' & Hfree').
  exact (marker_free_total nts _ code' Hjs' Hne' Hfree').
Qed.


Lemma enforcement_never_reaches_the_bar_witness :
  (totalScore (validateCompliance Inputs.integerToString
                 (validateAndEnforce Inputs.integerToString Inputs.plasma)) <= 77)%Z.
Proof.
  refine (proj2 (proj2 (enforcement_never_reaches_the_bar Inputs.integerToString
                          Inputs.plasma
                          "class PlasmaExplosion { /* constitutional code */ }"
                          eq_refl _ eq_refl))).
  discriminate.
Defined.

End EnforcementFacts.

(** ** The client engine *)

Module EngineFacts.

Import Engine.
Import Js JsFacts Dna Notions.
Local Open Scope Q_scope.

(** Five of the seven enforcers test for their marker before appending,
    and leave the effect alone when they find it. *)
Lemma append_unless_present_found marker block effect :
  Js.includes marker (code effect) = true ->
  code (append_unless_present marker block effect) = code effect.
Proof. intros H. unfold append_unless_present. cbn. rewrite H. reflexivity. Qed.

(** The enforcer of article 7 has no such test. *)
Lemma enforceDomination_always_appends effect :
  code (enforceDominationConcurrentielle effect)
  = code effect +:+ competitiveAdvantageCode.
Proof. reflexivity. Qed.

(** C3.  Run twice on a freshly generated effect, [enforceCompliance]
    appends the block of article 7 a second time, although the code
    already contains it; the blocks of the articles whose enforcers test
    for their marker are not repeated.  The score is 63 after both runs. *)
Theorem enforceCompliance_twice_duplicates :
  let e1 := enforceCompliance Inputs.integerToString Inputs.burst in
  let e2 := enforceCompliance Inputs.integerToString e1 in
  Js.includes competitiveAdvantageCode (code e1) = true
  /\ Js.occurrences "enableUltraHighPerformance() {" (code e1) = 1%nat
  /\ Js.occurrences "enableUltraHighPerformance() {" (code e2) = 2%nat
  /\ Js.occurrences "autoCalibrate() {" (code e1) = 1%nat
  /\ Js.occurrences "autoCalibrate() {" (code e2) = 1%nat
  /\ constitutionScore (metadata e1) = 63
  /\ constitutionScore (metadata e2) = 63.
Proof. repeat split; vm_compute; reflexivity. Qed.

(** The same for every effect that passes article 1 and whose score is
    below 95 before and after the first run: each run appends the block of
    article 7 at the end of the code, so the second run appends it after
    the copy that the first run left. *)
Lemma enforce_article_appends article marker block effect :
  enforcer article = append_unless_present marker block ->
  exists s,
    code (enforce_article effect article) = code effect +:+ s
    /\ metadata (enforce_article effect article) = metadata effect.
Proof.
  intros He. unfold enforce_article. rewrite He.
  destruct (negb (validator article effect)).
  - unfold append_unless_present.
    destruct (negb (Js.includes marker (code effect))).
    + exists block. split; reflexivity.
    + exists "". split; [symmetry; apply JsFacts.append_nil_r | reflexivity].
  - exists "". split; [symmetry; apply JsFacts.append_nil_r | reflexivity].
Qed.

Lemma enforce_pass effect :
  validator article_1 effect = true ->
  constitutionScore (metadata effect) < 95 ->
  exists s,
    code (fold_left enforce_article articles effect)
    = (code effect +:+ s) +:+ competitiveAdvantageCode
    /\ fps (metadata (fold_left enforce_article articles effect))
       = fps (metadata effect)
    /\ renderTime (metadata (fold_left enforce_article articles effect))
       = renderTime (metadata effect).
Proof.
  intros H1 H7. unfold articles. cbn [fold_left].
  assert (E1 : enforce_article effect article_1 = effect)
    by (unfold enforce_article; now rewrite H1).
  rewrite E1.
  destruct (enforce_article_appends article_2 _ _ effect eq_refl) as (s2 & C2 & M2).
  set (x2 := enforce_article effect article_2) in *.
  destruct (enforce_article_appends article_3 _ _ x2 eq_refl) as (s3 & C3 & M3).
  set (x3 := enforce_article x2 article_3) in *.
  destruct (enforce_article_appends article_4 _ _ x3 eq_refl) as (s4 & C4 & M4).
  set (x4 := enforce_article x3 article_4) in *.
  destruct (enforce_article_appends article_5 _ _ x4 eq_refl) as (s5 & C5 & M5).
  set (x5 := enforce_article x4 article_5) in *.
  destruct (enforce_article_appends article_6 _ _ x5 eq_refl) as (s6 & C6 & M6).
  set (x6 := enforce_article x5 article_6) in *.
  assert (M : metadata x6 = metadata effect) by congruence.
  assert (E7 : enforce_article x6 article_7 = enforceDominationConcurrentielle x6).
  { unfold enforce_article. cbn [validator enforcer article_7]. rewrite M.
    destruct (Qle_bool 95 (constitutionScore (metadata effect))) eqn:E; [|reflexivity].
    apply Qle_bool_iff in E. exfalso. exact (Qlt_not_le _ _ H7 E). }
  rewrite E7. cbn [enforceDominationConcurrentielle code metadata fps renderTime].
  rewrite M. exists (s2 +:+ s3 +:+ s4 +:+ s5 +:+ s6).
  split; [|split; reflexivity].
  rewrite C6, C5, C4, C3, C2. now rewrite !JsFacts.append_assoc.
Qed.

Lemma enforceCompliance_code nts effect :
  code (enforceCompliance nts effect)
  = code (fold_left enforce_article articles effect).
Proof. reflexivity. Qed.

Lemma enforceCompliance_fps nts effect :
  fps (metadata (enforceCompliance nts effect))
  = fps (metadata (fold_left enforce_article articles effect))
  /\ renderTime (metadata (enforceCompliance nts effect))
     = renderTime (metadata (fold_left enforce_article articles effect)).
Proof. split; reflexivity. Qed.

Lemma article_1_validator effect :
  validator article_1 effect
  = Qle_bool 60 (fps (metadata effect))
    && Js.Qlt_bool (renderTime (metadata effect)) 200.
Proof. reflexivity. Qed.

(** X4.  For every effect that passes article 1 and whose score is below
    95 before and after a run, each run of [enforceCompliance] appends the
    block of article 7 at the end of the code: the second run appends it
    after the copy that the first run left. *)
Lemma enforceCompliance_appends_again nts effect :
  validator article_1 effect = true ->
  constitutionScore (metadata effect) < 95 ->
  constitutionScore (metadata (enforceCompliance nts effect)) < 95 ->
  exists c s,
    code (enforceCompliance nts effect) = c +:+ competitiveAdvantageCode
    /\ code (enforceCompliance nts (enforceCompliance nts effect))
       = ((c +:+ competitiveAdvantageCode) +:+ s) +:+ competitiveAdvantageCode.
Proof.
  intros H1 H7 H7'.
  destruct (enforce_pass effect H1 H7) as (s1 & C1 & F1 & R1).
  assert (H1' : validator article_1 (enforceCompliance nts effect) = true).
  { rewrite article_1_validator in *.
    destruct (enforceCompliance_fps nts effect) as [-> ->].
    now rewrite F1, R1. }
  destruct (enforce_pass _ H1' H7') as (s2 & C2 & _).
  exists (code effect +:+ s1), s2. split.
  - rewrite enforceCompliance_code. exact C1.
  - rewrite (enforceCompliance_code nts (enforceCompliance nts effect)).
    rewrite C2. rewrite enforceCompliance_code. now rewrite C1.
Qed.

Lemma enforceCompliance_appends_again_witness :
  exists c s,
    code (enforceCompliance Inputs.integerToString Inputs.burst)
    = c +:+ competitiveAdvantageCode
    /\ code (enforceCompliance Inputs.integerToString
               (enforceCompliance Inputs.integerToString Inputs.burst))
       = ((c +:+ competitiveAdvantageCode) +:+ s) +:+ competitiveAdvantageCode.
Proof.
  apply enforceCompliance_appends_again; vm_compute; reflexivity.
Defined.

(** The score that [enforceCompliance] stores is not the score of the
    effect it returns: article 7 reads the stored score. *)
Lemma enforceCompliance_score_not_stable :
  let e1 := enforceCompliance Inputs.integerToString Inputs.burst in
  constitutionScore (metadata e1) = 63
  /\ totalScore (validateCompliance Inputs.integerToString e1) = 58%Z.
Proof. split; vm_compute; reflexivity. Qed.

(** The client engine does not weight the articles: its total is the
    rounded plain mean of the seven article scores. *)
Lemma fold_score_article nts effect (l : list ConstitutionArticle) acc :
  snd (fold_left (score_article nts effect) l acc)
  = fold_left (fun total a => total + Spec.client_article_score effect a) l (snd acc).
Proof.
  revert acc. induction l as [|a l IH]; intros acc; [reflexivity|].
  cbn [fold_left]. rewrite IH. reflexivity.
Qed.

(** The client engine does not weight the articles: the total of
    its [validateCompliance] is the rounded plain mean of the seven article
    scores, each being 100 when the article's validator passes and the
    partial score otherwise. *)
Lemma validateCompliance_plain_mean nts effect :
  totalScore (validateCompliance nts effect)
  = Js.round (fold_left (fun total a => total + Spec.client_article_score effect a)
                articles 0 / 7).
Proof.
  unfold validateCompliance.
  pose proof (fold_score_article nts effect articles (∅, 0)) as H.
  destruct (fold_left (score_article nts effect) articles (∅, 0)) as [arts total].
  cbn [snd] in H. cbn [totalScore]. rewrite H. reflexivity.
Qed.


(** *** The enforcers applied twice *)

Lemma append_unless_present_idem marker block effect :
  includes marker block = true ->
  append_unless_present marker block (append_unless_present marker block effect)
  = append_unless_present marker block effect.
Proof.
  intros Hb. unfold append_unless_present, with_code. cbn [code id name description metadata dna].
  destruct (includes marker (code effect)) eqn:E; cbn [negb].
  - rewrite E. reflexivity.
  - rewrite (includes_app_r _ _ _ Hb). reflexivity.
Qed.

Lemma perf_code_has_frame_hook c : includes "optimizeForNextFrame" (perf_code c) = true.
Proof.
  unfold perf_code.
  set (c1 := if negb (includes "performanceMonitor" c) then _ else c).
  destruct (includes "optimizeForNextFrame" c1) eqn:E; cbn [negb]; [exact E|].
  apply includes_app_r. vm_compute. reflexivity.
Qed.

Lemma perf_code_first_stage c :
  (if negb (includes "performanceMonitor" (perf_code c))
   then replace "this.init();" performanceMonitorSetup (perf_code c)
   else perf_code c) = perf_code c.
Proof.
  destruct (includes "performanceMonitor" (perf_code c)) eqn:E; cbn [negb]; [reflexivity|].
  apply replace_absent.
  unfold perf_code in *.
  destruct (includes "performanceMonitor" c) eqn:Ec; cbn [negb] in *.
  - (* the monitor is there: contradiction *)
    destruct (includes "optimizeForNextFrame" c); cbn [negb] in *.
    + congruence.
    + rewrite includes_app_l in E by exact Ec. discriminate.
  - destruct (includes "this.init();" c) eqn:Ei.
    + destruct (replace_found _ performanceMonitorSetup _ Ei) as (a & b & Hc & Hr).
      rewrite Hr in E.
      assert (Hm : includes "performanceMonitor" (a +:+ performanceMonitorSetup +:+ b) = true).
      { apply includes_app_r. apply includes_app_l. vm_compute. reflexivity. }
      destruct (includes "optimizeForNextFrame" (a +:+ performanceMonitorSetup +:+ b));
        cbn [negb] in *.
      * congruence.
      * rewrite includes_app_l in E by exact Hm. discriminate.
    + rewrite (replace_absent _ _ _ Ei) in *.
      destruct (includes "optimizeForNextFrame" c); cbn [negb] in *; [exact Ei|].
      change optimizeForNextFrameCode
        with (String "010" (tail optimizeForNextFrameCode)).
      rewrite includes_sep by reflexivity. rewrite Ei. vm_compute. reflexivity.
Qed.

Lemma perf_code_idem c : perf_code (perf_code c) = perf_code c.
Proof.
  unfold perf_code at 1. cbv zeta.
  rewrite perf_code_first_stage, perf_code_has_frame_hook. reflexivity.
Qed.

Lemma Qmax_idem (x y : Q) : Qmax (Qmax x y) y = Qmax x y.
Proof.
  unfold Qmax, GenericMinMax.gmax.
  destruct (x ?= y) eqn:E; rewrite ?E; try reflexivity.
  now destruct (y ?= y).
Qed.

Lemma enforcePerformanceAbsolue_code effect :
  code (enforcePerformanceAbsolue effect) = perf_code (code effect).
Proof. reflexivity. Qed.

Lemma enforcePerformanceAbsolue_idem effect :
  enforcePerformanceAbsolue (enforcePerformanceAbsolue effect)
  = enforcePerformanceAbsolue effect.
Proof.
  assert (H : forall e, enforcePerformanceAbsolue e
            = {| id := id e; name := name e; description := description e;
                 code := perf_code (code e);
                 metadata := {| renderTime := renderTime (metadata e);
                                memoryUsage := memoryUsage (metadata e);
                                fps := Qmax (fps (metadata e)) 60;
                                constitutionScore := constitutionScore (metadata e) |};
                 dna := dna e |}) by reflexivity.
  rewrite (H (enforcePerformanceAbsolue effect)). rewrite (H effect).
  cbn [id name description code metadata dna renderTime memoryUsage fps constitutionScore].
  rewrite perf_code_idem, Qmax_idem. reflexivity.
Qed.

(** X1.  The enforcers of articles 1 to 6 are idempotent: applied to
    its own result, each of them returns that result unchanged (the
    enforcer of article 7 is the one that appends again). *)
Theorem enforcers_1_to_6_idempotent effect article :
  In article [article_1; article_2; article_3; article_4; article_5; article_6] ->
  enforcer article (enforcer article effect) = enforcer article effect.
Proof.
  intros H. cbn [In] in H.
  destruct H as [<-|[<-|[<-|[<-|[<-|[<-|[]]]]]]]; cbn [enforcer article_1 article_2 article_3 article_4 article_5 article_6].
  - apply enforcePerformanceAbsolue_idem.
  - apply append_unless_present_idem. vm_compute. reflexivity.
  - apply append_unless_present_idem. vm_compute. reflexivity.
  - apply append_unless_present_idem. vm_compute. reflexivity.
  - apply append_unless_present_idem. vm_compute. reflexivity.
  - apply append_unless_present_idem. vm_compute. reflexivity.
Qed.


Lemma enforcers_1_to_6_idempotent_witness :
  enforcer article_1 (enforcer article_1 Inputs.burst)
  = enforcer article_1 Inputs.burst.
Proof.
  apply (enforcers_1_to_6_idempotent Inputs.burst article_1). now left.
Defined.

(** *** What the enforcers never write *)

Lemma performanceMonitorSetup_split :
  performanceMonitorSetup
  = "this" +:+ String "." (setup_middle +:+ String " " ("this" +:+ String "." "init();")).
Proof. reflexivity. Qed.

Section Marker.

Variable n : string.
Hypothesis Hn : never_written n = true.

Lemma never_written_chars :
  char_in "010" n = false /\ char_in "." n = false /\ char_in " " n = false.
Proof.
  unfold never_written in Hn. rewrite !andb_true_iff, !negb_true_iff in Hn. tauto.
Qed.

Lemma append_block_keeps block c :
  In block [optimizeForNextFrameCode; autoCalibrateCode; detectPlatformCode;
            oneClickCode; wowFactorCode; immersiveCode; competitiveAdvantageCode] ->
  includes n c = false -> includes n (c +:+ block) = false.
Proof.
  intros Hin Hc.
  assert (Ht : includes n (tail block) = false).
  { unfold never_written in Hn. rewrite !andb_true_iff in Hn.
    destruct Hn as (_ & Hall). rewrite forallb_forall in Hall.
    apply negb_true_iff. apply Hall. exact Hin. }
  assert (Hb : block = String "010" (tail block)).
  { cbn [In] in Hin. destruct Hin as [<-|[<-|[<-|[<-|[<-|[<-|[<-|[]]]]]]]]; reflexivity. }
  rewrite Hb. rewrite includes_sep by apply never_written_chars.
  now rewrite Hc, Ht.
Qed.

Lemma perf_code_keeps c : includes n c = false -> includes n (perf_code c) = false.
Proof.
  intros Hc. destruct never_written_chars as (Hnl & Hdot & Hsp).
  assert (Hthis : includes n "this" = false /\ includes n setup_middle = false).
  { unfold never_written in Hn. rewrite !andb_true_iff, !negb_true_iff in Hn. tauto. }
  destruct Hthis as [Hthis Hmid].
  unfold perf_code.
  assert (H1 : includes n (if negb (includes "performanceMonitor" c)
                           then replace "this.init();" performanceMonitorSetup c
                           else c) = false).
  { destruct (includes "performanceMonitor" c); cbn [negb]; [exact Hc|].
    destruct (includes "this.init();" c) eqn:Ei.
    - destruct (replace_found _ performanceMonitorSetup _ Ei) as (a & b & Hs & ->).
      subst c.
      assert (E0 : a +:+ "this.init();" +:+ b
                   = (a +:+ "this") +:+ String "." ("init();" +:+ b))
        by (rewrite append_assoc; reflexivity).
      assert (E1 : a +:+ performanceMonitorSetup +:+ b
                   = (a +:+ "this")
                     +:+ String "." (setup_middle
                           +:+ String " " ("this" +:+ String "." ("init();" +:+ b))))
        by (rewrite append_assoc; reflexivity).
      rewrite E0 in Hc. rewrite includes_sep in Hc by exact Hdot.
      apply orb_false_iff in Hc. destruct Hc as [Ha Hb].
      rewrite E1. rewrite includes_sep by exact Hdot.
      rewrite Ha. cbn [orb].
      rewrite includes_sep by exact Hsp.
      rewrite Hmid. cbn [orb].
      rewrite includes_sep by exact Hdot.
      rewrite Hthis. exact Hb.
    - now rewrite (replace_absent _ _ _ Ei). }
  destruct (negb (includes "optimizeForNextFrame" _)); [|exact H1].
  apply append_block_keeps; [cbn; tauto | exact H1].
Qed.

Lemma enforce_article_keeps effect article :
  In article articles ->
  includes n (code effect) = false ->
  includes n (code (enforce_article effect article)) = false.
Proof.
  intros Hin Hc. unfold enforce_article.
  destruct (negb (validator article effect)); [|exact Hc].
  unfold articles in Hin. cbn [In] in Hin.
  destruct Hin as [<-|[<-|[<-|[<-|[<-|[<-|[<-|[]]]]]]]];
    cbn [enforcer article_1 article_2 article_3 article_4 article_5 article_6 article_7].
  - rewrite enforcePerformanceAbsolue_code. now apply perf_code_keeps.
  - unfold enforceIntelligenceAdaptative, append_unless_present. cbn [code with_code].
    destruct (negb _); [|exact Hc]. apply append_block_keeps; [cbn; tauto|exact Hc].
  - unfold enforcePolyvalenceUniverselle, append_unless_present. cbn [code with_code].
    destruct (negb _); [|exact Hc]. apply append_block_keeps; [cbn; tauto|exact Hc].
  - unfold enforceExperienceParfaite, append_unless_present. cbn [code with_code].
    destruct (negb _); [|exact Hc]. apply append_block_keeps; [cbn; tauto|exact Hc].
  - unfold enforceImpactVisuel, append_unless_present. cbn [code with_code].
    destruct (negb _); [|exact Hc]. apply append_block_keeps; [cbn; tauto|exact Hc].
  - unfold enforceEcosystemeAddictif, append_unless_present. cbn [code with_code].
    destruct (negb _); [|exact Hc]. apply append_block_keeps; [cbn; tauto|exact Hc].
  - rewrite enforceDomination_always_appends.
    apply append_block_keeps; [cbn; tauto|exact Hc].
Qed.

Lemma enforce_loop_keeps (l : list ConstitutionArticle) effect :
  (forall a, In a l -> In a articles) ->
  includes n (code effect) = false ->
  includes n (code (fold_left enforce_article l effect)) = false.
Proof.
  revert effect. induction l as [|a l IH]; intros effect Hl Hc; [exact Hc|].
  cbn [fold_left]. apply IH.
  - intros b Hb. apply Hl. now right.
  - apply enforce_article_keeps; [apply Hl; now left | exact Hc].
Qed.

End Marker.

(** X2.  [enforceCompliance] never writes the second marker that the
    validators of articles 2, 3 and 5 require ('adaptiveParameters',
    'crossBrowser', 'advancedPhysics'): when the code does not contain it,
    the returned code does not either and the returned effect still fails
    that article. *)
Theorem enforceCompliance_never_supplies_second_marker nts effect article marker :
  In (article, marker)
     [(article_2, "adaptiveParameters"); (article_3, "crossBrowser");
      (article_5, "advancedPhysics")] ->
  includes marker (code effect) = false ->
  includes marker (code (enforceCompliance nts effect)) = false
  /\ validator article (enforceCompliance nts effect) = false.
Proof.
  intros Hin Hc.
  assert (Hk : includes marker (code (enforceCompliance nts effect)) = false).
  { rewrite enforceCompliance_code. apply enforce_loop_keeps; [|auto|exact Hc].
    cbn [In] in Hin. destruct Hin as [E|[E|[E|[]]]]; inversion E; reflexivity. }
  split; [exact Hk|].
  cbn [In] in Hin. destruct Hin as [E|[E|[E|[]]]]; inversion E; subst;
    cbn [validator article_2 article_3 article_5]; rewrite Hk; apply andb_false_r.
Qed.


Lemma enforceCompliance_never_supplies_second_marker_witness :
  validator article_2
    (enforceCompliance Inputs.integerToString Inputs.burst) = false.
Proof.
  refine (proj2 (enforceCompliance_never_supplies_second_marker
                   Inputs.integerToString Inputs.burst article_2
                   "adaptiveParameters" _ eq_refl)).
  now left.
Defined.

(** *** The score after enforcement *)

Lemma enforceCompliance_score nts effect :
  constitutionScore (metadata (enforceCompliance nts effect))
  = inject_Z (totalScore (validateCompliance nts
                            (fold_left enforce_article articles effect))).
Proof. reflexivity. Qed.

(** What the enforcers leave alone. *)
Lemma enforce_article_frame effect article :
  In article articles ->
  let e := enforce_article effect article in
  dna e = dna effect /\ id e = id effect /\ name e = name effect
  /\ description e = description effect
  /\ renderTime (metadata e) = renderTime (metadata effect)
  /\ memoryUsage (metadata e) = memoryUsage (metadata effect).
Proof.
  intros Hin. cbv zeta. unfold enforce_article.
  destruct (negb (validator article effect)); [|repeat split].
  unfold articles in Hin. cbn [In] in Hin.
  destruct Hin as [<-|[<-|[<-|[<-|[<-|[<-|[<-|[]]]]]]]]; repeat split.
Qed.

Lemma enforce_loop_frame (l : list ConstitutionArticle) effect :
  (forall a, In a l -> In a articles) ->
  let e := fold_left enforce_article l effect in
  dna e = dna effect /\ id e = id effect /\ name e = name effect
  /\ description e = description effect
  /\ renderTime (metadata e) = renderTime (metadata effect)
  /\ memoryUsage (metadata e) = memoryUsage (metadata effect).
Proof.
  revert effect. induction l as [|a l IH]; intros effect Hl; cbv zeta.
  - repeat split.
  - cbn [fold_left].
    destruct (IH (enforce_article effect a)) as (H1 & H2 & H3 & H4 & H5 & H6).
    { intros b Hb. apply Hl. now right. }
    destruct (enforce_article_frame effect a) as (G1 & G2 & G3 & G4 & G5 & G6).
    { apply Hl. now left. }
    cbv zeta in *. repeat split; congruence.
Qed.

Lemma score_le_100 effect article :
  In article [article_1; article_4; article_6; article_7] ->
  energy (emotionalProfile (dna effect)) <= 1 ->
  Spec.client_article_score effect article <= 100.
Proof.
  intros Hin Hen. unfold Spec.client_article_score.
  destruct (validator article effect) eqn:Hv; [lra|].
  cbn [In] in Hin. destruct Hin as [<-|[<-|[<-|[<-|[]]]]];
    cbn [calculatePartialScore article_id article_1 article_4 article_6 article_7].
  - pose proof (Q.le_min_l 100 (fps (metadata effect) / 60 * 100)).
    pose proof (Q.le_min_l 100 ((200 - renderTime (metadata effect)) / 200 * 100)).
    set (a := Qmin 100 (fps (metadata effect) / 60 * 100)) in *.
    set (b := Qmin 100 ((200 - renderTime (metadata effect)) / 200 * 100)) in *.
    apply Qle_shift_div_r; lra.
  - destruct (includes "oneClick" (code effect)); lra.
  - lra.
  - cbn [validator article_7] in Hv.
    destruct (Qeq_bool (constitutionScore (metadata effect)) 0); [lra|].
    destruct (Qlt_le_dec (constitutionScore (metadata effect)) 95) as [Hlt|Hle]; [lra|].
    apply Qle_bool_iff in Hle. congruence.
Qed.

(** X3.  For an effect whose code contains none of the three second
    markers and whose energy and elegance are at most 1 (as the analyzer
    produces them), the score that [enforceCompliance] stores is at most
    86, so the returned effect fails article 7, which asks for 95. *)
Theorem enforceCompliance_score_at_most_86 nts effect :
  includes "adaptiveParameters" (code effect) = false ->
  includes "crossBrowser" (code effect) = false ->
  includes "advancedPhysics" (code effect) = false ->
  elegance (emotionalProfile (dna effect)) <= 1 ->
  energy (emotionalProfile (dna effect)) <= 1 ->
  constitutionScore (metadata (enforceCompliance nts effect)) <= 86
  /\ validator article_7 (enforceCompliance nts effect) = false.
Proof.
  intros H2 H3 H5 Hel Hen.
  assert (Hs : constitutionScore (metadata (enforceCompliance nts effect)) <= 86).
  { rewrite enforceCompliance_score, validateCompliance_plain_mean.
    set (e := fold_left enforce_article articles effect).
    assert (Hdna : dna e = dna effect) by (apply enforce_loop_frame; auto).
    assert (K2 : includes "adaptiveParameters" (code e) = false)
      by (apply enforce_loop_keeps; [reflexivity|auto|exact H2]).
    assert (K3 : includes "crossBrowser" (code e) = false)
      by (apply enforce_loop_keeps; [reflexivity|auto|exact H3]).
    assert (K5 : includes "advancedPhysics" (code e) = false)
      by (apply enforce_loop_keeps; [reflexivity|auto|exact H5]).
    assert (Hen' : energy (emotionalProfile (dna e)) <= 1) by now rewrite Hdna.
    pose proof (score_le_100 e article_1 ltac:(cbn; tauto) Hen') as S1.
    pose proof (score_le_100 e article_4 ltac:(cbn; tauto) Hen') as S4.
    pose proof (score_le_100 e article_6 ltac:(cbn; tauto) Hen') as S6.
    pose proof (score_le_100 e article_7 ltac:(cbn; tauto) Hen') as S7.
    assert (S2 : Spec.client_article_score e article_2 <= 50).
    { unfold Spec.client_article_score. cbn [validator article_2].
      rewrite K2, andb_false_r.
      cbn [calculatePartialScore article_id article_2].
      destruct (includes "autoCalibrate" (code e)); lra. }
    assert (S3 : Spec.client_article_score e article_3 <= 50).
    { unfold Spec.client_article_score. cbn [validator article_3].
      rewrite K3, andb_false_r.
      cbn [calculatePartialScore article_id article_3].
      destruct (includes "detectPlatform" (code e)); lra. }
    assert (S5 : Spec.client_article_score e article_5 <= 100).
    { unfold Spec.client_article_score. cbn [validator article_5].
      rewrite K5, andb_false_r.
      cbn [calculatePartialScore article_id article_5]. rewrite Hdna. lra. }
    unfold articles. cbn [fold_left].
    set (s1 := Spec.client_article_score e article_1) in *.
    set (s2 := Spec.client_article_score e article_2) in *.
    set (s3 := Spec.client_article_score e article_3) in *.
    set (s4 := Spec.client_article_score e article_4) in *.
    set (s5 := Spec.client_article_score e article_5) in *.
    set (s6 := Spec.client_article_score e article_6) in *.
    set (s7 := Spec.client_article_score e article_7) in *.
    change (86 : Q) with (inject_Z 86). rewrite <- Zle_Qle.
    change 86%Z with (Js.round (600 / 7)).
    apply EnforcementFacts.round_mono. apply Qmult_le_compat_r; [lra | discriminate]. }
  split; [exact Hs|].
  cbn [validator article_7].
  destruct (Qle_bool 95 _) eqn:E; [|reflexivity].
  apply Qle_bool_iff in E. lra.
Qed.


Lemma enforceCompliance_score_at_most_86_witness :
  constitutionScore (metadata (enforceCompliance Inputs.integerToString Inputs.burst))
  <= 86.
Proof.
  refine (proj1 (enforceCompliance_score_at_most_86 Inputs.integerToString
                   Inputs.burst eq_refl eq_refl eq_refl _ _)); discriminate.
Defined.

(** *** Article 1 after enforcement *)

Lemma enforce_article_fps effect article :
  In article articles ->
  fps (metadata effect) <= fps (metadata (enforce_article effect article)).
Proof.
  intros Hin. unfold enforce_article.
  destruct (negb (validator article effect)); [|apply Qle_refl].
  unfold articles in Hin. cbn [In] in Hin.
  destruct Hin as [<-|[<-|[<-|[<-|[<-|[<-|[<-|[]]]]]]]];
    try apply Qle_refl.
  cbn [enforcer article_1 enforcePerformanceAbsolue metadata fps].
  apply Q.le_max_l.
Qed.

Lemma enforce_loop_fps (l : list ConstitutionArticle) effect :
  (forall a, In a l -> In a articles) ->
  fps (metadata effect) <= fps (metadata (fold_left enforce_article l effect)).
Proof.
  revert effect. induction l as [|a l IH]; intros effect Hl; [apply Qle_refl|].
  cbn [fold_left]. eapply Qle_trans; [|apply IH; intros b Hb; apply Hl; now right].
  apply enforce_article_fps. apply Hl. now left.
Qed.

Lemma enforce_article_1_fps effect :
  60 <= fps (metadata (enforce_article effect article_1)).
Proof.
  unfold enforce_article. destruct (validator article_1 effect) eqn:E; cbn [negb].
  - rewrite article_1_validator in E. apply andb_true_iff in E.
    apply Qle_bool_iff. tauto.
  - cbn [enforcer article_1 enforcePerformanceAbsolue metadata fps].
    apply Q.le_max_r.
Qed.

(** X6.  [enforceCompliance] returns an effect whose declared frame rate
    is at least 60 and whose render time, memory estimate, DNA, name and
    description are those of its argument; so the returned effect passes
    article 1 exactly when the render time of the argument is below
    200 ms. *)
Theorem enforceCompliance_article_1 nts effect :
  let e := enforceCompliance nts effect in
  60 <= fps (metadata e)
  /\ renderTime (metadata e) = renderTime (metadata effect)
  /\ memoryUsage (metadata e) = memoryUsage (metadata effect)
  /\ dna e = dna effect /\ name e = name effect
  /\ description e = description effect
  /\ validator article_1 e = Js.Qlt_bool (renderTime (metadata effect)) 200.
Proof.
  cbv zeta.
  destruct (enforce_loop_frame articles effect) as (Hd & _ & Hn & Hde & Hr & Hm);
    [auto|].
  cbv zeta in Hd, Hn, Hde, Hr, Hm.
  assert (Hfps : 60 <= fps (metadata (enforceCompliance nts effect))).
  { destruct (enforceCompliance_fps nts effect) as [-> _].
    change (fold_left enforce_article articles effect)
      with (fold_left enforce_article
              [article_2; article_3; article_4; article_5; article_6; article_7]
              (enforce_article effect article_1)).
    eapply Qle_trans; [apply (enforce_article_1_fps effect)|].
    apply enforce_loop_fps. intros a Ha. unfold articles. cbn [In] in *. tauto. }
  assert (Hrt : renderTime (metadata (enforceCompliance nts effect))
                = renderTime (metadata effect)).
  { destruct (enforceCompliance_fps nts effect) as [_ ->]. exact Hr. }
  split; [exact Hfps|]. split; [exact Hrt|].
  split; [exact Hm|]. split; [exact Hd|]. split; [exact Hn|]. split; [exact Hde|].
  rewrite article_1_validator, Hrt.
  apply Qle_bool_iff in Hfps. now rewrite Hfps.
Qed.

End EngineFacts.

(** ** The generator and the optimizer *)

Module GeneratorFacts.

Import Js JsFacts Generator Spec Notions.
Local Open Scope Q_scope.

(** *** Template selection *)

Lemma score_without_complexity dna template :
  complexity template = None -> calculateTemplateScore dna template = NaN.
Proof. intros H. unfold calculateTemplateScore. rewrite H. reflexivity. Qed.

Lemma select_step_nan dna best template :
  complexity template = None -> select_step dna best template = best.
Proof.
  intros H. unfold select_step. rewrite score_without_complexity by exact H.
  reflexivity.
Qed.

Lemma select_all_nan dna (l : list Template) best :
  Forall (fun t => complexity t = None) l ->
  fold_left (select_step dna) l best = best.
Proof.
  intros H. revert best. induction H as [|t l Ht _ IH]; intros best; simpl.
  - reflexivity.
  - rewrite select_step_nan by exact Ht. apply IH.
Qed.

Lemma catalogue_without_complexity (type : string) :
  Forall (fun t => complexity t = None) (getEffectTemplates type).
Proof.
  unfold getEffectTemplates, templates.
  rewrite !lookup_insert. repeat case_decide; rewrite ?lookup_empty;
    repeat constructor.
Qed.

(** C6.  No entry of the catalogue has the [complexity] and [energy]
    properties that the score reads, so every score is NaN, no score ever
    exceeds the running best, and the selection returns the first template
    of the list whatever the DNA: for [javascript] it is ParticleSystem,
    whose performance term is lower than that of CSSAnimation. *)
Theorem selectBestTemplate_returns_first (dna : Dna.EffectDNA) (type : string) :
  Forall (fun t => calculateTemplateScore dna t = NaN) (getEffectTemplates type)
  /\ selectBestTemplate dna (getEffectTemplates type) = head (getEffectTemplates type)
  /\ selectBestTemplate dna (getEffectTemplates "javascript") = Some ParticleSystem
  /\ performance ParticleSystem < performance CSSAnimation.
Proof.
  split; [|split; [|split]].
  - eapply Forall_impl; [apply catalogue_without_complexity|].
    intros t Ht. now apply score_without_complexity.
  - unfold selectBestTemplate.
    now rewrite select_all_nan by apply catalogue_without_complexity.
  - unfold selectBestTemplate.
    now rewrite select_all_nan by apply catalogue_without_complexity.
  - reflexivity.
Qed.

(** What the loop computes on a catalogue whose entries do have the two
    properties: the first template of maximal score, provided that some
    score is positive; the first template of the list otherwise. *)
Lemma score_well_formed dna t :
  well_formed t -> calculateTemplateScore dna t = Num (score_value dna t).
Proof.
  intros [[c Hc] [e He]]. unfold score_value, calculateTemplateScore.
  rewrite Hc, He. reflexivity.
Qed.

Lemma score_value_formula dna t c e :
  complexity t = Some c -> energy t = Some e ->
  score_value dna t == Spec.templateScore (performance t) c e dna.
Proof.
  intros Hc He. unfold score_value, calculateTemplateScore, Spec.templateScore.
  rewrite Hc, He. cbn [to_number js_sub js_abs js_mul js_add js_lift2]. ring.
Qed.

Lemma select_step_well_formed dna best bs t :
  well_formed t ->
  select_step dna (best, Num bs) t
  = if Js.Qlt_bool bs (score_value dna t)
    then (Some t, Num (score_value dna t)) else (best, Num bs).
Proof.
  intros H. unfold select_step. rewrite (score_well_formed dna t H). reflexivity.
Qed.

Lemma select_invariant dna (l : list Template) best bs :
  Forall well_formed l ->
  (fold_left (select_step dna) l (best, Num bs) = (best, Num bs)
   /\ Forall (fun t => score_value dna t <= bs) l)
  \/ (exists l1 b l2,
        l = (l1 ++ b :: l2)%list
        /\ fold_left (select_step dna) l (best, Num bs)
           = (Some b, Num (score_value dna b))
        /\ bs < score_value dna b
        /\ Forall (fun t => score_value dna t < score_value dna b) l1
        /\ Forall (fun t => score_value dna t <= score_value dna b) l2).
Proof.
  induction l as [|x l IH] using rev_ind; intros Hwf.
  - left. split; [reflexivity | constructor].
  - apply Forall_app in Hwf. destruct Hwf as [Hl Hx].
    apply Forall_inv in Hx. rewrite fold_left_app. cbn [fold_left].
    destruct (IH Hl) as [[Hfold Hall] | (l1 & b & l2 & Hsplit & Hfold & Hbs & H1 & H2)];
      rewrite Hfold, (select_step_well_formed _ _ _ _ Hx).
    + destruct (Js.Qlt_bool bs (score_value dna x)) eqn:E.
      * right. exists l, x, []. apply Qlt_bool_iff in E.
        repeat split; [exact E| |constructor].
        eapply Forall_impl; [exact Hall|].
        intros t Ht. cbv beta in Ht. eapply Qle_lt_trans; eassumption.
      * left. split; [reflexivity|]. apply Forall_app. split; [exact Hall|].
        constructor; [|constructor].
        apply Qnot_lt_le. intros Hlt. apply Qlt_bool_iff in Hlt. congruence.
    + destruct (Js.Qlt_bool (score_value dna b) (score_value dna x)) eqn:E.
      * right. exists l, x, []. apply Qlt_bool_iff in E.
        repeat split; [eapply Qlt_trans; eassumption| |constructor].
        rewrite Hsplit. apply Forall_app. split.
        -- eapply Forall_impl; [exact H1|].
           intros t Ht. cbv beta in Ht. eapply Qlt_trans; eassumption.
        -- constructor; [exact E|].
           eapply Forall_impl; [exact H2|].
           intros t Ht. cbv beta in Ht. eapply Qle_lt_trans; eassumption.
      * right. exists l1, b, (l2 ++ [x])%list.
        split; [rewrite Hsplit; now rewrite <- app_assoc|].
        split; [reflexivity|]. split; [exact Hbs|]. split; [exact H1|].
        apply Forall_app. split; [exact H2|]. constructor; [|constructor].
        apply Qnot_lt_le. intros Hlt. apply Qlt_bool_iff in Hlt. congruence.
Qed.

(** X7.  On a catalogue whose entries do have the [complexity] and
    [energy] properties, [selectBestTemplate] returns the first template of
    maximal score when some score is positive, and the first template of
    the list when none is. *)
Lemma selectBestTemplate_well_formed dna (l : list Template) :
  Forall well_formed l ->
  (selectBestTemplate dna l = head l
   /\ Forall (fun t => score_value dna t <= 0) l)
  \/ (exists l1 b l2,
        l = (l1 ++ b :: l2)%list
        /\ selectBestTemplate dna l = Some b
        /\ 0 < score_value dna b
        /\ Forall (fun t => score_value dna t < score_value dna b) l1
        /\ Forall (fun t => score_value dna t <= score_value dna b) l2).
Proof.
  intros Hwf. unfold selectBestTemplate.
  destruct (select_invariant dna l (head l) 0 Hwf)
    as [[Hfold Hall] | (l1 & b & l2 & Hsplit & Hfold & Hbs & H1 & H2)];
    rewrite Hfold.
  - left. split; [reflexivity | exact Hall].
  - right. exists l1, b, l2. repeat split; assumption.
Qed.

(** *** The platform rule *)

Lemma assignment_cons ws1 ws2 ds post :
  assignment ws1 ws2 ds +:+ post
  = String "p" (("articleCount" +:+ ws1 +:+ "=" +:+ ws2 +:+ ds) +:+ post).
Proof. reflexivity. Qed.

(** What remains of the expression after its first character. *)
Lemma particleCountRe_cons (b : ascii) (s : string) :
  match_here particleCountRe (String b s)
  = if Ascii.eqb "p" b
    then match_here [Lit "articleCount"; Star is_space; Lit "=";
                     Star is_space; Plus is_digit] s
    else None.
Proof.
  unfold particleCountRe. cbn [match_here strip_prefix].
  destruct (Ascii.eqb "p" b); reflexivity.
Qed.

Lemma digit_not_space (c : ascii) : is_digit c = true -> is_space c = false.
Proof.
  unfold is_digit, is_space. intros H.
  apply andb_true_iff in H. destruct H as [H1 H2].
  apply Nat.leb_le in H1. apply Nat.leb_le in H2.
  apply orb_false_iff. split.
  - apply andb_false_iff. right. apply Nat.leb_gt. lia.
  - apply Nat.eqb_neq. lia.
Qed.

Lemma assignment_matches ws1 ws2 ds post :
  all_chars is_space ws1 = true -> all_chars is_space ws2 = true ->
  all_chars is_digit ds = true -> ds <> "" ->
  starts_with is_digit post = false ->
  match_here particleCountRe (assignment ws1 ws2 ds +:+ post) = Some post.
Proof.
  intros H1 H2 Hd Hne Hpost. unfold assignment, particleCountRe.
  rewrite !append_assoc. cbn [match_here].
  rewrite strip_prefix_app.
  rewrite skip_while_all; [|exact H1|reflexivity].
  rewrite strip_prefix_app.
  destruct ds as [|d ds]; [congruence|].
  simpl in Hd. apply andb_true_iff in Hd. destruct Hd as [Hd Hds].
  rewrite skip_while_all; [|exact H2|simpl; now apply digit_not_space].
  simpl. rewrite Hd.
  rewrite skip_while_all by assumption. reflexivity.
Qed.

(** An assignment is replaced, and the texts before and after it are
    rewritten independently. *)
Lemma replaceAll_assignment (rep ws1 ws2 ds post : string) :
  all_chars is_space ws1 = true -> all_chars is_space ws2 = true ->
  all_chars is_digit ds = true -> ds <> "" ->
  starts_with is_digit post = false ->
  forall pre,
    replaceAll particleCountRe rep (pre +:+ assignment ws1 ws2 ds +:+ post)
    = replaceAll particleCountRe rep pre +:+ rep
      +:+ replaceAll particleCountRe rep post.
Proof.
  intros H1 H2 Hd Hne Hpost pre.
  pose proof (assignment_matches ws1 ws2 ds post H1 H2 Hd Hne Hpost) as Hm.
  assert (Hext : forall s, s <> "" ->
            match_here particleCountRe (s +:+ assignment ws1 ws2 ds +:+ post)
            = option_map (fun r => r +:+ assignment ws1 ws2 ds +:+ post)
                (match_here particleCountRe s)).
  { intros s Hs. destruct s as [|b s]; [congruence|].
    change (String b s +:+ assignment ws1 ws2 ds +:+ post)
      with (String b (s +:+ assignment ws1 ws2 ds +:+ post)).
    rewrite !particleCountRe_cons.
    destruct (Ascii.eqb "p" b); [|reflexivity].
    rewrite assignment_cons. apply match_here_extend. reflexivity. }
  assert (Hane : assignment ws1 ws2 ds <> "") by discriminate.
  remember (String.length pre) as n eqn:Hn.
  revert pre Hn. induction n as [n IH] using lt_wf_ind. intros pre Hn.
  destruct pre as [|c pre'].
  - rewrite append_nil_l.
    rewrite (replaceAll_match _ _ _ _ Hane Hm). reflexivity.
  - destruct (match_here particleCountRe (String c pre')) as [rest|] eqn:E.
    + destruct (match_here_suffix _ _ _ E) as [m Hpre].
      assert (Hmne : m <> "").
      { intros ->. rewrite append_nil_l in Hpre. subst rest.
        rewrite particleCountRe_cons in E.
        destruct (Ascii.eqb "p" c); [|discriminate].
        apply match_here_suffix in E. destruct E as [m' E].
        apply (f_equal String.length) in E.
        rewrite length_append in E. cbn [String.length] in E. lia. }
      rewrite Hpre in *.
      rewrite append_assoc.
      rewrite (replaceAll_match _ _ m (rest +:+ assignment ws1 ws2 ds +:+ post) Hmne).
      * rewrite (replaceAll_match _ _ m rest Hmne E).
        rewrite (IH (String.length rest)); [now rewrite append_assoc| |reflexivity].
        subst n. rewrite length_append.
        destruct m; [congruence|cbn [String.length]; lia].
      * rewrite <- append_assoc. rewrite Hext.
        -- rewrite E. reflexivity.
        -- destruct m; [congruence|discriminate].
    + rewrite append_cons. rewrite replaceAll_no_match.
      * rewrite replaceAll_no_match by exact E.
        rewrite append_cons. f_equal.
        apply (IH (String.length pre')); [subst n; cbn [String.length]; lia|reflexivity].
      * rewrite <- append_cons.
        rewrite Hext by discriminate. rewrite E. reflexivity.
Qed.

(** C9.  In a code that contains an assignment [particleCount = <number>]
    the optimizer for [mobile] rewrites the assignment to
    [particleCount = 50] and the one for [desktop] to [particleCount = 200],
    and does the same in the text before and in the text after it, hence
    to every such assignment; for [web] and any other platform the code is
    returned unchanged. *)
Theorem optimizeForPlatform_particleCount (pre ws1 ws2 ds post : string) :
  all_chars is_space ws1 = true -> all_chars is_space ws2 = true ->
  all_chars is_digit ds = true -> ds <> "" ->
  starts_with is_digit post = false ->
  let code := pre +:+ assignment ws1 ws2 ds +:+ post in
  optimizeForPlatform code "mobile"
  = optimizeForPlatform pre "mobile" +:+ "particleCount = 50"
    +:+ optimizeForPlatform post "mobile"
  /\ optimizeForPlatform code "desktop"
     = optimizeForPlatform pre "desktop" +:+ "particleCount = 200"
       +:+ optimizeForPlatform post "desktop"
  /\ optimizeForPlatform code "web" = code
  /\ (forall platform, platform <> "mobile" -> platform <> "desktop" ->
      optimizeForPlatform code platform = code).
Proof.
  intros H1 H2 Hd Hne Hpost code. split; [|split; [|split]].
  - apply (replaceAll_assignment "particleCount = 50"); assumption.
  - apply (replaceAll_assignment "particleCount = 200"); assumption.
  - reflexivity.
  - intros platform Hm Hdk. unfold optimizeForPlatform.
    apply String.eqb_neq in Hm. apply String.eqb_neq in Hdk.
    now rewrite Hm, Hdk.
Qed.

(** The literal example of the specification, with a second assignment
    and with text around them. *)
Lemma optimizeForPlatform_particleCount_witness :
  optimizeForPlatform ("this.particleCount = 999; particleCount=7;") "mobile"
  = "this.particleCount = 50; particleCount = 50;".
Proof.
  pose proof (optimizeForPlatform_particleCount
                "this." " " " " "999" "; particleCount=7;"
                eq_refl eq_refl eq_refl ltac:(discriminate) eq_refl) as H.
  cbv zeta in H. destruct H as [H _].
  etransitivity; [exact H|]. vm_compute. reflexivity.
Defined.


Lemma selectBestTemplate_well_formed_witness :
  (selectBestTemplate (Engine.dna Inputs.burst) [Inputs.calm; Inputs.lively]
   = head [Inputs.calm; Inputs.lively]
   /\ Forall (fun t => score_value (Engine.dna Inputs.burst) t <= 0)
        [Inputs.calm; Inputs.lively])
  \/ (exists l1 b l2,
        [Inputs.calm; Inputs.lively] = (l1 ++ b :: l2)%list
        /\ selectBestTemplate (Engine.dna Inputs.burst) [Inputs.calm; Inputs.lively]
           = Some b
        /\ 0 < score_value (Engine.dna Inputs.burst) b
        /\ Forall (fun t => score_value (Engine.dna Inputs.burst) t
                            < score_value (Engine.dna Inputs.burst) b) l1
        /\ Forall (fun t => score_value (Engine.dna Inputs.burst) t
                            <= score_value (Engine.dna Inputs.burst) b) l2).
Proof.
  apply selectBestTemplate_well_formed.
  repeat constructor; eexists; reflexivity.
Defined.

(** *** The platform rule applied twice, and the memory estimate *)

Lemma match_head_p (b : ascii) (s rest : string) :
  match_here particleCountRe (String b s) = Some rest -> b = "p"%char.
Proof.
  rewrite particleCountRe_cons.
  destruct (Ascii.eqb_spec "p" b); [congruence|discriminate].
Qed.

Lemma match_nonempty (s rest : string) :
  match_here particleCountRe s = Some rest ->
  exists m, s = String "p" m +:+ rest.
Proof.
  intros H. destruct s as [|b s]; [discriminate|].
  pose proof (match_head_p _ _ _ H) as ->.
  rewrite particleCountRe_cons in H. cbn [Ascii.eqb Bool.eqb] in H.
  destruct (match_here_suffix _ _ _ H) as [m Hm]. exists m. now rewrite Hm.
Qed.

(** The repetition of digits is greedy: what follows a match does not
    start with a digit. *)
Lemma match_greedy (s rest : string) :
  match_here particleCountRe s = Some rest -> starts_with is_digit rest = false.
Proof.
  unfold particleCountRe. cbn [match_here].
  destruct (strip_prefix "particleCount" s) as [s1|]; [|discriminate].
  destruct (strip_prefix "=" (skip_while is_space s1)) as [s2|]; [|discriminate].
  destruct (skip_while is_space s2) as [|c s3]; [discriminate|].
  destruct (is_digit c); [|discriminate].
  intros E. inversion E. apply skip_while_stops.
Qed.

Lemma take_while_all (cls : ascii -> bool) (w X : string) :
  all_chars cls w = true -> starts_with cls X = false ->
  take_while cls (w +:+ X) = w.
Proof.
  induction w as [|c w IH]; intros Hw HX.
  - destruct X as [|x X]; [reflexivity|]. cbn in HX |- *. now rewrite HX.
  - cbn [all_chars] in Hw. apply andb_true_iff in Hw. destruct Hw as [Hc Hw].
    rewrite append_cons. cbn [take_while]. rewrite Hc. f_equal. now apply IH.
Qed.

Lemma match_particleCount_eq (s : string) :
  match_particleCount s
  = match match_here particleCountRe s with
    | Some _ => Some (group_1 s)
    | None => match s with "" => None | String _ s' => match_particleCount s' end
    end.
Proof. destruct s; reflexivity. Qed.

Section Rewrite.

(** The number that the rule writes. *)
Variable digits : string.
Hypothesis digits_ok : all_chars is_digit digits = true.
Hypothesis digits_ne : digits <> "".

Lemma assign_text_matches (X : string) :
  starts_with is_digit X = false ->
  match_here particleCountRe (assign_text digits +:+ X) = Some X.
Proof.
  intros HX.
  apply (assignment_matches " " " " digits X); try reflexivity; assumption.
Qed.

Lemma assign_text_cons (X : string) :
  assign_text digits +:+ X = String "p" ("articleCount = " +:+ digits) +:+ X.
Proof. reflexivity. Qed.

Lemma rewrite_counts_match (m rest : string) :
  match_here particleCountRe (String "p" m +:+ rest) = Some rest ->
  rewrite_counts digits (String "p" m +:+ rest)
  = assign_text digits +:+ rewrite_counts digits rest.
Proof. intros H. apply replaceAll_match; [discriminate | exact H]. Qed.

Lemma rewrite_counts_copy (c : ascii) (s : string) :
  match_here particleCountRe (String c s) = None ->
  rewrite_counts digits (String c s) = String c (rewrite_counts digits s).
Proof. apply replaceAll_no_match. Qed.

(** The rewritten text up to and including the first replacement. *)
Lemma rewrite_counts_first (s : string) :
  rewrite_counts digits s = s
  \/ exists u m rest,
       s = u +:+ String "p" m +:+ rest
       /\ rewrite_counts digits s
          = u +:+ assign_text digits +:+ rewrite_counts digits rest.
Proof.
  induction s as [|c s IH]; [now left|].
  destruct (match_here particleCountRe (String c s)) as [rest|] eqn:E.
  - destruct (match_nonempty _ _ E) as [m Hm]. right.
    exists "", m, rest. rewrite !append_nil_l. split; [exact Hm|].
    rewrite Hm in E |- *. now apply rewrite_counts_match.
  - rewrite (rewrite_counts_copy _ _ E).
    destruct IH as [->|(u & m & rest & Hs & Hr)]; [now left|].
    right. exists (String c u), m, rest.
    split; [rewrite Hs | rewrite Hr]; reflexivity.
Qed.

Lemma rewrite_counts_starts (s : string) :
  starts_with is_digit (rewrite_counts digits s) = starts_with is_digit s.
Proof.
  destruct s as [|c s]; [reflexivity|].
  destruct (match_here particleCountRe (String c s)) as [rest|] eqn:E.
  - destruct (match_nonempty _ _ E) as [m Hm]. rewrite Hm in E |- *.
    rewrite (rewrite_counts_match _ _ E). reflexivity.
  - rewrite (rewrite_counts_copy _ _ E). reflexivity.
Qed.

(** Rewriting the rest of a text creates no match at its start. *)
Lemma rewrite_counts_no_new_match (c : ascii) (s : string) :
  match_here particleCountRe (String c s) = None ->
  match_here particleCountRe (String c (rewrite_counts digits s)) = None.
Proof.
  rewrite !particleCountRe_cons. destruct (Ascii.eqb "p" c); [|reflexivity].
  destruct (rewrite_counts_first s) as [->|(u & m & rest & Hs & ->)]; [tauto|].
  subst s.
  change (match_here tail_re (u +:+ String "p" (m +:+ rest)) = None ->
          match_here tail_re
            (u +:+ String "p" (("articleCount = " +:+ digits)
                               +:+ rewrite_counts digits rest)) = None).
  rewrite !(match_here_extend tail_re "p" _ eq_refl).
  destruct (match_here tail_re u); [discriminate | reflexivity].
Qed.

Lemma rewrite_counts_idempotent (s : string) :
  rewrite_counts digits (rewrite_counts digits s) = rewrite_counts digits s.
Proof.
  remember (String.length s) as n eqn:Hn. revert s Hn.
  induction n as [n IH] using lt_wf_ind. intros s Hn.
  destruct s as [|c s]; [reflexivity|].
  destruct (match_here particleCountRe (String c s)) as [rest|] eqn:E.
  - destruct (match_nonempty _ _ E) as [m Hm]. rewrite Hm in E |- *.
    rewrite (rewrite_counts_match _ _ E).
    assert (Hd : starts_with is_digit (rewrite_counts digits rest) = false)
      by (rewrite rewrite_counts_starts; now apply match_greedy in E).
    pose proof (assign_text_matches _ Hd) as Hrep.
    rewrite assign_text_cons in Hrep.
    transitivity (assign_text digits
                  +:+ rewrite_counts digits (rewrite_counts digits rest));
      [exact (rewrite_counts_match _ _ Hrep)|].
    f_equal.
    apply (IH (String.length rest)); [|reflexivity].
    subst n. apply (f_equal String.length) in Hm. rewrite Hm.
    rewrite length_append. cbn [String.length]. lia.
  - rewrite (rewrite_counts_copy _ _ E).
    rewrite (rewrite_counts_copy _ _ (rewrite_counts_no_new_match _ _ E)). f_equal.
    apply (IH (String.length s)); [subst n; cbn [String.length]; lia | reflexivity].
Qed.

Lemma group_1_assign_text (X : string) :
  starts_with is_digit X = false -> group_1 (assign_text digits +:+ X) = digits.
Proof.
  intros HX. unfold group_1, assign_text, particleCountPrefix.
  rewrite append_assoc. cbn [match_here].
  change ("particleCount = " +:+ digits +:+ X)
    with ("particleCount" +:+ (" " +:+ ("=" +:+ (" " +:+ (digits +:+ X))))).
  rewrite strip_prefix_app.
  rewrite skip_while_all; [|reflexivity|reflexivity].
  rewrite strip_prefix_app.
  destruct digits as [|d ds] eqn:Ed; [congruence|].
  pose proof digits_ok as Hok. cbn [all_chars] in Hok.
  apply andb_true_iff in Hok. destruct Hok as [Hd Hds].
  rewrite skip_while_all; [|reflexivity|cbn; now apply digit_not_space].
  apply take_while_all; [cbn [all_chars]; now rewrite Hd, Hds | exact HX].
Qed.

(** The leftmost match of the rewritten text is the first replacement. *)
Lemma match_after_rewrite (s : string) :
  match_particleCount (rewrite_counts digits s)
  = option_map (fun _ => digits) (match_particleCount s).
Proof.
  remember (String.length s) as n eqn:Hn. revert s Hn.
  induction n as [n IH] using lt_wf_ind. intros s Hn.
  destruct s as [|c s]; [reflexivity|].
  rewrite (match_particleCount_eq (String c s)).
  destruct (match_here particleCountRe (String c s)) as [rest|] eqn:E.
  - destruct (match_nonempty _ _ E) as [m Hm]. rewrite Hm in E |- *.
    rewrite (rewrite_counts_match _ _ E).
    assert (Hd : starts_with is_digit (rewrite_counts digits rest) = false)
      by (rewrite rewrite_counts_starts; now apply match_greedy in E).
    rewrite match_particleCount_eq, (assign_text_matches _ Hd).
    cbn [option_map]. f_equal. now apply group_1_assign_text.
  - rewrite (rewrite_counts_copy _ _ E). rewrite match_particleCount_eq.
    rewrite (rewrite_counts_no_new_match _ _ E).
    apply (IH (String.length s)); [subst n; cbn [String.length]; lia | reflexivity].
Qed.

End Rewrite.

(** X8.  The platform rule is idempotent: optimizing for a platform a
    code that was already optimized for it changes nothing, whatever the
    code and the platform. *)
Theorem optimizeForPlatform_idempotent (code platform : string) :
  optimizeForPlatform (optimizeForPlatform code platform) platform
  = optimizeForPlatform code platform.
Proof.
  unfold optimizeForPlatform.
  destruct (String.eqb platform "mobile").
  - apply (rewrite_counts_idempotent "50"); [reflexivity | discriminate].
  - destruct (String.eqb platform "desktop"); [|reflexivity].
    apply (rewrite_counts_idempotent "200"); [reflexivity | discriminate].
Qed.

(** X9.  After the platform rule the particle count that
    [extractParticleCount] reads is the platform's number when the code
    had an assignment (50 for mobile, 200 for desktop) and the default 100
    when it had none, so that the memory estimate is 69 MB, 84 MB or
    74 MB. *)
Theorem estimateMemoryUsage_after_platform (code : string) :
  let found := match_particleCount code in
  extractParticleCount (optimizeForPlatform code "mobile")
  = match found with Some _ => 50 | None => 100 end%Z
  /\ estimateMemoryUsage (optimizeForPlatform code "mobile")
     = match found with Some _ => 69 | None => 74 end%Z
  /\ extractParticleCount (optimizeForPlatform code "desktop")
     = match found with Some _ => 200 | None => 100 end%Z
  /\ estimateMemoryUsage (optimizeForPlatform code "desktop")
     = match found with Some _ => 84 | None => 74 end%Z.
Proof.
  cbv zeta.
  pose proof (match_after_rewrite "50" eq_refl ltac:(discriminate) code) as Hm.
  pose proof (match_after_rewrite "200" eq_refl ltac:(discriminate) code) as Hd.
  change (rewrite_counts "50" code) with (optimizeForPlatform code "mobile") in Hm.
  change (rewrite_counts "200" code) with (optimizeForPlatform code "desktop") in Hd.
  unfold estimateMemoryUsage, extractParticleCount. rewrite Hm, Hd.
  destruct (match_particleCount code); repeat split; reflexivity.
Qed.

End GeneratorFacts.

(** ** The lexical analyzer *)

Module AiEngineFacts.

Import Js JsFacts Dna AiEngine Notions.
Local Open Scope Q_scope.

(** *** Fractions of a token list *)

Lemma of_nat_nonneg (n : nat) : 0 <= of_nat n.
Proof.
  unfold of_nat. change 0 with (inject_Z 0). rewrite <- Zle_Qle. lia.
Qed.

Lemma of_nat_le (a b : nat) : (a <= b)%nat -> of_nat a <= of_nat b.
Proof. intros H. unfold of_nat. rewrite <- Zle_Qle. lia. Qed.

Lemma of_nat_pos (n : nat) : (1 <= n)%nat -> 0 < of_nat n.
Proof.
  intros H. unfold of_nat. change 0 with (inject_Z 0). rewrite <- Zlt_Qlt. lia.
Qed.

Lemma ratio_bounds (a b : nat) :
  (a <= b)%nat -> (1 <= b)%nat -> 0 <= of_nat a / of_nat b <= 1.
Proof.
  intros Hab Hb. pose proof (of_nat_pos b Hb) as Hpos. split.
  - apply Qle_shift_div_l; [exact Hpos|]. rewrite Qmult_0_l. apply of_nat_nonneg.
  - apply Qle_shift_div_r; [exact Hpos|]. rewrite Qmult_1_l. now apply of_nat_le.
Qed.

Lemma filter_length_le {A : Type} (f : A -> bool) (l : list A) :
  (length (List.filter f l) <= length l)%nat.
Proof.
  induction l as [|x l IH]; simpl; [lia|]. destruct (f x); simpl; lia.
Qed.

Lemma calculateWordScore_bounds (tokens words : list string) :
  0 <= calculateWordScore tokens words <= 1.
Proof.
  unfold calculateWordScore. apply ratio_bounds; [|lia].
  pose proof (filter_length_le (word_in words) tokens). lia.
Qed.

Lemma word_in_decide (words : list string) (token : string) :
  word_in words token = bool_decide (token ∈ words).
Proof.
  unfold word_in. induction words as [|w words IH]; cbn [existsb].
  - symmetry. apply bool_decide_eq_false_2. apply not_elem_of_nil.
  - rewrite IH. destruct (String.eqb_spec token w) as [->|Hne]; cbn [orb].
    + symmetry. apply bool_decide_eq_true_2. apply list_elem_of_here.
    + case_bool_decide as D; symmetry.
      * apply bool_decide_eq_true_2. now apply list_elem_of_further.
      * apply bool_decide_eq_false_2. intros H.
        apply elem_of_cons in H. destruct H; congruence.
Qed.

Lemma calculateWordScore_fraction (tokens words : list string) :
  calculateWordScore tokens words = Spec.fraction words tokens.
Proof.
  unfold calculateWordScore, Spec.fraction, of_nat.
  do 4 f_equal. apply filter_ext. intros token. apply word_in_decide.
Qed.

Lemma min_one_bounds (x : Q) : 0 <= x -> 0 <= Qmin 1 x <= 1.
Proof.
  intros H. split.
  - apply Q.min_glb; [discriminate | exact H].
  - apply Q.le_min_l.
Qed.

(** *** The requirements *)

(** C8.  The heaviness is the fraction of heavy words minus the fraction
    of light words; performance = max(30, 60 - heaviness*30) and
    memory = max(64, 256 + heaviness*256), so that performance is at least
    30 and memory at least 64.  The heaviness lies between -1 and 1. *)
Theorem technical_requirements (tokens : list string) :
  let t := analyzeTechnicalRequirements tokens in
  let heaviness :=
    Spec.fraction heavyWords tokens - Spec.fraction lightWords tokens in
  performance t = Qmax 30 (60 - heaviness * 30)
  /\ memory t = Qmax 64 (256 + heaviness * 256)
  /\ 30 <= performance t
  /\ 64 <= memory t
  /\ - (1) <= heaviness <= 1.
Proof.
  cbv zeta. unfold analyzeTechnicalRequirements. cbn [performance memory].
  rewrite !calculateWordScore_fraction.
  split; [reflexivity|]. split; [reflexivity|].
  split; [apply Q.le_max_l|]. split; [apply Q.le_max_l|].
  rewrite <- !calculateWordScore_fraction.
  pose proof (calculateWordScore_bounds tokens heavyWords) as [Hh0 Hh1].
  pose proof (calculateWordScore_bounds tokens lightWords) as [Hl0 Hl1].
  split.
  - apply Qle_trans with (0 - 1); [discriminate|].
    apply Qplus_le_compat; [exact Hh0|]. now apply Qopp_le_compat.
  - apply Qle_trans with (1 - 0); [|discriminate].
    apply Qplus_le_compat; [exact Hh1|]. now apply Qopp_le_compat.
Qed.

(** *** The profile *)

Lemma analyzeEmotionalProfile_bounds (tokens : list string) :
  let p := analyzeEmotionalProfile tokens in
  0 <= energy p <= 1 /\ 0 <= complexity p <= 1 /\ 0 <= elegance p <= 1.
Proof.
  cbv zeta. unfold analyzeEmotionalProfile. cbn [energy complexity elegance].
  repeat split; try apply Q.le_min_l;
    (apply Q.min_glb; [discriminate | apply calculateWordScore_bounds]).
Qed.

Lemma calculateConfidence_bounds (m : NeuralModel) (tokens concepts : list string) :
  0 <= calculateConfidence m tokens concepts <= 1.
Proof.
  unfold calculateConfidence. apply min_one_bounds.
  apply Qle_shift_div_l; [reflexivity|]. rewrite Qmult_0_l.
  apply Qle_trans with (0 + 0); [discriminate|].
  apply Qplus_le_compat.
  - apply ratio_bounds; [|lia].
    pose proof (filter_length_le
                  (fun token => bool_decide (token ∈ vocabulary m)) tokens). lia.
  - apply Qle_shift_div_l; [reflexivity|]. rewrite Qmult_0_l. apply of_nat_nonneg.
Qed.

(** On an engine that is initialized and has its model, the analysis
    returns, and returns this record. *)
Lemma analyzeContent_initialized engine m content :
  isInitialized engine = true -> neuralModel engine = Some m ->
  analyzeContent engine content
  = Ok {| primaryConcepts := extractConcepts m (tokenizeContent content);
          emotionalProfile := analyzeEmotionalProfile (tokenizeContent content);
          technicalRequirements :=
            analyzeTechnicalRequirements (tokenizeContent content);
          confidenceScore :=
            calculateConfidence m (tokenizeContent content)
              (extractConcepts m (tokenizeContent content));
          constitutionCompliance :=
            checkConstitutionKeywords (tokenizeContent content) |}.
Proof.
  intros Hi Hm. unfold analyzeContent, the_model. rewrite Hi, Hm. reflexivity.
Qed.

(** [initialize] succeeds on a new engine and leaves it initialized, with
    a model. *)
Lemma initialize_new_engine :
  exists engine m,
    initialize new_engine = Ok engine
    /\ isInitialized engine = true /\ neuralModel engine = Some m.
Proof. eexists. eexists. repeat split. Qed.

(** C7.  On the engine that [initialize] sets up, the analysis of any
    text returns a record whose energy, complexity, elegance and confidence
    are between 0 and 1; for the empty text the concept list is empty and
    the four values are 0. *)
Theorem analyzeContent_profile :
  exists engine,
    initialize new_engine = Ok engine
    /\ forall content, exists dna,
         analyzeContent engine content = Ok dna
         /\ 0 <= energy (emotionalProfile dna) <= 1
         /\ 0 <= complexity (emotionalProfile dna) <= 1
         /\ 0 <= elegance (emotionalProfile dna) <= 1
         /\ 0 <= confidenceScore dna <= 1
         /\ (content = "" ->
             primaryConcepts dna = []
             /\ energy (emotionalProfile dna) == 0
             /\ complexity (emotionalProfile dna) == 0
             /\ elegance (emotionalProfile dna) == 0
             /\ confidenceScore dna == 0).
Proof.
  destruct initialize_new_engine as (engine & m & Hinit & Hi & Hm).
  exists engine. split; [exact Hinit|]. intros content.
  eexists. split; [apply (analyzeContent_initialized engine m); assumption|].
  cbn [emotionalProfile confidenceScore primaryConcepts].
  pose proof (analyzeEmotionalProfile_bounds (tokenizeContent content)) as H.
  cbv zeta in H. destruct H as (He & Hc & Hl).
  split; [exact He|]. split; [exact Hc|]. split; [exact Hl|].
  split; [apply calculateConfidence_bounds|].
  intros ->. repeat split; reflexivity.
Qed.

(** *** The initialization guard *)

(** C10.  On an engine whose [isInitialized] flag is not set, each of the
    three public operations throws 'AI Engine not initialized', whatever
    its arguments. *)
Theorem operations_require_initialize (engine : AIEngineService) :
  isInitialized engine = false ->
  (forall content,
     analyzeContent engine content = Throw "AI Engine not initialized")
  /\ (forall numberToString dna type,
        generateEffectFromDNA numberToString engine dna type
        = Throw "AI Engine not initialized")
  /\ (forall code target,
        optimizeCode engine code target = Throw "AI Engine not initialized").
Proof.
  intros H. unfold analyzeContent, generateEffectFromDNA, optimizeCode.
  rewrite H. repeat split.
Qed.

(** The engine is in that state when it is created and again after
    [shutdown]. *)
Lemma operations_require_initialize_witness :
  isInitialized new_engine = false
  /\ analyzeContent new_engine "A fast explosive particle burst"
     = Throw "AI Engine not initialized".
Proof.
  split; [reflexivity|].
  apply (operations_require_initialize new_engine eq_refl).
Defined.

Lemma shutdown_uninitialized engine : isInitialized (shutdown engine) = false.
Proof. reflexivity. Qed.


(** *** Tokens *)

Lemma normalised_char (c : ascii) :
  let c' := lower c in
  let c'' := if is_word c' || is_space c' then c' else " "%char in
  token_char c'' || is_space c'' = true.
Proof. destruct c as [[] [] [] [] [] [] [] []]; reflexivity. Qed.

Lemma normalised_text (s : string) :
  all_chars (fun c => token_char c || is_space c) (blank_punctuation (toLowerCase s))
  = true.
Proof.
  induction s as [|c s IH]; [reflexivity|].
  cbn [toLowerCase blank_punctuation all_chars].
  rewrite IH, andb_true_r. apply normalised_char.
Qed.

Lemma split_spaces_pieces (s : string) :
  forall in_sep cur,
    all_chars token_char cur = true ->
    all_chars (fun c => token_char c || is_space c) s = true ->
    Forall (fun piece => all_chars token_char piece = true)
      (split_spaces in_sep cur s).
Proof.
  induction s as [|c s IH]; intros in_sep cur Hcur Hs; cbn [split_spaces].
  - constructor; [exact Hcur | constructor].
  - cbn [all_chars] in Hs. apply andb_true_iff in Hs. destruct Hs as [Hc Hs].
    destruct (is_space c) eqn:Esp.
    + destruct in_sep.
      * apply IH; [reflexivity | exact Hs].
      * constructor; [exact Hcur|]. apply IH; [reflexivity | exact Hs].
    + apply IH; [|exact Hs].
      rewrite all_chars_app, Hcur. cbn [all_chars andb].
      rewrite orb_false_r in Hc. now rewrite Hc.
Qed.

Lemma tokens_are_pieces (content : string) :
  Forall (fun token => all_chars token_char token = true /\ (2 < String.length token)%nat)
    (tokenizeContent content).
Proof.
  unfold tokenizeContent.
  pose proof (split_spaces_pieces (blank_punctuation (toLowerCase content))
                false "" eq_refl (normalised_text content)) as H.
  induction H as [|piece l Hp Hl IH]; cbn [List.filter]; [constructor|].
  destruct (2 <? String.length piece)%nat eqn:E; [|exact IH].
  constructor; [|exact IH]. split; [exact Hp|].
  now apply Nat.ltb_lt in E.
Qed.

(** X10.  Every token that [tokenizeContent] returns has at least three
    characters, and all of them are lower-case letters, digits or the
    underscore, whatever the text. *)
Theorem tokenizeContent_tokens (content : string) :
  Forall (fun token =>
            (3 <= String.length token)%nat /\ all_chars token_char token = true)
    (tokenizeContent content).
Proof.
  unfold tokenizeContent.
  pose proof (split_spaces_pieces (blank_punctuation (toLowerCase content))
                false "" eq_refl (normalised_text content)) as H.
  induction H as [|piece l Hp Hl IH]; cbn [List.filter]; [constructor|].
  destruct (2 <? String.length piece)%nat eqn:E; [|exact IH].
  constructor; [|exact IH]. split; [|exact Hp].
  apply Nat.ltb_lt in E. lia.
Qed.

Lemma filter_agree {A} (f g : A -> bool) (l : list A) :
  (forall x, In x l -> f x = g x) -> List.filter f l = List.filter g l.
Proof.
  induction l as [|x l IH]; intros H; [reflexivity|].
  cbn [List.filter]. rewrite (H x) by now left.
  rewrite IH; [reflexivity|]. intros y Hy. apply H. now right.
Qed.

(** X11.  Two entries of the word lists can never match a token: '3d'
    (too short) and 'cross-platform' (the hyphen is blanked).  So the
    heaviness of the technical requirements is that of the list without
    '3d', and the keyword test of [checkConstitutionKeywords] is that of the
    list without 'cross-platform'. *)
Theorem words_that_never_match (content : string) :
  let tokens := tokenizeContent content in
  ~ In "3d" tokens /\ ~ In "cross-platform" tokens
  /\ calculateWordScore tokens heavyWords
     = calculateWordScore tokens ["particle"; "complex"; "detailed"]
  /\ checkConstitutionKeywords tokens
     = (2 <=? length (List.filter
                        (word_in (List.filter
                                    (fun w => negb (String.eqb w "cross-platform"))
                                    constitutionKeywords))
                        tokens))%nat.
Proof.
  cbv zeta.
  assert (H : Forall (fun token =>
                        (3 <= String.length token)%nat
                        /\ all_chars token_char token = true)
                (tokenizeContent content)).
  { eapply Forall_impl; [apply tokens_are_pieces|].
    intros token [Hc Hl]. split; [lia | exact Hc]. }
  rewrite List.Forall_forall in H.
  assert (H3d : ~ In "3d" (tokenizeContent content)).
  { intros Hin. destruct (H "3d" Hin) as [Hlen _].
    cbn in Hlen. lia. }
  assert (Hcp : ~ In "cross-platform" (tokenizeContent content)).
  { intros Hin.
    destruct (H "cross-platform" Hin) as [_ Hch].
    vm_compute in Hch. discriminate. }
  split; [exact H3d|]. split; [exact Hcp|]. split.
  - unfold calculateWordScore. f_equal. f_equal. f_equal.
    apply filter_agree. intros t Ht.
    unfold heavyWords, word_in. cbn [existsb].
    destruct (String.eqb_spec t "3d") as [->|_]; [contradiction|].
    reflexivity.
  - unfold checkConstitutionKeywords. f_equal. f_equal.
    apply filter_agree. intros t Ht.
    unfold constitutionKeywords, word_in. cbn [existsb List.filter String.eqb Ascii.eqb Bool.eqb negb].
    destruct (String.eqb_spec t "cross-platform") as [->|_]; [contradiction|].
    cbn [orb]. reflexivity.
Qed.


(** *** Concepts *)

Lemma recorded_bump k t freq :
  recorded k (bump t freq) = (recorded k freq + if String.eqb t k then 1 else 0)%nat.
Proof.
  induction freq as [|[k' n] rest IH]; cbn [bump recorded].
  - destruct (String.eqb t k); reflexivity.
  - destruct (String.eqb_spec k' t) as [->|Hne]; cbn [recorded].
    + destruct (String.eqb t k); lia.
    + destruct (String.eqb_spec k' k) as [->|Hne'].
      * destruct (String.eqb_spec t k); [congruence | lia].
      * exact IH.
Qed.

Lemma bump_keys t freq :
  (bump t freq).*1 = if bool_decide (t ∈ freq.*1) then freq.*1 else (freq.*1 ++ [t])%list.
Proof.
  induction freq as [|[k n] rest IH]; [reflexivity|].
  cbn [bump]. destruct (String.eqb_spec k t) as [->|Hne].
  - rewrite bool_decide_eq_true_2 by (cbn; left). reflexivity.
  - cbn [fmap list_fmap fst]. change (list_fmap _ _ fst ?l) with (l.*1).
    rewrite IH. case_bool_decide as H1; case_bool_decide as H2; try reflexivity.
    + exfalso. apply H2. cbn. now right.
    + exfalso. cbn in H2. apply elem_of_cons in H2. destruct H2; [congruence|tauto].
Qed.

Lemma bump_NoDup t freq : NoDup freq.*1 -> NoDup (bump t freq).*1.
Proof.
  intros H. rewrite bump_keys. case_bool_decide as Ht; [exact H|].
  apply NoDup_app. split; [exact H|]. split; [|apply NoDup_singleton].
  intros x Hx Hx'. apply list_elem_of_singleton in Hx'. now subst.
Qed.

Lemma recorded_NoDup k n freq :
  NoDup freq.*1 -> (k, n) ∈ freq -> recorded k freq = n.
Proof.
  induction freq as [|[k' n'] rest IH]; intros Hnd Hin.
  - apply elem_of_nil in Hin. contradiction.
  - cbn in Hnd. apply NoDup_cons in Hnd. destruct Hnd as [Hk' Hnd].
    apply elem_of_cons in Hin. cbn [recorded]. destruct Hin as [E|Hin].
    + inversion E; subst. now rewrite String.eqb_refl.
    + destruct (String.eqb_spec k' k) as [->|_]; [|now apply IH].
      exfalso. apply Hk'. apply (list_elem_of_fmap_2 fst) in Hin. exact Hin.
Qed.

Section Concepts.

Variable m : NeuralModel.

Lemma occurrences_of_cons k t tokens :
  occurrences_of k (t :: tokens)
  = ((if String.eqb k t then 1 else 0) + occurrences_of k tokens)%nat.
Proof. unfold occurrences_of. cbn [List.filter]. destruct (String.eqb k t); reflexivity. Qed.

Lemma count_recorded tokens : forall acc k,
  recorded k (fold_left (count_step m) tokens acc)
  = (recorded k acc
     + if bool_decide (k ∈ vocabulary m) then occurrences_of k tokens else 0)%nat.
Proof.
  induction tokens as [|t tokens IH]; intros acc k; cbn [fold_left].
  - unfold occurrences_of. cbn. destruct (bool_decide _); lia.
  - rewrite IH, occurrences_of_cons. unfold count_step.
    rewrite (String.eqb_sym k t).
    case_bool_decide as Ht.
    + rewrite recorded_bump.
      destruct (String.eqb_spec t k) as [->|Hne].
      * rewrite bool_decide_eq_true_2 by exact Ht. lia.
      * destruct (bool_decide _); lia.
    + destruct (String.eqb_spec t k) as [->|Hne].
      * rewrite bool_decide_eq_false_2 by exact Ht. lia.
      * destruct (bool_decide _); lia.
Qed.

Lemma count_NoDup tokens : forall acc,
  NoDup acc.*1 -> NoDup (fold_left (count_step m) tokens acc).*1.
Proof.
  induction tokens as [|t tokens IH]; intros acc H; cbn [fold_left]; [exact H|].
  apply IH. unfold count_step. destruct (bool_decide _); [now apply bump_NoDup | exact H].
Qed.

Lemma count_keys tokens : forall acc k,
  k ∈ (fold_left (count_step m) tokens acc).*1
  <-> k ∈ acc.*1 \/ (k ∈ tokens /\ k ∈ vocabulary m).
Proof.
  induction tokens as [|t tokens IH]; intros acc k; cbn [fold_left].
  - split; [tauto|]. intros [H|[H _]]; [exact H|]. apply elem_of_nil in H. contradiction.
  - rewrite IH. unfold count_step. rewrite elem_of_cons.
    case_bool_decide as Ht.
    + rewrite bump_keys. case_bool_decide as Hk.
      * split; [tauto|]. intros [H|[[->|H] Hv]]; tauto.
      * rewrite elem_of_app, list_elem_of_singleton.
        split; [intros [[H| ->]|H]; tauto|].
        intros [H|[[->|H] Hv]]; tauto.
    + split; [tauto|]. intros [H|[[->|H] Hv]]; tauto.
Qed.

(** Sorting by decreasing count. *)

Lemma insert_desc_perm x l : insert_desc x l ≡ₚ x :: l.
Proof.
  induction l as [|y l IH]; cbn [insert_desc]; [reflexivity|].
  destruct (snd x <? snd y)%nat; [|reflexivity].
  rewrite IH. apply Permutation_swap.
Qed.

Lemma sort_desc_perm l : sort_desc l ≡ₚ l.
Proof.
  induction l as [|x l IH]; [reflexivity|].
  cbn [sort_desc fold_right]. rewrite insert_desc_perm.
  constructor. exact IH.
Qed.

Lemma insert_desc_sorted x l :
  StronglySorted by_count l -> StronglySorted by_count (insert_desc x l).
Proof.
  induction 1 as [|y l Hl IH Hy]; cbn [insert_desc].
  - repeat constructor.
  - destruct (snd x <? snd y)%nat eqn:E.
    + apply Nat.ltb_lt in E. constructor; [exact IH|].
      rewrite insert_desc_perm. constructor; [unfold by_count; lia | exact Hy].
    + apply Nat.ltb_ge in E. constructor; [constructor; assumption|].
      constructor; [exact E|].
      eapply Forall_impl; [exact Hy|]. unfold by_count. intros z Hz. lia.
Qed.

Lemma sort_desc_sorted l : StronglySorted by_count (sort_desc l).
Proof.
  induction l as [|x l IH]; [constructor|].
  cbn [sort_desc fold_right]. now apply insert_desc_sorted.
Qed.

Lemma sorted_lookup {A} (R : A -> A -> Prop) (l : list A) :
  StronglySorted R l ->
  forall i j x y, (i < j)%nat -> l !! i = Some x -> l !! j = Some y -> R x y.
Proof.
  induction 1 as [|a l Hl IH Ha]; intros i j x y Hij Hi Hj.
  - rewrite lookup_nil in Hi. discriminate.
  - destruct j as [|j]; [lia|]. cbn in Hj.
    destruct i as [|i]; cbn in Hi.
    + inversion Hi; subst. rewrite Forall_forall in Ha. apply Ha.
      eapply list_elem_of_lookup_2. exact Hj.
    + apply (IH i j); [lia|assumption..].
Qed.

Lemma extractConcepts_table tokens :
  extractConcepts m tokens = (take 5 (sort_desc (table m tokens))).*1.
Proof. reflexivity. Qed.

Lemma table_entry tokens k n :
  (k, n) ∈ sort_desc (table m tokens) ->
  k ∈ vocabulary m /\ k ∈ tokens /\ n = occurrences_of k tokens.
Proof.
  intros H. rewrite sort_desc_perm in H.
  assert (Hk : k ∈ (table m tokens).*1) by (apply (list_elem_of_fmap_2 fst) in H; exact H).
  apply count_keys in Hk. destruct Hk as [Hk|[Hk Hv]].
  { cbn in Hk. apply elem_of_nil in Hk. contradiction. }
  split; [exact Hv|]. split; [exact Hk|].
  pose proof (recorded_NoDup k n (table m tokens)
                (count_NoDup tokens [] (NoDup_nil_2)) H) as Hr.
  unfold table in Hr. rewrite count_recorded in Hr.
  rewrite bool_decide_eq_true_2 in Hr by exact Hv. cbn in Hr. lia.
Qed.

(** X12.  [extractConcepts] returns at most five concepts, without
    repetition, each a word of the vocabulary that occurs among the tokens;
    and a vocabulary word of the tokens that is left out is left out only
    when five concepts were returned, each of which occurs at least as
    often. *)
Theorem extractConcepts_selection (tokens : list string) :
  let concepts := extractConcepts m tokens in
  (length concepts <= 5)%nat
  /\ NoDup concepts
  /\ (forall c, c ∈ concepts -> c ∈ vocabulary m /\ c ∈ tokens)
  /\ (forall t, t ∈ tokens -> t ∈ vocabulary m -> t ∉ concepts ->
      length concepts = 5%nat
      /\ forall c, c ∈ concepts ->
           (occurrences_of t tokens <= occurrences_of c tokens)%nat).
Proof.
  cbv zeta. rewrite extractConcepts_table.
  set (sorted := sort_desc (table m tokens)).
  assert (Hnd : NoDup sorted.*1).
  { unfold sorted. rewrite sort_desc_perm. apply count_NoDup. constructor. }
  assert (Hsorted : StronglySorted by_count (take 5 sorted ++ drop 5 sorted)%list).
  { rewrite take_drop. apply sort_desc_sorted. }
  split; [|split; [|split]].
  - rewrite length_fmap, length_take. lia.
  - rewrite <- (take_drop 5 sorted), fmap_app in Hnd.
    apply NoDup_app in Hnd. tauto.
  - intros c Hc. apply list_elem_of_fmap in Hc. destruct Hc as ([k n] & -> & Hin).
    cbn [fst]. apply elem_of_take in Hin. destruct Hin as (i & Hi & _).
    apply list_elem_of_lookup_2 in Hi.
    destruct (table_entry tokens k n Hi) as (? & ? & _). tauto.
  - intros t Ht Hv Hnot.
    assert (Hin : (t, occurrences_of t tokens) ∈ sorted).
    { assert (Hk : t ∈ (table m tokens).*1) by (apply count_keys; right; tauto).
      apply list_elem_of_fmap in Hk. destruct Hk as ([k n] & E & Hk). cbn in E. subst k.
      assert (Hs : (t, n) ∈ sorted) by (unfold sorted; rewrite sort_desc_perm; exact Hk).
      destruct (table_entry tokens t n Hs) as (_ & _ & ->). exact Hs. }
    rewrite <- (take_drop 5 sorted) in Hin. apply elem_of_app in Hin.
    destruct Hin as [Hin|Hin].
    { exfalso. apply Hnot. apply (list_elem_of_fmap_2 fst) in Hin. exact Hin. }
    split.
    + rewrite length_fmap, length_take.
      assert (5 < length sorted)%nat; [|lia].
      destruct (le_lt_dec (length sorted) 5) as [Hle|Hlt]; [|exact Hlt].
      rewrite drop_ge in Hin by exact Hle. apply elem_of_nil in Hin. contradiction.
    + intros c Hc. apply list_elem_of_fmap in Hc. destruct Hc as ([k n] & -> & Hc).
      cbn [fst].
      pose proof (StronglySorted_app_1_elem_of _ _ _ _ _ Hsorted Hc Hin) as Hle.
      unfold by_count in Hle. cbn [snd] in Hle.
      assert (Hs : (k, n) ∈ sorted).
      { rewrite <- (take_drop 5 sorted). apply elem_of_app. now left. }
      destruct (table_entry tokens k n Hs) as (_ & _ & ->). exact Hle.
Qed.

(** X13.  The concepts are returned by decreasing frequency: a concept
    never occurs less often among the tokens than a concept listed after
    it. *)
Theorem extractConcepts_order (tokens : list string) (i j : nat) (c d : string) :
  (i < j)%nat ->
  extractConcepts m tokens !! i = Some c ->
  extractConcepts m tokens !! j = Some d ->
  (occurrences_of d tokens <= occurrences_of c tokens)%nat.
Proof.
  intros Hij Hi Hj. rewrite extractConcepts_table in Hi, Hj.
  rewrite list_lookup_fmap in Hi, Hj.
  destruct (take 5 (sort_desc (table m tokens)) !! i) as [[k n]|] eqn:Ei; [|discriminate].
  destruct (take 5 (sort_desc (table m tokens)) !! j) as [[k' n']|] eqn:Ej; [|discriminate].
  cbn in Hi, Hj. inversion Hi; inversion Hj; subst.
  assert (Hs : StronglySorted by_count (take 5 (sort_desc (table m tokens)))).
  { eapply StronglySorted_app_1_l. rewrite take_drop. apply sort_desc_sorted. }
  pose proof (sorted_lookup _ _ Hs i j _ _ Hij Ei Ej) as Hle.
  unfold by_count in Hle. cbn [snd] in Hle.
  apply list_elem_of_lookup_2 in Ei, Ej.
  apply elem_of_take in Ei, Ej.
  destruct Ei as (? & Ei & _), Ej as (? & Ej & _).
  apply list_elem_of_lookup_2 in Ei, Ej.
  destruct (table_entry tokens c n Ei) as (_ & _ & ->).
  destruct (table_entry tokens d n' Ej) as (_ & _ & ->). exact Hle.
Qed.

End Concepts.

Lemma extractConcepts_order_witness :
  (Notions.occurrences_of "fire" ["fire"; "glow"; "glow"; "wave"]
   <= Notions.occurrences_of "glow" ["fire"; "glow"; "glow"; "wave"])%nat.
Proof.
  apply (extractConcepts_order Notions.loaded_model
           ["fire"; "glow"; "glow"; "wave"] 0 1 "glow" "fire");
    [lia | vm_compute; reflexivity | vm_compute; reflexivity].
Defined.

(** *** The life cycle of the engine *)






End AiEngineFacts.

(** ** The store and the generation route *)

Module ServerFacts.

Import Js Validator Server.

Section Route.

Variable generateEffect : EffectGenerationRequest -> result Effect.
Variable duration : EffectGenerationRequest -> Z.
Variable numberToString : Q -> string.
Variable stringify : Effect -> string.

(** Running a sequence: the first computation returns or throws. *)
Lemma mbind_ok {A B : Type} (m : M A) (k : A -> M B) (w w' : World) (a : A) :
  m w = (w', Ok a) -> mbind m k w = k a w'.
Proof. intros H. unfold mbind. now rewrite H. Qed.

Lemma mbind_throw {A B : Type} (m : M A) (k : A -> M B) (w w' : World) msg :
  m w = (w', Throw msg) -> mbind m k w = (w', Throw msg).
Proof. intros H. unfold mbind. now rewrite H. Qed.

Lemma try_catch_throw {A : Type} (body : M A) (handler : string -> M A)
  (w w' : World) msg :
  body w = (w', Throw msg) -> try_catch body handler w = handler msg w'.
Proof. intros H. unfold try_catch. now rewrite H. Qed.

(** An update of a session that the store does not hold throws and
    changes nothing. *)
Lemma updateAiSession_unknown (id : nat) (updates : SessionFields) (w : World) :
  aiSessions w !! id = None ->
  updateAiSession id updates w = (w, Throw "AI Session not found").
Proof.
  intros H. unfold updateAiSession.
  rewrite (mbind_ok _ _ w w None) by (unfold get_session; now rewrite H).
  reflexivity.
Qed.

Lemma createAiSession_run (insertSession : InsertAiSession) (w : World) :
  createAiSession insertSession w
  = (let session :=
       {| s_id := uuids w;
          s_prompt := i_prompt insertSession;
          s_response := i_response insertSession;
          s_effectId := i_effectId insertSession;
          s_status := or_default (i_status insertSession) "processing";
          s_processingTime := i_processingTime insertSession;
          s_constitutionScore := i_constitutionScore insertSession;
          s_createdAt := now w;
          s_completedAt := None |} in
     (with_sessions (with_uuids w (S (uuids w)))
        (<[uuids w := session]> (aiSessions w)), Ok session)).
Proof. reflexivity. Qed.

Lemma createEffect_run (insertEffect : Effect) (w : World) :
  createEffect insertEffect w
  = (with_effects (with_uuids w (S (uuids w)))
       (<[uuids w := stamp_effect insertEffect (uuids w) (now w)]> (effects w)),
     Ok (stamp_effect insertEffect (uuids w) (now w))).
Proof. reflexivity. Qed.

(** The background task when the generator throws and [sessionId] names
    no session: the rejection carries the error of the failed update. *)
Lemma generateEffectAsync_failure
  (sessionId : nat) (w : World) (request : EffectGenerationRequest) message :
  generateEffect request = Throw message ->
  aiSessions w !! sessionId = None ->
  generateEffectAsync generateEffect duration numberToString stringify
    sessionId request w
  = (with_now w (now w + duration request)%Z, Throw "AI Session not found").
Proof.
  intros Hgen Hnone. unfold generateEffectAsync.
  rewrite (mbind_ok _ _ w w (now w)) by reflexivity.
  erewrite try_catch_throw.
  2:{ apply mbind_throw. unfold run_generateEffect.
      erewrite mbind_ok by reflexivity. now rewrite Hgen. }
  erewrite mbind_ok by reflexivity.
  erewrite mbind_throw; [reflexivity|].
  apply updateAiSession_unknown. exact Hnone.
Qed.

Lemma post_generate_failure
  (w : World) (request : EffectGenerationRequest) (message : string) :
  generateEffect request = Throw message ->
  aiSessions w !! uuids w = None ->
  post_generate generateEffect duration numberToString stringify request w
  = (Spec.world_after_failure w request (duration request), Ok (uuids w)).
Proof.
  intros Hgen Hfresh. unfold post_generate.
  erewrite mbind_ok by reflexivity.
  erewrite mbind_ok by apply createAiSession_run.
  erewrite mbind_ok.
  2:{ erewrite try_catch_throw.
      2:{ apply (generateEffectAsync_failure _ _ _ message Hgen).
          cbn [with_sessions with_uuids aiSessions uuids].
          rewrite lookup_insert_ne by lia. exact Hfresh. }
      reflexivity. }
  reflexivity.
Qed.

(** C4.  The handler draws [sessionId] and then lets the store draw the
    identifier of the session it creates, so [sessionId] names no session.
    When the generator throws, the update of the catch block throws in its
    turn ('AI Session not found', which is only logged): the session stays
    in the state 'processing' with no message and no processing time, no
    session is marked 'error', and no effect is stored. *)
Theorem failed_generation_leaves_session_processing
  (w : World) (request : EffectGenerationRequest) (message : string) :
  generateEffect request = Throw message ->
  aiSessions w !! uuids w = None ->
  let run := post_generate generateEffect duration numberToString stringify
               request w in
  snd run = Ok (uuids w)
  /\ aiSessions (fst run)
     = <[S (uuids w) := Spec.created_session w request]> (aiSessions w)
  /\ aiSessions (fst run) !! uuids w = None
  /\ effects (fst run) = effects w
  /\ console (fst run) = (console w ++ ["AI Session not found"])%list.
Proof.
  intros Hgen Hfresh. cbv zeta.
  rewrite (post_generate_failure w request message Hgen Hfresh).
  cbn [fst snd Spec.world_after_failure aiSessions effects console].
  repeat split.
  rewrite lookup_insert_ne by lia. exact Hfresh.
Qed.

(** X20.  When the generator returns, the route stores the effect under
    a new identifier, but the update that should complete the session
    names no session either: the session stays as it was created and
    'AI Session not found' is logged. *)
Lemma successful_generation_leaves_session_processing
  (w : World) (request : EffectGenerationRequest) (effect : Effect) :
  generateEffect request = Ok effect ->
  aiSessions w !! uuids w = None ->
  let run := post_generate generateEffect duration numberToString stringify
               request w in
  aiSessions (fst run)
  = <[S (uuids w) := Spec.created_session w request]> (aiSessions w)
  /\ is_Some (effects (fst run) !! S (S (uuids w)))
  /\ console (fst run) = (console w ++ ["AI Session not found"])%list.
Proof.
  intros Hgen Hfresh. cbv zeta. unfold post_generate.
  erewrite mbind_ok by reflexivity.
  erewrite mbind_ok by apply createAiSession_run.
  erewrite mbind_ok.
  2:{ erewrite try_catch_throw.
      2:{ unfold generateEffectAsync.
          erewrite mbind_ok by reflexivity.
          erewrite try_catch_throw.
          2:{ erewrite mbind_ok.
              2:{ unfold run_generateEffect.
                  erewrite mbind_ok by reflexivity. now rewrite Hgen. }
              cbv zeta.
              erewrite mbind_ok by apply createEffect_run.
              erewrite mbind_ok by reflexivity.
              erewrite mbind_throw; [reflexivity|].
              apply updateAiSession_unknown.
              cbn [with_effects with_sessions with_uuids with_now
                   aiSessions uuids].
              rewrite lookup_insert_ne by lia. exact Hfresh. }
          erewrite mbind_ok by reflexivity.
          erewrite mbind_throw; [reflexivity|].
          apply updateAiSession_unknown.
          cbn [with_effects with_sessions with_uuids with_now
               aiSessions uuids].
          rewrite lookup_insert_ne by lia. exact Hfresh. }
      reflexivity. }
  cbn [fst snd ret with_console with_effects with_sessions with_uuids with_now
       aiSessions effects console uuids Validator.id].
  repeat split. rewrite lookup_insert_eq. eauto.
Qed.


(** *** Sessions over the life of the server *)

(** What the generation route does to the sessions, whether the generator
    returns or throws. *)
Lemma post_generate_sessions (w : World) (request : EffectGenerationRequest) :
  aiSessions w !! uuids w = None ->
  let run := post_generate generateEffect duration numberToString stringify
               request w in
  snd run = Ok (uuids w)
  /\ aiSessions (fst run)
     = <[S (uuids w) := Spec.created_session w request]> (aiSessions w)
  /\ (S (S (uuids w)) <= uuids (fst run))%nat.
Proof.
  intros Hfresh. cbv zeta.
  destruct (generateEffect request) as [effect|message] eqn:Hgen.
  - unfold post_generate.
    erewrite mbind_ok by reflexivity.
    erewrite mbind_ok by apply createAiSession_run.
    erewrite mbind_ok.
    2:{ erewrite try_catch_throw.
        2:{ unfold generateEffectAsync.
            erewrite mbind_ok by reflexivity.
            erewrite try_catch_throw.
            2:{ erewrite mbind_ok.
                2:{ unfold run_generateEffect.
                    erewrite mbind_ok by reflexivity. now rewrite Hgen. }
                cbv zeta.
                erewrite mbind_ok by apply createEffect_run.
                erewrite mbind_ok by reflexivity.
                erewrite mbind_throw; [reflexivity|].
                apply updateAiSession_unknown.
                cbn [with_effects with_sessions with_uuids with_now
                     aiSessions uuids].
                rewrite lookup_insert_ne by lia. exact Hfresh. }
            erewrite mbind_ok by reflexivity.
            erewrite mbind_throw; [reflexivity|].
            apply updateAiSession_unknown.
            cbn [with_effects with_sessions with_uuids with_now
                 aiSessions uuids].
            rewrite lookup_insert_ne by lia. exact Hfresh. }
        reflexivity. }
    cbn [fst snd ret with_console with_effects with_sessions with_uuids with_now
         aiSessions effects console uuids Validator.id].
    repeat split. lia.
  - rewrite (post_generate_failure w request message Hgen Hfresh).
    cbn [fst snd Spec.world_after_failure aiSessions uuids]. repeat split. lia.
Qed.

Lemma get_effect_world (id : nat) (w : World) : fst (get_effect id w) = w.
Proof.
  unfold get_effect, try_catch, mbind, getEffect.
  destruct (effects w !! id); reflexivity.
Qed.

Lemma get_session_world (id : nat) (w : World) : fst (get_session_by_id id w) = w.
Proof.
  unfold get_session_by_id, try_catch, mbind, getAiSession, get_session.
  destruct (aiSessions w !! id); reflexivity.
Qed.

Lemma delete_effect_world (id : nat) (w : World) :
  aiSessions (fst (delete_effect id w)) = aiSessions w
  /\ uuids (fst (delete_effect id w)) = uuids w.
Proof.
  unfold delete_effect, try_catch, mbind, deleteEffect.
  destruct (effects w !! id); split; reflexivity.
Qed.

(** What one step does to the sessions: it keeps them, or adds a newly
    created one under an identifier that was still to be drawn. *)
Lemma step_sessions (w w' : World) :
  Notions.fresh w ->
  Notions.step generateEffect duration numberToString stringify w w' ->
  Notions.fresh w' /\ (uuids w <= uuids w')%nat
  /\ forall k, aiSessions w' !! k = aiSessions w !! k
               \/ ((uuids w <= k)%nat
                   /\ exists request,
                        aiSessions w' !! k = Some (Spec.created_session w request)).
Proof.
  intros Hf Hstep. destruct Hstep as [request w|id w|id w|id w|d w].
  - destruct (post_generate_sessions w request (Hf _ (le_n _))) as (_ & Hs & Hu).
    split; [|split].
    + intros k Hk. rewrite Hs. rewrite lookup_insert_ne by lia. apply Hf. lia.
    + lia.
    + intros k. rewrite Hs. destruct (decide (k = S (uuids w))) as [->|Hne].
      * right. split; [lia|]. exists request. apply lookup_insert_eq.
      * left. now rewrite lookup_insert_ne by congruence.
  - destruct (delete_effect_world id w) as [Hs Hu].
    split; [|split].
    + intros k Hk. rewrite Hs. apply Hf. lia.
    + lia.
    + intros k. left. now rewrite Hs.
  - rewrite get_effect_world. split; [exact Hf|]. split; [lia|]. now left.
  - rewrite get_session_world. split; [exact Hf|]. split; [lia|]. now left.
  - split; [exact Hf|]. split; [cbn; lia|]. now left.
Qed.

Lemma new_world_fresh (t0 : Z) : Notions.fresh (new_world t0).
Proof. intros k _. reflexivity. Qed.

Lemma created_untouched (w : World) (request : EffectGenerationRequest) :
  Notions.untouched (Spec.created_session w request).
Proof. repeat split. Qed.

Lemma steps_sessions (w w' : World) :
  Notions.fresh w ->
  Notions.steps generateEffect duration numberToString stringify w w' ->
  Notions.fresh w' /\ (uuids w <= uuids w')%nat
  /\ forall k s, aiSessions w' !! k = Some s ->
                 aiSessions w !! k = Some s
                 \/ ((uuids w <= k)%nat /\ Notions.untouched s).
Proof.
  intros Hf Hsteps. induction Hsteps as [w|w1 w2 w3 _ IH Hstep].
  - split; [exact Hf|]. split; [lia|]. intros k s H. now left.
  - destruct (IH Hf) as (Hf2 & Hu2 & Hk2).
    destruct (step_sessions w2 w3 Hf2 Hstep) as (Hf3 & Hu3 & Hk3).
    split; [exact Hf3|]. split; [lia|].
    intros k s Hs. destruct (Hk3 k) as [E|(Hk & request & E)].
    + rewrite E in Hs. apply Hk2. exact Hs.
    + rewrite E in Hs. inversion Hs; subst. right. split; [lia|].
      apply created_untouched.
Qed.

(** X19.  On a running server, each generation being run to its end
    before the next request, no session ever leaves the state in which it
    was created (status 'processing', no response, no effect, no completion
    time); and the [sessionId] that the generation route answers never
    names a session, then or later: reading it back answers 404 'Session
    not found'. *)
Theorem sessions_stay_processing (w : World) :
  Notions.running generateEffect duration numberToString stringify w ->
  (forall k s, aiSessions w !! k = Some s -> Notions.untouched s)
  /\ forall request,
       let run := post_generate generateEffect duration numberToString stringify
                    request w in
       exists sessionId,
         snd run = Ok sessionId
         /\ forall w',
              Notions.steps generateEffect duration numberToString stringify
                (fst run) w' ->
              aiSessions w' !! sessionId = None
              /\ get_session_by_id sessionId w'
                 = (w', Ok {| status := 404;
                              body := error_body "Session not found" |}).
Proof.
  intros [t0 Hrun].
  destruct (steps_sessions _ _ (new_world_fresh t0) Hrun) as (Hf & _ & Hk).
  split.
  - intros k s Hs. destruct (Hk k s Hs) as [H|[_ H]]; [discriminate H | exact H].
  - intros request. cbv zeta. exists (uuids w).
    destruct (post_generate_sessions w request (Hf _ (le_n _))) as (Hr & Hs & Hu).
    split; [exact Hr|]. intros w' Hsteps.
    assert (Hf1 : Notions.fresh
                    (fst (post_generate generateEffect duration numberToString
                            stringify request w))).
    { apply (step_sessions w); [exact Hf | constructor]. }
    destruct (steps_sessions _ _ Hf1 Hsteps) as (_ & _ & Hk').
    assert (Hnone : aiSessions w' !! uuids w = None).
    { destruct (aiSessions w' !! uuids w) as [s|] eqn:E; [|reflexivity].
      destruct (Hk' _ _ E) as [H|[H _]]; [|lia].
      rewrite Hs in H. rewrite lookup_insert_ne in H by lia.
      rewrite (Hf _ (le_n _)) in H. discriminate. }
    split; [exact Hnone|].
    unfold get_session_by_id, try_catch, mbind, getAiSession, get_session.
    rewrite Hnone. reflexivity.
Qed.

(** X21.  Deleting an effect that the store does not hold answers 500
    with 'Effect not found' and changes nothing.  Deleting one that it
    holds answers 200 and removes that effect only: reading it then
    answers 404 and deleting it again answers 500. *)
Theorem delete_effect_cases (id : nat) (w : World) :
  match effects w !! id with
  | None =>
      delete_effect id w
      = (w, Ok {| status := 500; body := error_body "Effect not found" |})
  | Some _ =>
      let w' := fst (delete_effect id w) in
      snd (delete_effect id w)
      = Ok {| status := 200; body := success_body "Effect deleted" |}
      /\ effects w' = delete id (effects w)
      /\ get_effect id w'
         = (w', Ok {| status := 404; body := error_body "Effect not found" |})
      /\ delete_effect id w'
         = (w', Ok {| status := 500; body := error_body "Effect not found" |})
      /\ forall other, other <> id -> effects w' !! other = effects w !! other
  end.
Proof.
  destruct (effects w !! id) as [e|] eqn:E.
  - cbv zeta.
    assert (H : delete_effect id w
                = (with_effects w (delete id (effects w)),
                   Ok {| status := 200; body := success_body "Effect deleted" |})).
    { unfold delete_effect, try_catch, mbind, deleteEffect. rewrite E. reflexivity. }
    rewrite H. cbn [fst snd].
    assert (Hgone : effects (with_effects w (delete id (effects w))) !! id = None)
      by apply lookup_delete_eq.
    repeat split.
    + unfold get_effect, try_catch, mbind, getEffect. rewrite Hgone. reflexivity.
    + unfold delete_effect, try_catch, mbind, deleteEffect. rewrite Hgone. reflexivity.
    + intros other Hne. cbn [effects with_effects]. now rewrite lookup_delete_ne.
  - unfold delete_effect, try_catch, mbind, deleteEffect. rewrite E. reflexivity.
Qed.

End Route.

(** In the world of a new store, with a generator that throws. *)
Lemma failed_generation_leaves_session_processing_witness :
  let run := post_generate Inputs.failingGenerator (fun _ => 40%Z)
               Inputs.integerToString (fun _ => "{}") Inputs.request
               (new_world 0) in
  aiSessions (fst run) !! 2%nat
  = Some (Spec.created_session (new_world 0) Inputs.request)
  /\ aiSessions (fst run) !! 1%nat = None
  /\ console (fst run) = ["AI Session not found"].
Proof.
  destruct (failed_generation_leaves_session_processing
              Inputs.failingGenerator (fun _ => 40%Z) Inputs.integerToString
              (fun _ => "{}") (new_world 0) Inputs.request
              "Template rendering failed" eq_refl eq_refl)
    as (_ & Hs & Hnone & _ & Hc).
  cbv zeta. split; [|split].
  - rewrite Hs. apply lookup_insert_eq.
  - exact Hnone.
  - exact Hc.
Defined.


(** On a new store the sample generator succeeds: the effect is stored and
    the session stays as it was created. *)
Lemma successful_generation_leaves_session_processing_witness :
  let run := post_generate Inputs.sampleGenerator (fun _ => 40%Z)
               Inputs.integerToString (fun _ => "{}") Inputs.request
               (new_world 0) in
  aiSessions (fst run) !! 2%nat
  = Some (Spec.created_session (new_world 0) Inputs.request)
  /\ is_Some (effects (fst run) !! 3%nat).
Proof.
  destruct (successful_generation_leaves_session_processing
              Inputs.sampleGenerator (fun _ => 40%Z) Inputs.integerToString
              (fun _ => "{}") (new_world 0) Inputs.request Inputs.plasma
              eq_refl eq_refl)
    as (Hs & He & _).
  cbv zeta. split; [|exact He].
  rewrite Hs. apply lookup_insert_eq.
Defined.

(** On a new store: the identifier that the route answers names no
    session. *)
Lemma sessions_stay_processing_witness :
  let run := post_generate Inputs.failingGenerator (fun _ => 40%Z)
               Inputs.integerToString (fun _ => "{}") Inputs.request
               (new_world 0) in
  exists sessionId,
    snd run = Ok sessionId /\ aiSessions (fst run) !! sessionId = None.
Proof.
  destruct (sessions_stay_processing Inputs.failingGenerator (fun _ => 40%Z)
              Inputs.integerToString (fun _ => "{}") (new_world 0))
    as [_ H].
  { exists 0%Z. apply Notions.steps_refl. }
  destruct (H Inputs.request) as (sessionId & Hr & Hw).
  cbv zeta. exists sessionId. split; [exact Hr|].
  apply Hw. apply Notions.steps_refl.
Defined.

End ServerFacts.

(** ** Worked examples *)

Module Examples.

Example includes_ex : Js.includes "Count" "particleCount = 5" = true.
Proof. reflexivity. Qed.

Example replace_ex :
  Js.replace "init() {" "init() { x();" "a init() { init() {" = "a init() { x(); init() {".
Proof. reflexivity. Qed.

Example round_half_up : Js.round (5 # 2) = 3%Z /\ Js.round (- (5 # 2)) = (-2)%Z.
Proof. split; reflexivity. Qed.

Example optimize_mobile_999 :
  Generator.optimizeForPlatform "this.particleCount = 999;" "mobile"
  = "this.particleCount = 50;".
Proof. reflexivity. Qed.

Example optimize_desktop_spacing :
  Generator.optimizeForPlatform "particleCount=7; particleCount  =
 12" "desktop"
  = "particleCount = 200; particleCount = 200".
Proof. reflexivity. Qed.

Example optimize_memory_ex :
  Generator.optimizeMemoryUsage "a = new Array(128); setInterval(f, 5)"
  = "a = []; requestAnimationFrame(f, 5)".
Proof. reflexivity. Qed.

Example tokenize_ex :
  AiEngine.tokenizeContent "A FAST, explosive-particle burst!  ok"
  = ["fast"; "explosive"; "particle"; "burst"].
Proof. reflexivity. Qed.

Example tokenize_empty : AiEngine.tokenizeContent "" = [].
Proof. reflexivity. Qed.

Example sort_desc_stable :
  AiEngine.sort_desc [("fast", 1); ("particle", 2); ("smooth", 1); ("fade", 2)]%nat
  = [("particle", 2); ("fade", 2); ("fast", 1); ("smooth", 1)]%nat.
Proof. reflexivity. Qed.

End Examples.
